(** * tf-registry: protocol-to-storage mapping of the registry server

    A shallow embedding of [main.go] (package [main] of nalbury/tf-registry)
    together with the parts of the Go libraries its handlers call:
    [strings], [path/filepath], [encoding/json], [net/http] and the chi
    router.  Library behaviour follows the Go 1.16 sources (the first
    release with [io/fs], which the program imports) on a Unix target, and
    chi v5.

    Go strings are byte strings; they are modelled by [string], one [ascii]
    per byte. *)

From Stdlib Require Import String Ascii List Bool Arith Lia Permutation DecimalString.
Import ListNotations.
Open Scope list_scope.
Open Scope string_scope.

(* ------------------------------------------------------------------ *)
(** ** Package [strings] *)

Module strings.

(** [strings.HasPrefix(s, prefix)] *)
Fixpoint HasPrefix (s pre : string) {struct pre} : bool :=
  match pre with
  | EmptyString => true
  | String a pre' =>
      match s with
      | EmptyString => false
      | String b s' => Ascii.eqb a b && HasPrefix s' pre'
      end
  end.

(** [s[n:]], for [n <= len(s)] *)
Fixpoint drop (n : nat) (s : string) : string :=
  match n, s with
  | S n', String _ s' => drop n' s'
  | _, _ => s
  end.

(** [strings.TrimPrefix(s, prefix)] *)
Definition TrimPrefix (s pre : string) : string :=
  if HasPrefix s pre then drop (String.length pre) s else s.

(** [strings.HasSuffix(s, suffix)] *)
Definition HasSuffix (s suf : string) : bool :=
  Nat.leb (String.length suf) (String.length s)
  && (drop (String.length s - String.length suf) s =? suf).

(** [strings.Split(s, sep)] for a one-byte separator: the fields between
    the separators, empty fields included; never the empty list. *)
Fixpoint Split (s : string) (sep : ascii) : list string :=
  match s with
  | EmptyString => [""]
  | String c s' =>
      if Ascii.eqb c sep then "" :: Split s' sep
      else match Split s' sep with
           | field :: fields => String c field :: fields
           | [] => [String c ""]
           end
  end.

(** [strings.Join(elems, sep)] *)
Definition Join (elems : list string) (sep : string) : string :=
  String.concat sep elems.

(** [strings.Contains(s, substr)] *)
Fixpoint Contains (s sub : string) : bool :=
  HasPrefix s sub
  || match s with
     | EmptyString => false
     | String _ s' => Contains s' sub
     end.

(** [strings.IndexByte(s, c) >= 0] *)
Fixpoint ContainsByte (s : string) (c : ascii) : bool :=
  match s with
  | EmptyString => false
  | String a s' => Ascii.eqb a c || ContainsByte s' c
  end.

(** [strings.TrimSuffix(s, suffix)] *)
Definition TrimSuffix (s suf : string) : string :=
  if HasSuffix s suf
  then substring 0 (String.length s - String.length suf) s else s.

(** The bytes of [s] before the first [c], all of [s] when it has none:
    [s[:strings.IndexByte(s, c)]]. *)
Fixpoint before (s : string) (c : ascii) : string :=
  match s with
  | EmptyString => ""
  | String a s' => if Ascii.eqb a c then "" else String a (before s' c)
  end.

(** The last byte of [s], if any: [s[len(s)-1]]. *)
Fixpoint last (s : string) : option ascii :=
  match s with
  | EmptyString => None
  | String c EmptyString => Some c
  | String _ s' => last s'
  end.

Definition lower (c : ascii) : ascii :=
  let n := nat_of_ascii c in
  if Nat.leb 65 n && Nat.leb n 90 then ascii_of_nat (n + 32) else c.

(** [strings.EqualFold(s, t)] for a [t] made of ASCII bytes only, which is
    how the program's one call site (the heartbeat endpoint) uses it.
    Under Unicode simple folding an ASCII letter equals its other case;
    besides, [s]/[S] equal U+017F (bytes C5 BF) and [k]/[K] equal U+212A
    (bytes E2 84 AA).  No other rune folds to an ASCII byte. *)
Fixpoint EqualFold (s t : string) : bool :=
  match t with
  | EmptyString => match s with EmptyString => true | _ => false end
  | String c t' =>
      match s with
      | EmptyString => false
      | String a s' =>
          if Ascii.eqb (lower a) (lower c) && Nat.ltb (nat_of_ascii a) 128
          then EqualFold s' t'
          else if Ascii.eqb (lower c) "s" then
            match s with
            | String "197" (String "191" s2) => EqualFold s2 t'
            | _ => false
            end
          else if Ascii.eqb (lower c) "k" then
            match s with
            | String "226" (String "132" (String "170" s3)) => EqualFold s3 t'
            | _ => false
            end
          else false
      end
  end.

End strings.

(* ------------------------------------------------------------------ *)
(** ** Package [path/filepath] (Unix), and [path], which cleans alike *)

Module filepath.

Definition Separator : ascii := "/"%char.

(** One round of the loop of [Clean], which consumes one path element.
    [out] is what the loop has written so far, as the list of its
    elements, last written first.  An empty element and [.] write
    nothing; [..] removes the last written element when there is one
    that is not itself [..] (Go: [out.w > dotdot]), is dropped at the top
    of a rooted path, and is written otherwise; any other element is
    written. *)
Definition cleanStep (rooted : bool) (out : list string) (e : string)
  : list string :=
  if (e =? "") || (e =? ".") then out
  else if e =? ".." then
    match out with
    | top :: below =>
        if top =? ".." then (if rooted then out else e :: out) else below
    | [] => if rooted then out else [e]
    end
  else e :: out.

(** The elements [Clean] has written when its loop ends. *)
Definition elements (rooted : bool) (path : string) : list string :=
  fold_left (cleanStep rooted) (strings.Split path Separator) [].

(** [filepath.Clean(path)] *)
Definition Clean (path : string) : string :=
  if path =? "" then "."
  else
    let rooted := strings.HasPrefix path "/" in
    let out := elements rooted path in
    let written := strings.Join (rev out) "/" in
    if rooted then "/" ++ written
    else if written =? "" then "." else written.

(** [filepath.Join(elem...)]: the elements from the first non-empty one
    on, joined with the separator and cleaned; the empty string when
    there is none. *)
Fixpoint Join (elem : list string) : string :=
  match elem with
  | [] => ""
  | e :: rest =>
      if e =? "" then Join rest else Clean (strings.Join elem "/")
  end.

(** [path.Base(p)]: the last element of [p], trailing slashes removed. *)
Definition Base (p : string) : string :=
  if p =? "" then "."
  else
    match filter (fun e => negb (e =? "")) (rev (strings.Split p Separator)) with
    | e :: _ => e
    | [] => "/"
    end.

End filepath.

(* ------------------------------------------------------------------ *)
(** ** Package [encoding/json]: what [Encoder.Encode] writes *)

Module json.

(** The documents the program's response types marshal to. *)
#[local] Unset Elimination Schemes.
Inductive Value : Type :=
| Null
| Str (s : string)
| Array (elems : list Value)
| Object (members : list (string * Value)).
#[local] Set Elimination Schemes.

Definition hexDigit (n : nat) : ascii :=
  match get n "0123456789abcdef" with
  | Some c => c
  | None => "0"%char
  end.

(** [htmlSafeSet[b]]: the ASCII bytes copied as they are when HTML
    escaping is on, which it is for an [Encoder] by default. *)
Definition htmlSafe (b : ascii) : bool :=
  let n := nat_of_ascii b in
  Nat.leb 32 n && Nat.ltb n 128
  && negb (Ascii.eqb b "034") && negb (Ascii.eqb b "\")
  && negb (Ascii.eqb b "<") && negb (Ascii.eqb b ">")
  && negb (Ascii.eqb b "&").

(** The escape written for an ASCII byte outside [htmlSafeSet]. *)
Definition escapeByte (b : ascii) : string :=
  let n := nat_of_ascii b in
  if Ascii.eqb b "\" || Ascii.eqb b "034" then String "\" (String b "")
  else if Nat.eqb n 10 then "\n"
  else if Nat.eqb n 13 then "\r"
  else if Nat.eqb n 9 then "\t"
  else "\u00" ++ String (hexDigit (n / 16)) (String (hexDigit (n mod 16)) "").

Definition between (lo hi : nat) (b : ascii) : bool :=
  Nat.leb lo (nat_of_ascii b) && Nat.leb (nat_of_ascii b) hi.

Definition cont (b : ascii) : bool := between 128 191 b.

(** [utf8.DecodeRuneInString]: the number of bytes of the well-formed
    multi-byte rune that starts [s], or [0] when [s] does not start with
    one (Go then decodes [RuneError] of width 1). *)
Definition runeWidth (s : string) : nat :=
  match s with
  | String b0 (String b1 rest) =>
      let n0 := nat_of_ascii b0 in
      if between 194 223 b0 then (if cont b1 then 2 else 0)
      else if between 224 239 b0 then
        let lo := if Nat.eqb n0 224 then 160 else 128 in
        let hi := if Nat.eqb n0 237 then 159 else 191 in
        match rest with
        | String b2 _ => if between lo hi b1 && cont b2 then 3 else 0
        | EmptyString => 0
        end
      else if between 240 244 b0 then
        let lo := if Nat.eqb n0 240 then 144 else 128 in
        let hi := if Nat.eqb n0 244 then 143 else 191 in
        match rest with
        | String b2 (String b3 _) =>
            if between lo hi b1 && cont b2 && cont b3 then 4 else 0
        | _ => 0
        end
      else 0
  | _ => 0
  end.

(** U+2028 and U+2029 are the bytes E2 80 A8 and E2 80 A9. *)
Definition lineSeparator (s : string) : option string :=
  match s with
  | String "226" (String "128" (String "168" _)) => Some "\u2028"
  | String "226" (String "128" (String "169" _)) => Some "\u2029"
  | _ => None
  end.

(** The body of [encodeState.string]: [pending] counts the bytes of the
    rune decoded last that are still to pass, [copy] tells whether they
    are copied (a rune written as it is) or dropped (one written as an
    escape). *)
Fixpoint escape (copy : bool) (pending : nat) (s : string) : string :=
  match s with
  | EmptyString => ""
  | String b rest =>
      match pending with
      | S k => (if copy then String b "" else "") ++ escape copy k rest
      | O =>
          if Nat.ltb (nat_of_ascii b) 128 then
            (if htmlSafe b then String b "" else escapeByte b)
            ++ escape true 0 rest
          else
            match runeWidth s with
            | O => "\ufffd" ++ escape true 0 rest
            | S k =>
                match lineSeparator s with
                | Some esc => esc ++ escape false k rest
                | None => String b (escape true k rest)
                end
            end
      end
  end.

(** The quotation mark, byte 34. *)
Definition quoteMark : string := String "034" "".

(** A Go string as a JSON string. *)
Definition quote (s : string) : string :=
  quoteMark ++ escape true 0 s ++ quoteMark.

Fixpoint marshal (v : Value) : string :=
  match v with
  | Null => "null"
  | Str s => quote s
  | Array elems =>
      "[" ++ String.concat "," (map marshal elems) ++ "]"
  | Object members =>
      "{" ++ String.concat ","
               (map (fun kv => quote (fst kv) ++ ":" ++ marshal (snd kv)) members)
          ++ "}"
  end.

(** A slice marshals to [null] when it is nil and to an array otherwise.
    The program only ever builds a slice by [append] to a nil one or by a
    non-empty literal, so that its slices are nil exactly when empty. *)
Definition ofSlice {A} (f : A -> Value) (l : list A) : Value :=
  match l with
  | [] => Null
  | _ => Array (map f l)
  end.

Fixpoint insertByKey (kv : string * string) (l : list (string * string))
  : list (string * string) :=
  match l with
  | [] => [kv]
  | kv' :: l' =>
      if String.leb (fst kv) (fst kv') then kv :: l
      else kv' :: insertByKey kv l'
  end.

(** A [map[string]string] (its entries, in any order, keys distinct)
    marshals to an object whose members are sorted by key. *)
Definition ofStringMap (m : list (string * string)) : Value :=
  Object (map (fun kv => (fst kv, Str (snd kv)))
              (fold_right insertByKey [] m)).

(** [json.NewEncoder(w).Encode(v)] writes the document and a newline. *)
Definition encode (v : Value) : string :=
  marshal v ++ String "010" "".

End json.

(* ------------------------------------------------------------------ *)
(** ** Package [io/fs]: the storage handle *)

Module fs.

(** What [errors.Is] tells [net/http] about an error, and [err.Error()]. *)
Inductive ErrKind : Type := ErrNotExist | ErrPermission | ErrOther.

Record Error : Type := { kind : ErrKind; message : string }.

Inductive result (A : Type) : Type :=
| Ok (a : A)
| Err (e : Error).
Arguments Ok {A} a.
Arguments Err {A} e.

Record DirEntry : Type := { Name : string; IsDir : bool }.

(** An opened file with what [Stat] and reading it give: the bytes of a
    regular file or the entries of a directory, and the modification
    time in HTTP format ([None] for the zero time). *)
Inductive File : Type :=
| Regular (content : string) (modTime : option string)
| Directory (entries : result (list DirEntry)) (modTime : option string).

(** The read-only store behind [s3fsys]: [fs.ReadDir(s3fsys, name)] and
    [s3fsys.Open(name)]. *)
Record FS : Type := {
  ReadDir : string -> result (list DirEntry);
  Open : string -> result File
}.

(** The calls a handler makes on the store. *)
Inductive Call : Type :=
| CallReadDir (name : string)
| CallOpen (name : string).

End fs.

(* ------------------------------------------------------------------ *)
(** ** Package [net/http]: requests, the response writer, [Error],
       [StripPrefix] and [FileServer] *)

Module http.

Definition StatusOK := 200.
Definition StatusNoContent := 204.
Definition StatusMovedPermanently := 301.
Definition StatusNotModified := 304.
Definition StatusForbidden := 403.
Definition StatusNotFound := 404.
Definition StatusMethodNotAllowed := 405.
Definition StatusInternalServerError := 500.

(** A request: method, [URL.Path], [URL.RawPath] (empty unless the path
    was sent in a non-default encoding), the URL parameters chi attached
    to its context, and whether it carries one of the headers [Range],
    [If-Range], [If-Match], [If-None-Match], [If-Modified-Since],
    [If-Unmodified-Since].  The query string is taken to be empty. *)
Record Request : Type := {
  Method : string;
  Path : string;
  RawPath : string;
  URLParams : list (string * string);
  Conditional : bool
}.

(** A header map as the handlers use it: one value per key, keys written
    in canonical form at every call site. *)
Definition Header := list (string * string).

Fixpoint HeaderSet (h : Header) (key value : string) : Header :=
  match h with
  | [] => [(key, value)]
  | (k, v) :: h' =>
      if k =? key then (key, value) :: h' else (k, v) :: HeaderSet h' key value
  end.

Fixpoint HeaderLookup (h : Header) (key : string) : option string :=
  match h with
  | [] => None
  | (k, v) :: h' => if k =? key then Some v else HeaderLookup h' key
  end.

(** [h.Get(key)] *)
Definition HeaderGet (h : Header) (key : string) : string :=
  match HeaderLookup h key with Some v => v | None => "" end.

(** [h.Del(key)] *)
Definition HeaderDel (h : Header) (key : string) : Header :=
  filter (fun kv => negb (fst kv =? key)) h.

(** The server's [http.ResponseWriter]: the header map the handler
    edits, and what has gone to the client: the status and the header
    map as they were at the first [WriteHeader], and the body. *)
Record ResponseWriter : Type := {
  reqMethod : string;
  header : Header;
  wroteHeader : bool;
  status : nat;
  sentHeader : Header;
  body : string
}.

Definition newResponseWriter (method : string) : ResponseWriter :=
  {| reqMethod := method; header := []; wroteHeader := false;
     status := 0; sentHeader := []; body := "" |}.

(** What a handler acts on: its response writer and the store, of which
    the calls made are recorded, latest last. *)
Record Exchange : Type := { w : ResponseWriter; calls : list fs.Call }.

Definition Handler (A : Type) : Type := Exchange -> A * Exchange.

Definition ret {A} (a : A) : Handler A := fun x => (a, x).

Definition bind {A B} (c : Handler A) (k : A -> Handler B) : Handler B :=
  fun x => let (a, x') := c x in k a x'.

Module Import HandlerNotations.
Declare Scope handler_scope.
Delimit Scope handler_scope with handler.
Notation "x <- c ;; k" := (bind c (fun x => k))
  (at level 61, c at next level, right associativity) : handler_scope.
Notation "c ;; k" := (bind c (fun _ => k))
  (at level 61, right associativity) : handler_scope.
Open Scope handler_scope.
End HandlerNotations.

Definition onWriter (f : ResponseWriter -> ResponseWriter) : Handler unit :=
  fun x => (tt, {| w := f (w x); calls := calls x |}).

Definition getHeader : Handler Header := fun x => (header (w x), x).

(** [fs.ReadDir(fsys, name)] *)
Definition ReadDir (fsys : fs.FS) (name : string)
  : Handler (fs.result (list fs.DirEntry)) :=
  fun x => (fs.ReadDir fsys name,
            {| w := w x; calls := calls x ++ [fs.CallReadDir name] |}).

(** [http.FS(fsys).Open(name)]: the store is asked for [name] without
    its leading slash, and for [.] when [name] is the root. *)
Definition Open (fsys : fs.FS) (name : string) : Handler (fs.result fs.File) :=
  let name := if name =? "/" then "." else strings.TrimPrefix name "/" in
  fun x => (fs.Open fsys name,
            {| w := w x; calls := calls x ++ [fs.CallOpen name] |}).

(** [w.WriteHeader(code)]: the first call sends the status and the
    header map as it is then; later calls do nothing. *)
Definition writeHeader (code : nat) (rw : ResponseWriter) : ResponseWriter :=
  if wroteHeader rw then rw
  else {| reqMethod := reqMethod rw; header := header rw; wroteHeader := true;
          status := code; sentHeader := header rw; body := body rw |}.

Definition bodyAllowedForStatus (code : nat) : bool :=
  negb ((Nat.leb 100 code && Nat.leb code 199)
        || Nat.eqb code 204 || Nat.eqb code 304).

(** [w.Write(data)]: sends status 200 first when no status has been
    sent; the bytes reach the client unless the status allows no body or
    the request is a HEAD. *)
Definition write (data : string) (rw : ResponseWriter) : ResponseWriter :=
  let rw := writeHeader StatusOK rw in
  if data =? "" then rw
  else if negb (bodyAllowedForStatus (status rw)) then rw
  else if reqMethod rw =? "HEAD" then rw
  else {| reqMethod := reqMethod rw; header := header rw;
          wroteHeader := wroteHeader rw; status := status rw;
          sentHeader := sentHeader rw; body := body rw ++ data |}.

Definition editHeader (f : Header -> Header) (rw : ResponseWriter)
  : ResponseWriter :=
  {| reqMethod := reqMethod rw; header := f (header rw);
     wroteHeader := wroteHeader rw; status := status rw;
     sentHeader := sentHeader rw; body := body rw |}.

(** [w.Header().Set(key, value)] *)
Definition SetHeader (key value : string) : Handler unit :=
  onWriter (editHeader (fun h => HeaderSet h key value)).

(** [w.Header().Del(key)] *)
Definition DelHeader (key : string) : Handler unit :=
  onWriter (editHeader (fun h => HeaderDel h key)).

Definition WriteHeader (code : nat) : Handler unit := onWriter (writeHeader code).

Definition Write (data : string) : Handler unit := onWriter (write data).

Definition newline : string := String "010" "".

(** [http.Error(w, error, code)] *)
Definition Error (error : string) (code : nat) : Handler unit :=
  SetHeader "Content-Type" "text/plain; charset=utf-8" ;;
  SetHeader "X-Content-Type-Options" "nosniff" ;;
  WriteHeader code ;;
  Write (error ++ newline).

(** [http.NotFound(w, r)] *)
Definition NotFound : Handler unit := Error "404 page not found" StatusNotFound.

(** [http.StripPrefix(prefix, h)] *)
Definition StripPrefix (pre : string) (h : Request -> Handler unit)
  (r : Request) : Handler unit :=
  if pre =? "" then h r
  else
    let p := strings.TrimPrefix (Path r) pre in
    let rp := strings.TrimPrefix (RawPath r) pre in
    if Nat.ltb (String.length p) (String.length (Path r))
       && ((RawPath r =? "")
           || Nat.ltb (String.length rp) (String.length (RawPath r)))
    then h {| Method := Method r; Path := p; RawPath := rp;
              URLParams := URLParams r; Conditional := Conditional r |}
    else NotFound.

(** The parts of the file server that the program leaves to the library
    and that are kept abstract here: the HTML page listing a directory,
    the content type found for a file (from its name and bytes) when the
    handler has set none, the answer to a request with range or
    precondition headers for a file, and whether such a request finds a
    directory not modified. *)
Record Delegated : Type := {
  dirListing : list fs.DirEntry -> string;
  detectContentType : string -> string -> string;
  serveConditional : Request -> string -> option string -> Handler unit;
  notModifiedSince : Request -> option string -> bool
}.

(** [toHTTPError(err)] *)
Definition toHTTPError (e : fs.Error) : string * nat :=
  match fs.kind e with
  | fs.ErrNotExist => ("404 page not found", StatusNotFound)
  | fs.ErrPermission => ("403 Forbidden", StatusForbidden)
  | fs.ErrOther => ("500 Internal Server Error", StatusInternalServerError)
  end.

(** [localRedirect(w, r, newPath)], the query being empty *)
Definition localRedirect (newPath : string) : Handler unit :=
  SetHeader "Location" newPath ;;
  WriteHeader StatusMovedPermanently.

(** [setLastModified(w, modtime)] *)
Definition setLastModified (modTime : option string) : Handler unit :=
  match modTime with
  | Some t => SetHeader "Last-Modified" t
  | None => ret tt
  end.

Definition decimal (n : nat) : string :=
  DecimalString.NilEmpty.string_of_uint (Nat.to_uint n).

(** [serveContent(w, r, name, modtime, sizeFunc, content)] *)
Definition serveContent (lib : Delegated) (r : Request) (name : string)
  (content : string) (modTime : option string) : Handler unit :=
  if Conditional r then serveConditional lib r content modTime
  else
    setLastModified modTime ;;
    h <- getHeader ;;
    (match HeaderLookup h "Content-Type" with
     | Some _ => ret tt
     | None => SetHeader "Content-Type" (detectContentType lib name content)
     end) ;;
    SetHeader "Accept-Ranges" "bytes" ;;
    h <- getHeader ;;
    (if HeaderGet h "Content-Encoding" =? ""
     then SetHeader "Content-Length" (decimal (String.length content))
     else ret tt) ;;
    WriteHeader StatusOK ;;
    if Method r =? "HEAD" then ret tt else Write content.

(** The end of [serveFile] for a directory without an index page:
    [dirList(w, r, f)] after the modification-time check. *)
Definition serveDirectory (lib : Delegated) (r : Request)
  (entries : fs.result (list fs.DirEntry)) (modTime : option string)
  : Handler unit :=
  if Conditional r && notModifiedSince lib r modTime then
    DelHeader "Content-Type" ;;
    DelHeader "Content-Length" ;;
    WriteHeader StatusNotModified
  else
    setLastModified modTime ;;
    match entries with
    | fs.Err _ => Error "Error reading directory" StatusInternalServerError
    | fs.Ok es =>
        SetHeader "Content-Type" "text/html; charset=utf-8" ;;
        Write (dirListing lib es)
    end.

Definition endsWithSlash (url : string) : bool :=
  match strings.last url with
  | Some c => Ascii.eqb c "/"
  | None => false
  end.

(** [serveFile(w, r, fs, name, true)] *)
Definition serveFile (lib : Delegated) (fsys : fs.FS) (r : Request)
  (name : string) : Handler unit :=
  if strings.HasSuffix (Path r) "/index.html" then localRedirect "./"
  else
    f <- Open fsys name ;;
    match f with
    | fs.Err e => let (msg, code) := toHTTPError e in Error msg code
    | fs.Ok (fs.Regular content modTime) =>
        if endsWithSlash (Path r)
        then localRedirect ("../" ++ filepath.Base (Path r))
        else serveContent lib r (filepath.Base name) content modTime
    | fs.Ok (fs.Directory entries modTime) =>
        if negb (endsWithSlash (Path r))
        then localRedirect (filepath.Base (Path r) ++ "/")
        else
          let index := strings.TrimSuffix name "/" ++ "/index.html" in
          ff <- Open fsys index ;;
          match ff with
          | fs.Ok (fs.Regular content' modTime') =>
              serveContent lib r "index.html" content' modTime'
          | fs.Ok (fs.Directory entries' modTime') =>
              serveDirectory lib r entries' modTime'
          | fs.Err _ => serveDirectory lib r entries modTime
          end
    end.

(** [http.FileServer(http.FS(fsys)).ServeHTTP(w, r)] *)
Definition FileServer (lib : Delegated) (fsys : fs.FS) (r : Request)
  : Handler unit :=
  let upath :=
    if strings.HasPrefix (Path r) "/" then Path r else "/" ++ Path r in
  let r := {| Method := Method r; Path := upath; RawPath := RawPath r;
              URLParams := URLParams r; Conditional := Conditional r |} in
  serveFile lib fsys r (filepath.Clean upath).

(** What the client receives of the handler's doing: the status, the
    headers the handler has set (those the server adds on its own, such
    as [Date] and [Content-Length], are left out) and the body. *)
Record Response : Type := {
  Status : nat;
  Headers : Header;
  Body : string
}.

(** Runs a handler on a fresh response writer; a handler that returns
    without having sent a status has sent 200. *)
Definition respond (method : string) (h : Handler unit) : Response * list fs.Call :=
  let (_, x) := h {| w := newResponseWriter method; calls := [] |} in
  let rw := writeHeader StatusOK (w x) in
  ({| Status := status rw; Headers := sentHeader rw; Body := body rw |},
   calls x).

End http.
Import http.HandlerNotations.

(* ------------------------------------------------------------------ *)
(** ** The chi router: patterns, the routing tree's search, middleware *)

Module chi.

(** A route pattern cut into its static stretches, its [{name}]
    parameters and the catch-all [*]. *)
Inductive Token : Type :=
| Static (text : string)
| Param (key : string)
| CatchAll.

Definition static (text : string) (rest : list Token) : list Token :=
  if text =? "" then rest else Static text :: rest.

(** Reads a pattern; [text] is the static stretch read so far and
    [param] the parameter name being read, if the scan is inside
    braces. *)
Fixpoint scan (pat : string) (text : string) (param : option string)
  : list Token :=
  match pat with
  | EmptyString => static text []
  | String c pat' =>
      match param with
      | Some key =>
          if Ascii.eqb c "}" then Param key :: scan pat' "" None
          else scan pat' "" (Some (key ++ String c ""))
      | None =>
          if Ascii.eqb c "{" then static text (scan pat' "" (Some ""))
          else if Ascii.eqb c "*" then static text (CatchAll :: scan pat' "" None)
          else scan pat' (text ++ String c "") None
      end
  end.

Definition tokens (pattern : string) : list Token := scan pattern "" None.

(** The byte that ends a parameter: the one that follows its closing
    brace in the pattern, a slash at the end of the pattern. *)
Definition tail (rest : list Token) : ascii :=
  match rest with
  | Static (String c _) :: _ => c
  | _ => "/"%char
  end.

(** The search of the routing tree along one pattern: the values of the
    URL parameters when [path] matches.  A parameter takes the bytes up
    to its tail byte (to the end of the path when its tail is a slash
    and none is left), never across a slash and never from an exhausted
    path; the catch-all takes what is left. *)
Fixpoint matches (pat : list Token) (path : string)
  : option (list (string * string)) :=
  match pat with
  | [] => if path =? "" then Some [] else None
  | Static text :: rest =>
      if strings.HasPrefix path text
      then matches rest (strings.drop (String.length text) path)
      else None
  | Param key :: rest =>
      if path =? "" then None
      else
        let value := strings.before path (tail rest) in
        if negb (strings.ContainsByte path (tail rest))
           && negb (Ascii.eqb (tail rest) "/")
        then None
        else if strings.ContainsByte value "/" then None
        else
          match matches rest (strings.drop (String.length value) path) with
          | Some params => Some ((key, value) :: params)
          | None => None
          end
  | CatchAll :: _ => Some [("*", path)]
  end.

(** [chi.URLParam(r, key)]: the value routed last under [key], the empty
    string when there is none. *)
Definition URLParam (r : http.Request) (key : string) : string :=
  match find (fun kv => fst kv =? key) (rev (http.URLParams r)) with
  | Some kv => snd kv
  | None => ""
  end.

(** The methods the router knows ([methodMap]). *)
Definition methodMap (method : string) : bool :=
  existsb (String.eqb method)
    ["CONNECT"; "DELETE"; "GET"; "HEAD"; "OPTIONS"; "PATCH"; "POST"; "PUT";
     "TRACE"].

Record Route (H : Type) : Type := {
  method : string;
  pattern : string;
  handler : H
}.
Arguments method {H} _.
Arguments pattern {H} _.
Arguments handler {H} _.

(** [mx.Get(pattern, handlerFn)] *)
Definition Get {H} (pat : string) (h : H) : Route H :=
  {| method := "GET"; pattern := pat; handler := h |}.

(** What [Mux.routeHTTP] ends in. *)
Inductive Outcome (H : Type) : Type :=
| Found (h : H) (params : list (string * string))
| MethodNotAllowed
| NotFound.
Arguments Found {H} h params.
Arguments MethodNotAllowed {H}.
Arguments NotFound {H}.

(** [tree.FindRoute(rctx, method, path)]: the handler of a route that
    matches [path] and is registered for [method]; failing that, whether
    some route matches [path] at all ([rctx.methodNotAllowed]).  The
    tree prefers static stretches to parameters and those to the
    catch-all; the patterns of the program match disjoint sets of paths
    ([route_patterns_disjoint] below), so that the order of the search
    plays no part for them. *)
Fixpoint FindRoute {H} (routes : list (Route H)) (meth path : string)
  : Outcome H :=
  match routes with
  | [] => NotFound
  | rt :: routes' =>
      match matches (tokens (pattern rt)) path with
      | Some params =>
          if method rt =? meth then Found (handler rt) params
          else match FindRoute routes' meth path with
               | Found h ps => Found h ps
               | _ => MethodNotAllowed
               end
      | None => FindRoute routes' meth path
      end
  end.

(** [mx.Match(rctx, method, path)] *)
Definition Match {H} (routes : list (Route H)) (meth path : string) : bool :=
  methodMap meth
  && match FindRoute routes meth path with Found _ _ => true | _ => false end.

(** The routing context: [rctx.RouteMethod] and [rctx.RoutePath], empty
    until set. *)
Record Context : Type := { RouteMethod : string; RoutePath : string }.

Definition urlPath (r : http.Request) : string :=
  if http.RawPath r =? "" then http.Path r else http.RawPath r.

(** [middleware.GetHead]: a HEAD request for which no HEAD route is
    registered is routed as a GET, its method left as it is. *)
Definition GetHead {H} (routes : list (Route H)) (rctx : Context)
  (r : http.Request) : Context :=
  if http.Method r =? "HEAD" then
    let routePath :=
      if RoutePath rctx =? "" then urlPath r else RoutePath rctx in
    if negb (Match routes "HEAD" routePath)
    then {| RouteMethod := "GET"; RoutePath := routePath |}
    else rctx
  else rctx.

(** The test of [middleware.Heartbeat(endpoint)]. *)
Definition isHeartbeat (endpoint : string) (r : http.Request) : bool :=
  ((http.Method r =? "GET") || (http.Method r =? "HEAD"))
  && strings.EqualFold (http.Path r) endpoint.

(** The answer of [middleware.Heartbeat(endpoint)]. *)
Definition heartbeat : http.Handler unit :=
  http.SetHeader "Content-Type" "text/plain" ;;
  http.WriteHeader http.StatusOK ;;
  http.Write ".".

(** [Mux.routeHTTP] up to the call of the handler. *)
Definition routeHTTP {H} (routes : list (Route H)) (rctx : Context)
  (r : http.Request) : Outcome H :=
  let routePath :=
    if RoutePath rctx =? "" then
      (if urlPath r =? "" then "/" else urlPath r)
    else RoutePath rctx in
  let routeMethod :=
    if RouteMethod rctx =? "" then http.Method r else RouteMethod rctx in
  if negb (methodMap routeMethod) then MethodNotAllowed
  else FindRoute routes routeMethod routePath.

(** The router's default answer to a method it has no route for. *)
Definition methodNotAllowedHandler : http.Handler unit :=
  http.WriteHeader http.StatusMethodNotAllowed ;;
  http.Write "".

End chi.

(* ------------------------------------------------------------------ *)
(** ** Package [main] *)

(** ModuleBasePath is the base v1 api path for the terraform registry *)
Definition ModuleBasePath : string := "/terraform/modules/v1".

Record ServiceDiscoveryResp : Type := { ModulesV1 : string }.

(** A [map[string]string] is the list of its entries. *)
Record ModuleVersions : Type := { Versions : list (list (string * string)) }.

Record ModuleVersionsResp : Type := { Modules : list ModuleVersions }.

(** The struct [Module] of the program ([Module] is reserved here). *)
Record TFModule : Type := {
  Namespace : string;
  Name : string;
  Provider : string;
  Version : string
}.

(** The struct tags: [json:"modules.v1"], [json:"versions"],
    [json:"modules"]. *)
Definition jsonServiceDiscoveryResp (s : ServiceDiscoveryResp) : json.Value :=
  json.Object [("modules.v1", json.Str (ModulesV1 s))].

Definition jsonModuleVersions (m : ModuleVersions) : json.Value :=
  json.Object [("versions", json.ofSlice json.ofStringMap (Versions m))].

Definition jsonModuleVersionsResp (v : ModuleVersionsResp) : json.Value :=
  json.Object [("modules", json.ofSlice jsonModuleVersions (Modules v))].

(** The globals set from the command line and at start-up. *)
Record Globals : Type := {
  bucket : string;
  profile : string;
  prefix : string;
  port : string;
  s3fsys : fs.FS
}.

(** The path listed for a module: [modPath] of [httpGetVersions]. *)
Definition modPath (pre : string) (m : TFModule) : string :=
  filepath.Join [pre; Namespace m; Name m; Provider m].

(** The download location of a module: [tfGetHeader] of
    [httpGetDownloadURL]. *)
Definition tfGetHeader (m : TFModule) : string :=
  filepath.Join ["/download"; Namespace m; Name m; Provider m; Version m;
                 Name m ++ ".tgz"].

Section Handlers.

Variable lib : http.Delegated.
Variable g : Globals.

(** getModuleVersions is a helper function to look up all versions for
    a module.  Go returns the response and the error side by side. *)
Definition getModuleVersions (modPath : string)
  : http.Handler (ModuleVersionsResp * option fs.Error) :=
  versionDirs <- http.ReadDir (s3fsys g) modPath ;;
  match versionDirs with
  | fs.Err err => http.ret ({| Modules := [] |}, Some err)
  | fs.Ok dirs =>
      let m :=
        fold_left
          (fun m v =>
             let vers := [("version", fs.Name v)] in
             {| Versions := Versions m ++ [vers] |})
          dirs {| Versions := [] |} in
      http.ret ({| Modules := [m] |}, None)
  end.

Definition httpGetServiceDiscovery (r : http.Request) : http.Handler unit :=
  let s := {| ModulesV1 := ModuleBasePath |} in
  http.SetHeader "Content-Type" "application/json" ;;
  http.Write (json.encode (jsonServiceDiscoveryResp s)).

Definition httpGetVersions (r : http.Request) : http.Handler unit :=
  let m := {| Namespace := chi.URLParam r "namespace";
              Name := chi.URLParam r "name";
              Provider := chi.URLParam r "provider";
              Version := "" |} in
  let modPath := modPath (prefix g) m in
  res <- getModuleVersions modPath ;;
  let (modVers, err) := res : ModuleVersionsResp * option fs.Error in
  (match err with
   | Some e => http.Error (fs.message e) http.StatusInternalServerError
   | None => http.ret tt
   end) ;;
  http.SetHeader "Content-Type" "application/json" ;;
  http.Write (json.encode (jsonModuleVersionsResp modVers)).

Definition httpGetDownloadURL (r : http.Request) : http.Handler unit :=
  let m := {| Namespace := chi.URLParam r "namespace";
              Name := chi.URLParam r "name";
              Provider := chi.URLParam r "provider";
              Version := chi.URLParam r "version" |} in
  let tfGetHeader := tfGetHeader m in
  http.SetHeader "X-Terraform-Get" tfGetHeader ;;
  http.WriteHeader http.StatusNoContent.

Definition httpGetModule (r : http.Request) : http.Handler unit :=
  http.SetHeader "Content-Encoding" "application/octet-stream" ;;
  http.SetHeader "Content-Type" "application/x-gzip" ;;
  http.StripPrefix "/download/" (http.FileServer lib (s3fsys g)) r.

Definition HandlerFunc : Type := http.Request -> http.Handler unit.

(** The routes of [main], in the order of their registration. *)
Definition routes : list (chi.Route HandlerFunc) :=
  [ chi.Get "/" httpGetServiceDiscovery;
    chi.Get "/.well-known/terraform.json" httpGetServiceDiscovery;
    chi.Get (ModuleBasePath ++ "/{namespace}/{name}/{provider}/versions")
      httpGetVersions;
    chi.Get (ModuleBasePath ++ "/{namespace}/{name}/{provider}/{version}/download")
      httpGetDownloadURL;
    chi.Get "/download/*" httpGetModule ].

(** What the router of [main] does with a request: the heartbeat
    answers it, or it goes where [routeHTTP] sends it. *)
Inductive Dispatch : Type :=
| Heartbeat
| Routed (to : chi.Outcome HandlerFunc).

(** The middleware of [main] in the order of its [Use], then the
    routes.  [RealIP], [RequestID], [Recoverer] and [Logger] leave the
    method, the path and the response as they are. *)
Definition dispatch (r : http.Request) : Dispatch :=
  let rctx := {| chi.RouteMethod := ""; chi.RoutePath := "" |} in
  let rctx := chi.GetHead routes rctx r in
  if chi.isHeartbeat "/is_alive" r then Heartbeat
  else Routed (chi.routeHTTP routes rctx r).

(** The router as an [http.Handler]. *)
Definition ServeHTTP (r : http.Request) : http.Handler unit :=
  match dispatch r with
  | Heartbeat => chi.heartbeat
  | Routed (chi.Found h params) =>
      h {| http.Method := http.Method r; http.Path := http.Path r;
           http.RawPath := http.RawPath r; http.URLParams := params;
           http.Conditional := http.Conditional r |}
  | Routed chi.MethodNotAllowed => chi.methodNotAllowedHandler
  | Routed chi.NotFound => http.NotFound
  end.

(** One request served: the response and the calls made on the store. *)
Definition serve (r : http.Request) : http.Response * list fs.Call :=
  http.respond (http.Method r) (ServeHTTP r).

End Handlers.

(* ------------------------------------------------------------------ *)
(** ** Notions of the specification *)

(** What [Clean] writes as an element: not empty, not [.], not a slash. *)
Definition written_ok (e : string) : Prop := e <> "" /\ e <> "." /\ e <> "/".

(** A valid identity field is one path element: not empty, without a
    slash, and neither [.] nor [..]. *)
Definition isSegment (s : string) : bool :=
  negb (s =? "") && negb (strings.ContainsByte s "/")
  && negb (s =? ".") && negb (s =? "..").

Definition validModule (m : TFModule) : bool :=
  isSegment (Namespace m) && isSegment (Name m) && isSegment (Provider m).

Definition validVersion (m : TFModule) : bool :=
  validModule m && isSegment (Version m).

(** How a cleaned path goes on by one more element. *)
Definition extend (cleaned seg : string) : string :=
  if cleaned =? "." then seg
  else if cleaned =? "/" then "/" ++ seg
  else cleaned ++ "/" ++ seg.

(** [path] is [pre] or lies below it. *)
Definition underPrefix (pre path : string) : bool :=
  (path =? pre) || strings.HasPrefix path (pre ++ "/").

(** Where the artifact of a module version is stored, after the README:
    [s3://<bucket>/[optional_prefix]/<registry_namespace>/<module_name>/<provider>/<version>/<module_name>.tgz],
    joined the way [httpGetVersions] joins the module path. *)
Definition spec_artifactPath (pre : string) (m : TFModule) : string :=
  filepath.Join [pre; Namespace m; Name m; Provider m; Version m;
                 Name m ++ ".tgz"].

(** The identity a routed request names: the [Module] struct that
    [httpGetVersions] builds, and the one [httpGetDownloadURL] builds. *)
Definition listedModule (r : http.Request) : TFModule :=
  {| Namespace := chi.URLParam r "namespace"; Name := chi.URLParam r "name";
     Provider := chi.URLParam r "provider"; Version := "" |}.

Definition locatedModule (r : http.Request) : TFModule :=
  {| Namespace := chi.URLParam r "namespace"; Name := chi.URLParam r "name";
     Provider := chi.URLParam r "provider";
     Version := chi.URLParam r "version" |}.

(** The path the routes are searched for. *)
Definition routePath (r : http.Request) : string :=
  if chi.urlPath r =? "" then "/" else chi.urlPath r.

(** The same request sent as a GET. *)
Definition asGet (r : http.Request) : http.Request :=
  {| http.Method := "GET"; http.Path := http.Path r;
     http.RawPath := http.RawPath r; http.URLParams := http.URLParams r;
     http.Conditional := http.Conditional r |}.

(** The path [FileServer] serves for a request whose path is [rest] once
    [StripPrefix] has cut the download root, and the key it asks the store
    for: the path cleaned, without its leading slash. *)
Definition servedPath (rest : string) : string :=
  if strings.HasPrefix rest "/" then rest else "/" ++ rest.

Definition servedKey (rest : string) : string :=
  let name := filepath.Clean (servedPath rest) in
  if name =? "/" then "." else strings.TrimPrefix name "/".

(** The elements of the path of an artifact below the prefix. *)
Definition artifactKey (m : TFModule) : list string :=
  [Namespace m; Name m; Provider m; Version m; Name m ++ ".tgz"].

(** A text between quotation marks. *)
Definition inQuotes (s : string) : string :=
  json.quoteMark ++ s ++ json.quoteMark.

(** The JSON text [{"version":"<id>"}]. *)
Definition versionObject (id : string) : string :=
  "{" ++ inQuotes "version" ++ ":" ++ inQuotes id ++ "}".

(** The JSON text of the response a failed listing leaves:
    [{"modules":null}]. *)
Definition noModules : string := "{" ++ inQuotes "modules" ++ ":null}".

(** The JSON text of one module without versions:
    [{"modules":[{"versions":null}]}]. *)
Definition noVersions : string :=
  "{" ++ inQuotes "modules" ++ ":[{" ++ inQuotes "versions" ++ ":null}]}".

(** The JSON text of the discovery document:
    [{"modules.v1":"/terraform/modules/v1"}]. *)
Definition discoveryText : string :=
  "{" ++ inQuotes "modules.v1" ++ ":" ++ inQuotes "/terraform/modules/v1" ++ "}".

(** A request as a client sends it: the path in its default encoding, no
    range or precondition headers. *)
Definition request (method path : string) : http.Request :=
  {| http.Method := method; http.Path := path; http.RawPath := "";
     http.URLParams := []; http.Conditional := false |}.

(** The URL parameters of a routed identity. *)
Definition withParams (r : http.Request) (params : list (string * string))
  : http.Request :=
  {| http.Method := http.Method r; http.Path := http.Path r;
     http.RawPath := http.RawPath r; http.URLParams := params;
     http.Conditional := http.Conditional r |}.

(* ------------------------------------------------------------------ *)
(** ** Sample stores *)

Definition sampleLib : http.Delegated :=
  {| http.dirListing := fun _ => "<pre>" ++ http.newline ++ "</pre>" ++ http.newline;
     http.detectContentType := fun _ _ => "application/octet-stream";
     http.serveConditional := fun _ _ _ => http.WriteHeader http.StatusNotModified;
     http.notModifiedSince := fun _ _ => false |}.

Definition notExist {A} (op name : string) : fs.result A :=
  fs.Err {| fs.kind := fs.ErrNotExist;
            fs.message := op ++ " " ++ name ++ ": file does not exist" |}.

Definition versionDir (name : string) : fs.DirEntry :=
  {| fs.Name := name; fs.IsDir := true |}.

(** A bucket laid out as the README asks under the prefix [modules]: one
    module with three versions, the archive of each in its directory. *)
Definition prefixedStore : fs.FS :=
  {| fs.ReadDir := fun name =>
       if name =? "modules/acme/vpc/aws"
       then fs.Ok [versionDir "1.0.0"; versionDir "1.1.0"; versionDir "2.0.0"]
       else if name =? "modules/acme/empty/aws" then fs.Ok []
       else notExist "open" name;
     fs.Open := fun name =>
       if existsb (String.eqb name)
            ["modules/acme/vpc/aws/1.0.0/vpc.tgz";
             "modules/acme/vpc/aws/1.1.0/vpc.tgz";
             "modules/acme/vpc/aws/2.0.0/vpc.tgz"]
       then fs.Ok (fs.Regular "archive" None)
       else notExist "open" name |}.

(** The same bucket without a prefix, and a page next to the modules. *)
Definition plainStore : fs.FS :=
  {| fs.ReadDir := fun name =>
       if name =? "acme/vpc/aws"
       then fs.Ok [versionDir "1.0.0"; versionDir "1.1.0"; versionDir "2.0.0"]
       else if name =? "acme/empty/aws" then fs.Ok []
       else notExist "open" name;
     fs.Open := fun name =>
       if existsb (String.eqb name)
            ["acme/vpc/aws/1.0.0/vpc.tgz"; "acme/vpc/aws/1.1.0/vpc.tgz";
             "acme/vpc/aws/2.0.0/vpc.tgz"]
       then fs.Ok (fs.Regular "archive" None)
       else if name =? "acme/index.html" then fs.Ok (fs.Regular "page" None)
       else notExist "open" name |}.

Definition globals (pre : string) (store : fs.FS) : Globals :=
  {| bucket := "tf-registry-storage"; profile := "default"; prefix := pre;
     port := "3000"; s3fsys := store |}.

Definition plainGlobals : Globals := globals "" plainStore.

Definition prefixedGlobals : Globals := globals "modules" prefixedStore.

Definition acmeVpc : TFModule :=
  {| Namespace := "acme"; Name := "vpc"; Provider := "aws"; Version := "1.0.0" |}.

(* ------------------------------------------------------------------ *)
(** ** Notions of the further properties *)

(* ------------------------------------------------------------------ *)
(** ** Further notions *)

(** The elements of a path that are not empty. *)
Definition nonEmpty (elem : list string) : list string :=
  filter (fun e => negb (e =? "")) elem.

(** [k] elements [..], as an unrooted path keeps them at its front. *)
Definition parents (k : nat) : list string := repeat ".." k.

(** Whether some route of [main] has a pattern that matches [path]. *)
Definition anyRouteMatches (lib : http.Delegated) (g : Globals) (path : string)
  : bool :=
  existsb
    (fun rt =>
       match chi.matches (chi.tokens (chi.pattern rt)) path with
       | Some _ => true
       | None => false
       end)
    (routes lib g).

(** What the loop of [Clean] has written, last element first: plain
    elements written after some [..], of which a rooted path has none. *)
Definition shaped (rooted : bool) (out : list string) : Prop :=
  exists (k : nat) (segs : list string),
    out = (segs ++ parents k)%list
    /\ forallb isSegment segs = true
    /\ (rooted = true -> k = 0).

(** The request paths of the protocol for an identity. *)
Definition versionsPath (ns n p : string) : string :=
  ModuleBasePath ++ "/" ++ ns ++ "/" ++ n ++ "/" ++ p ++ "/versions".

Definition downloadPath (ns n p v : string) : string :=
  ModuleBasePath ++ "/" ++ ns ++ "/" ++ n ++ "/" ++ p ++ "/" ++ v ++ "/download".




(** [f] holds of every byte of [s]. *)
Fixpoint allBytes (f : ascii -> bool) (s : string) : bool :=
  match s with
  | EmptyString => true
  | String b rest => f b && allBytes f rest
  end.

(** The JSON text of one entry of a listing, its name escaped as the
    encoder escapes it, and of the document for the names of a listing
    that is not empty. *)
Definition versionEntry (name : string) : string :=
  "{" ++ inQuotes "version" ++ ":" ++ json.quote name ++ "}".

Definition listingText (names : list string) : string :=
  "{" ++ inQuotes "modules" ++ ":[{" ++ inQuotes "versions" ++ ":["
  ++ String.concat "," (map versionEntry names) ++ "]}]}".

(** A byte that can stand in a line of text inside an HTML page: no
    control byte, and none of [<], [>] and [&]. *)
Definition inert (b : ascii) : bool :=
  Nat.leb 32 (nat_of_ascii b)
  && negb (Ascii.eqb b "<") && negb (Ascii.eqb b ">") && negb (Ascii.eqb b "&").

(** The first [k] bytes of [s] (all of them, when [s] is shorter) are
    bytes of a multi-byte rune. *)
Fixpoint highPrefix (k : nat) (s : string) : bool :=
  match k, s with
  | S k', String b rest => Nat.leb 128 (nat_of_ascii b) && highPrefix k' rest
  | _, _ => true
  end.

(* ------------------------------------------------------------------ *)
(** ** Package [flag]: the string flags of the command line *)

Module flag.

Definition newline : string := String "010" "".
Definition tab : string := String "009" "".
Definition backquote : ascii := "096"%char.

(** A flag as [StringVar] defines it; [Value] is the variable it sets. *)
Record Flag : Type := {
  Name : string;
  Usage : string;
  DefValue : string;
  Value : string
}.

(** [flag.StringVar(&v, name, value, usage)] *)
Definition StringVar (name value usage : string) : Flag :=
  {| Name := name; Usage := usage; DefValue := value; Value := value |}.

(** The flags of a [FlagSet], in the order of their definition. *)
Definition FlagSet : Type := list Flag.

Fixpoint Lookup (f : FlagSet) (name : string) : option Flag :=
  match f with
  | [] => None
  | fl :: f' => if Name fl =? name then Some fl else Lookup f' name
  end.

(** [flag.Value.Set(value)] for the flag [name] *)
Fixpoint Set_ (f : FlagSet) (name value : string) : FlagSet :=
  match f with
  | [] => []
  | fl :: f' =>
      if Name fl =? name
      then {| Name := Name fl; Usage := Usage fl; DefValue := DefValue fl;
              Value := value |} :: f'
      else fl :: Set_ f' name value
  end.

(** The variable a flag is bound to. *)
Definition Get (f : FlagSet) (name : string) : string :=
  match Lookup f name with
  | Some fl => Value fl
  | None => ""
  end.

(** [sortFlags]: by name, in lexicographical order. *)
Fixpoint insertByName (fl : Flag) (l : list Flag) : list Flag :=
  match l with
  | [] => [fl]
  | fl' :: l' =>
      if String.leb (Name fl) (Name fl') then fl :: l
      else fl' :: insertByName fl l'
  end.

Definition sortFlags (f : FlagSet) : list Flag := fold_right insertByName [] f.

(** [UnquoteUsage(flag)]: a name between back quotes in the usage text is
    taken out of it; without one the name is that of the type. *)
Definition UnquoteUsage (fl : Flag) : string * string :=
  match strings.Split (Usage fl) backquote with
  | a :: name :: b :: rest =>
      (name, a ++ name ++ strings.Join (b :: rest) (String backquote ""))
  | _ => ("string", Usage fl)
  end.

(** [%q] of a default value; the defaults of the program are printable
    ASCII without quotation mark or backslash, which [strconv.Quote]
    copies between quotation marks. *)
Definition Quote (s : string) : string := json.quoteMark ++ s ++ json.quoteMark.

(** What [PrintDefaults] writes for one flag. *)
Definition defaultText (fl : Flag) : string :=
  let b := "  -" ++ Name fl in
  let (name, usage) := UnquoteUsage fl in
  let b := if Nat.ltb 0 (String.length name) then b ++ " " ++ name else b in
  let b := if Nat.leb (String.length b) 4 then b ++ tab
           else b ++ newline ++ "    " ++ tab in
  let b := b ++ strings.Join (strings.Split usage "010")
                  (newline ++ "    " ++ tab) in
  let b := if DefValue fl =? "" then b
           else b ++ " (default " ++ Quote (DefValue fl) ++ ")" in
  b ++ newline.

(** [PrintDefaults()]: one text per flag, in the order of the names. *)
Definition PrintDefaults (f : FlagSet) : list string :=
  map defaultText (sortFlags f).

(** Why parsing stops with an error. *)
Inductive Failure : Type :=
| ErrHelp
| BadSyntax (arg : string)
| NotDefined (name : string)
| NeedsArgument (name : string).

(** The text of the error that [failf] prints; [ErrHelp] prints none. *)
Definition failureText (e : Failure) : option string :=
  match e with
  | ErrHelp => None
  | BadSyntax arg => Some ("bad flag syntax: " ++ arg)
  | NotDefined name => Some ("flag provided but not defined: -" ++ name)
  | NeedsArgument name => Some ("flag needs an argument: -" ++ name)
  end.

Inductive Parsed : Type :=
| Done (f : FlagSet) (args : list string)
| Failed (e : Failure).

(** The flag name of an argument and the value after its first [=], the
    first byte of the name apart. *)
Definition nameValue (name : string) : string * option string :=
  match name with
  | EmptyString => (name, None)
  | String c tl =>
      if strings.ContainsByte tl "="
      then (String c (strings.before tl "="),
            Some (strings.drop (S (String.length (strings.before tl "="))) tl))
      else (name, None)
  end.

(** [FlagSet.Parse(arguments)]: [parseOne] until it sees the end of the
    flags or fails.  Every flag is a string flag and takes a value. *)
Fixpoint Parse (f : FlagSet) (args : list string) {struct args} : Parsed :=
  match args with
  | [] => Done f []
  | s :: rest =>
      if Nat.ltb (String.length s) 2 || negb (strings.HasPrefix s "-")
      then Done f args
      else if s =? "--" then Done f rest
      else
        let name := if strings.HasPrefix s "--" then strings.drop 2 s
                    else strings.drop 1 s in
        if (name =? "") || strings.HasPrefix name "-" || strings.HasPrefix name "="
        then Failed (BadSyntax s)
        else
          let (name, value) := nameValue name in
          match Lookup f name with
          | None =>
              if (name =? "help") || (name =? "h") then Failed ErrHelp
              else Failed (NotDefined name)
          | Some _ =>
              match value with
              | Some v => Parse (Set_ f name v) rest
              | None =>
                  match rest with
                  | v :: rest' => Parse (Set_ f name v) rest'
                  | [] => Failed (NeedsArgument name)
                  end
              end
          end
  end.

End flag.

(* ------------------------------------------------------------------ *)
(** ** Start-up: [init], [usage] and [main] *)

(** Where a text is printed: [fmt.Printf] and [fmt.Println] write to the
    standard output, the [flag] package to the standard error. *)
Inductive Stream : Type := Stdout | Stderr.

(** What [main] does that can be seen from outside, in order. *)
Inductive Event : Type :=
| Emit (to : Stream) (text : string)
| NewSession (profile : string)
| StatBucket (bucket name : string)
| ListenAndServe (addr : string).

(** How [main] ends: by [os.Exit], or in [http.ListenAndServe] with the
    router over the globals as they are then.  [main] drops what
    [ListenAndServe] returns and ends after it without a word. *)
Inductive Ending : Type :=
| Exit (code : nat)
| Serving (g : Globals).

(** What [main] finds around it: [os.Args[0]], the error (if any) of
    [session.NewSessionWithOptions] for a profile, the store that
    [s3fs.New] gives for a bucket, and the error (if any) of [fs.Stat] on
    a name of that bucket. *)
Record Environment : Type := {
  Args0 : string;
  sessionError : string -> option string;
  New : string -> fs.FS;
  statError : string -> string -> option string
}.

(** [init()]: the four flags with their defaults. *)
Definition init : flag.FlagSet :=
  [ flag.StringVar "bucket" "" "aws s3 bucket name containing terraform modules";
    flag.StringVar "profile" "default" "aws named profile to assume";
    flag.StringVar "prefix" "" "optional path prefix for modules in s3";
    flag.StringVar "port" "3000" "port for HTTP server" ].

(** [usage()] *)
Definition usage (env : Environment) (f : flag.FlagSet) : list Event :=
  ([ Emit Stderr ("Terraform Registry Server" ++ flag.newline ++ flag.newline);
     Emit Stderr ("Usage: " ++ Args0 env ++ " [flags] " ++ flag.newline
                   ++ flag.newline ++ "Flags:" ++ flag.newline) ]
   ++ map (Emit Stderr) (flag.PrintDefaults f))%list.

(** [main()] on the arguments [os.Args[1:]]. *)
Definition main (env : Environment) (args : list string) : list Event * Ending :=
  match flag.Parse init args with
  | flag.Failed e =>
      ((match flag.failureText e with
        | Some text => [Emit Stderr (text ++ flag.newline)]
        | None => []
        end ++ usage env init)%list,
       Exit (match e with flag.ErrHelp => 0 | _ => 2 end))
  | flag.Done f _ =>
      let bucket := flag.Get f "bucket" in
      let profile := flag.Get f "profile" in
      let prefix := flag.Get f "prefix" in
      let port := flag.Get f "port" in
      if bucket =? "" then
        ((Emit Stdout ("bucket name not set!!!" ++ flag.newline ++ flag.newline)
          :: usage env f)%list,
         Exit 1)
      else
        let starting :=
          [ Emit Stdout ("Starting tf-registry webserver on 0.0.0.0:" ++ port
                          ++ "..." ++ flag.newline);
            Emit Stdout ("Connecting to storage backend..." ++ flag.newline);
            NewSession profile ] in
        match sessionError env profile with
        | Some err => ((starting ++ [Emit Stdout (err ++ flag.newline)])%list, Exit 1)
        | None =>
            let bucketRoot := filepath.Join ["."] in
            let checking := (starting ++ [StatBucket bucket bucketRoot])%list in
            match statError env bucket bucketRoot with
            | Some err => ((checking ++ [Emit Stdout (err ++ flag.newline)])%list, Exit 1)
            | None =>
                ((checking
                  ++ [ Emit Stdout
                         ("Connection successful, serving terraform registry from: s3://"
                          ++ bucket ++ "/" ++ prefix ++ flag.newline);
                       ListenAndServe (":" ++ port) ])%list,
                 Serving {| bucket := bucket; profile := profile; prefix := prefix;
                            port := port; s3fsys := New env bucket |})
            end
        end
  end.

(** A command line that names a bucket, a start that finds its session
    and its bucket, and the text of the usage as the README shows it. *)
Definition sampleEnvironment : Environment :=
  {| Args0 := "tf-registry";
     sessionError := fun _ => None;
     New := fun _ => plainStore;
     statError := fun _ _ => None |}.

Definition texts (to : Stream) (events : list Event) : string :=
  String.concat ""
    (flat_map (fun e => match e with
                        | Emit Stderr text =>
                            match to with Stderr => [text] | Stdout => [] end
                        | Emit Stdout text =>
                            match to with Stdout => [text] | Stderr => [] end
                        | _ => []
                        end) events).

Definition usageText (name : string) : string :=
  String.concat flag.newline
    [ "Terraform Registry Server";
      "";
      "Usage: " ++ name ++ " [flags] ";
      "";
      "Flags:";
      "  -bucket string";
      "    " ++ flag.tab ++ "aws s3 bucket name containing terraform modules";
      "  -port string";
      "    " ++ flag.tab ++ "port for HTTP server (default " ++ inQuotes "3000" ++ ")";
      "  -prefix string";
      "    " ++ flag.tab ++ "optional path prefix for modules in s3";
      "  -profile string";
      "    " ++ flag.tab ++ "aws named profile to assume (default "
        ++ inQuotes "default" ++ ")";
      "" ].

(** A command line that sets flags, each as [-name value], and the value
    a flag ends with: that of its last setting, or its default. *)
Definition commandLine (settings : list (string * string)) : list string :=
  flat_map (fun kv => ["-" ++ fst kv; snd kv]) settings.

Definition setting (settings : list (string * string)) (name default : string)
  : string :=
  fold_left (fun value kv => if fst kv =? name then snd kv else value)
            settings default.

Definition applySettings (settings : list (string * string)) (f : flag.FlagSet)
  : flag.FlagSet :=
  fold_left (fun f kv => flag.Set_ f (fst kv) (snd kv)) settings f.

Definition knownFlag (name : string) : bool :=
  existsb (String.eqb name) ["bucket"; "profile"; "prefix"; "port"].

(** Arguments that begin with no flag: none at all, or a first one that
    is not a flag or ends the flags. *)
Definition noFlags (args : list string) : bool :=
  match args with
  | [] => true
  | a :: _ => negb (strings.HasPrefix a "-") || (a =? "-") || (a =? "--")
  end.

(** A flag without the value it is set to, and the flag sets that
    declare the flags of [init]. *)
Definition erase (fl : flag.Flag) : flag.Flag :=
  {| flag.Name := flag.Name fl; flag.Usage := flag.Usage fl;
     flag.DefValue := flag.DefValue fl; flag.Value := "" |}.

Definition declared (f : flag.FlagSet) : Prop := map erase f = map erase init.

(** The globals a command line of settings leaves when [main] serves. *)
Definition startGlobals (env : Environment) (settings : list (string * string))
  : Globals :=
  {| bucket := setting settings "bucket" "";
     profile := setting settings "profile" "default";
     prefix := setting settings "prefix" "";
     port := setting settings "port" "3000";
     s3fsys := New env (setting settings "bucket" "") |}.

(** The events of [usage()], and of a start up to the session. *)
Definition usageEvents (env : Environment) : list Event :=
  [ Emit Stderr ("Terraform Registry Server" ++ flag.newline ++ flag.newline);
    Emit Stderr ("Usage: " ++ Args0 env ++ " [flags] " ++ flag.newline
                  ++ flag.newline ++ "Flags:" ++ flag.newline);
    Emit Stderr ("  -bucket string" ++ flag.newline ++ "    " ++ flag.tab
                  ++ "aws s3 bucket name containing terraform modules"
                  ++ flag.newline);
    Emit Stderr ("  -port string" ++ flag.newline ++ "    " ++ flag.tab
                  ++ "port for HTTP server (default " ++ inQuotes "3000" ++ ")"
                  ++ flag.newline);
    Emit Stderr ("  -prefix string" ++ flag.newline ++ "    " ++ flag.tab
                  ++ "optional path prefix for modules in s3" ++ flag.newline);
    Emit Stderr ("  -profile string" ++ flag.newline ++ "    " ++ flag.tab
                  ++ "aws named profile to assume (default " ++ inQuotes "default"
                  ++ ")" ++ flag.newline) ].

Definition startEvents (g : Globals) : list Event :=
  [ Emit Stdout ("Starting tf-registry webserver on 0.0.0.0:" ++ port g
                  ++ "..." ++ flag.newline);
    Emit Stdout ("Connecting to storage backend..." ++ flag.newline);
    NewSession (profile g) ].

(** A flag name that [init] does not define, in a form [Parse] takes for
    a name: not empty, no dash in front, no equals sign. *)
Definition undefinedFlag (name : string) : bool :=
  negb (name =? "") && negb (strings.HasPrefix name "-")
  && negb (strings.ContainsByte name "=") && negb (knownFlag name).

(** A start whose session cannot be opened. *)
Definition noSessionEnvironment : Environment :=
  {| Args0 := "tf-registry";
     sessionError := fun profile =>
       Some ("SharedConfigProfileNotExist: failed to get profile, " ++ profile);
     New := fun _ => plainStore;
     statError := fun _ _ => None |}.

(** A bucket whose root is a directory of two namespaces, without an
    index page. *)
Definition rootedStore : fs.FS :=
  {| fs.ReadDir := fun name => notExist "open" name;
     fs.Open := fun name =>
       if name =? "."
       then fs.Ok (fs.Directory (fs.Ok [versionDir "acme"; versionDir "globex"]) None)
       else notExist "open" name |}.

(* ================================================================== *)
(** * Properties *)

(** ** The library functions on the examples of their documentation *)

Example Clean_doc :
  map filepath.Clean
    ["a/c"; "a//c"; "a/c/."; "a/c/b/.."; "/../a/c"; "/../a/b/../././/c"; ""]
  = ["a/c"; "a/c"; "a/c"; "a/c"; "/a/c"; "/a/c"; "."].
Proof. reflexivity. Qed.

Example Join_doc :
  map filepath.Join
    [["a"; "b"; "c"]; ["a"; "b/c"]; ["a/b"; "c"]; ["a/b"; "/c"];
     ["a/b"; "../../../xyz"]; [""; ""]; [""; "a"]]
  = ["a/b/c"; "a/b/c"; "a/b/c"; "a/b/c"; "../xyz"; ""; "a"].
Proof. reflexivity. Qed.

Example Base_doc :
  map filepath.Base ["/a/b"; "/"; ""; "a/b//"] = ["b"; "/"; "."; "b"].
Proof. reflexivity. Qed.

Example EqualFold_heartbeat :
  map (fun s => strings.EqualFold s "/is_alive")
    ["/is_alive"; "/IS_Alive"; "/is_alive/"; "/is_aliv"]
  = [true; true; false; false].
Proof. reflexivity. Qed.

Example quote_html :
  json.quote ("a<b/c" ++ json.quoteMark ++ "d")
  = inQuotes ("a\u003cb/c\" ++ json.quoteMark ++ "d").
Proof. reflexivity. Qed.

Example tokens_download :
  chi.tokens (ModuleBasePath ++ "/{namespace}/{name}/{provider}/{version}/download")
  = [chi.Static "/terraform/modules/v1/"; chi.Param "namespace"; chi.Static "/";
     chi.Param "name"; chi.Static "/"; chi.Param "provider"; chi.Static "/";
     chi.Param "version"; chi.Static "/download"].
Proof. reflexivity. Qed.

(** ** Strings *)

Section StringFacts.

Lemma append_nil_r (s : string) : s ++ "" = s.
Proof. induction s as [|c s IH]; simpl; [reflexivity | now rewrite IH]. Qed.

Lemma append_assoc (a b c : string) : (a ++ b) ++ c = a ++ (b ++ c).
Proof. induction a as [|x a IH]; simpl; [reflexivity | now rewrite IH]. Qed.

Lemma length_append (a b : string) :
  String.length (a ++ b) = String.length a + String.length b.
Proof. induction a as [|x a IH]; simpl; [reflexivity | now rewrite IH]. Qed.

Lemma append_eq_nil (a b : string) : a ++ b = "" -> a = "" /\ b = "".
Proof. destruct a; simpl; [now split | discriminate]. Qed.

Lemma HasPrefix_append (a b : string) : strings.HasPrefix (a ++ b) a = true.
Proof.
  induction a as [|x a IH]; simpl; [reflexivity|].
  now rewrite Ascii.eqb_refl, IH.
Qed.

Lemma drop_append (a b : string) : strings.drop (String.length a) (a ++ b) = b.
Proof. induction a as [|x a IH]; simpl; [now destruct b | exact IH]. Qed.

Lemma TrimPrefix_append (a b : string) : strings.TrimPrefix (a ++ b) a = b.
Proof.
  unfold strings.TrimPrefix. now rewrite HasPrefix_append, drop_append.
Qed.

Lemma HasPrefix_exact (s t : string) :
  strings.HasPrefix s t = true -> strings.drop (String.length t) s = "" -> s = t.
Proof.
  revert s. induction t as [|c t IH]; intros s; simpl.
  - intros _. now destruct s.
  - destruct s as [|d s]; [discriminate|].
    intros H Hd. apply andb_true_iff in H as [Hc Ht].
    apply Ascii.eqb_eq in Hc. subst d. f_equal. now apply IH.
Qed.

(** Two prefixes of one string: one is a prefix of the other. *)
Lemma HasPrefix_clash (s a b : string) :
  strings.HasPrefix s a = true -> strings.HasPrefix s b = true ->
  strings.HasPrefix a b = true \/ strings.HasPrefix b a = true.
Proof.
  revert s b. induction a as [|x a IH]; intros s b Ha Hb.
  - right. now destruct b.
  - destruct b as [|y b]; [now left|].
    destruct s as [|c s]; [discriminate|]. simpl in *.
    apply andb_true_iff in Ha as [Hx Ha], Hb as [Hy Hb].
    apply Ascii.eqb_eq in Hx, Hy. subst x y.
    rewrite Ascii.eqb_refl. simpl. now apply (IH s).
Qed.

Lemma Split_not_nil (s : string) (sep : ascii) : strings.Split s sep <> [].
Proof.
  induction s as [|c s IH]; simpl; [discriminate|].
  destruct (Ascii.eqb c sep); [discriminate|].
  destruct (strings.Split s sep); discriminate.
Qed.

Lemma Split_no_sep (s : string) (sep : ascii) :
  strings.ContainsByte s sep = false -> strings.Split s sep = [s].
Proof.
  induction s as [|c s IH]; simpl; [reflexivity|].
  intros H. apply orb_false_iff in H as [Hc Hs].
  now rewrite Hc, (IH Hs).
Qed.

Lemma Split_snoc (p seg : string) (sep : ascii) :
  strings.ContainsByte seg sep = false ->
  strings.Split (p ++ String sep seg) sep = (strings.Split p sep ++ [seg])%list.
Proof.
  intros Hseg. induction p as [|c p IH]; simpl.
  - now rewrite Ascii.eqb_refl, (Split_no_sep _ _ Hseg).
  - destruct (Ascii.eqb c sep); rewrite IH; [reflexivity|].
    pose proof (Split_not_nil p sep) as Hne.
    destruct (strings.Split p sep); [now elim Hne | reflexivity].
Qed.

Lemma concat_snoc (sep : string) (l : list string) (x : string) :
  l <> [] ->
  String.concat sep (l ++ [x]) = String.concat sep l ++ sep ++ x.
Proof.
  induction l as [|a l IH]; intros Hne; [now elim Hne|].
  destruct l as [|b l]; [reflexivity|].
  change (a ++ sep ++ String.concat sep ((b :: l) ++ [x])
          = (a ++ sep ++ String.concat sep (b :: l)) ++ sep ++ x).
  rewrite IH by discriminate. now rewrite !append_assoc.
Qed.

Lemma last_append (a b : string) :
  b <> "" -> strings.last (a ++ b) = strings.last b.
Proof.
  intros Hb. induction a as [|x a IH]; simpl; [reflexivity|].
  rewrite IH. destruct (a ++ b) eqn:E; [|reflexivity].
  apply append_eq_nil in E as [_ E]. now elim Hb.
Qed.

Lemma last_contains (s : string) (c : ascii) :
  strings.last s = Some c -> strings.ContainsByte s c = true.
Proof.
  induction s as [|x s IH]; simpl; [discriminate|].
  destruct s as [|y s].
  - intros [= ->]. now rewrite Ascii.eqb_refl.
  - intros H. rewrite (IH H). apply orb_true_r.
Qed.

End StringFacts.

(** ** Cleaning a path that ends in a plain element *)

Section PathFacts.

Lemma isSegment_inv (s : string) :
  isSegment s = true ->
  s <> "" /\ strings.ContainsByte s "/" = false /\ s <> "." /\ s <> "..".
Proof.
  unfold isSegment. rewrite !andb_true_iff, !negb_true_iff, !String.eqb_neq.
  tauto.
Qed.

Lemma cleanStep_segment (rooted : bool) (out : list string) (seg : string) :
  isSegment seg = true -> filepath.cleanStep rooted out seg = seg :: out.
Proof.
  intros H. apply isSegment_inv in H as (H0 & _ & H1 & H2).
  unfold filepath.cleanStep.
  apply String.eqb_neq in H0, H1, H2. now rewrite H0, H1, H2.
Qed.

(** What the loop has written never holds an empty element, [.] or a
    slash. *)
Lemma cleanStep_ok (rooted : bool) (out : list string) (e : string) :
  e <> "/" ->
  Forall written_ok out -> Forall written_ok (filepath.cleanStep rooted out e).
Proof.
  intros Hs Hout. unfold filepath.cleanStep.
  destruct (String.eqb_spec e "") as [->|He]; [exact Hout|].
  destruct (String.eqb_spec e ".") as [->|Hd]; [exact Hout|]. simpl.
  destruct (String.eqb_spec e "..") as [->|Hdd].
  - destruct out as [|top below].
    + destruct rooted; [exact Hout|]. repeat constructor; discriminate.
    + destruct (top =? ".."); [|now inversion Hout].
      destruct rooted; [exact Hout|].
      constructor; [repeat split; discriminate|exact Hout].
  - constructor; [now repeat split | exact Hout].
Qed.

Lemma fold_cleanStep_ok (rooted : bool) (es out : list string) :
  Forall (fun e => e <> "/") es ->
  Forall written_ok out ->
  Forall written_ok (fold_left (filepath.cleanStep rooted) es out).
Proof.
  revert out. induction es as [|e es IH]; intros out Hes Hout; simpl;
    [exact Hout|].
  inversion Hes; subst. apply IH; [assumption|]. now apply cleanStep_ok.
Qed.

Lemma Split_fields (s : string) (sep : ascii) :
  Forall (fun e => strings.ContainsByte e sep = false) (strings.Split s sep).
Proof.
  induction s as [|c s IH]; simpl; [now repeat constructor|].
  destruct (Ascii.eqb c sep) eqn:E; [now constructor|].
  destruct (strings.Split s sep) as [|f fs]; [now repeat constructor; simpl; rewrite E|].
  inversion IH; subst. constructor; [simpl; now rewrite E | assumption].
Qed.

Lemma elements_ok (rooted : bool) (path : string) :
  Forall written_ok (filepath.elements rooted path).
Proof.
  apply fold_cleanStep_ok; [|constructor].
  eapply Forall_impl; [|apply Split_fields].
  intros e He ->. discriminate.
Qed.

Lemma elements_snoc (rooted : bool) (p seg : string) :
  isSegment seg = true ->
  filepath.elements rooted (p ++ "/" ++ seg) = seg :: filepath.elements rooted p.
Proof.
  intros Hseg. unfold filepath.elements.
  change (p ++ "/" ++ seg) with (p ++ String filepath.Separator seg).
  rewrite Split_snoc by (now apply isSegment_inv in Hseg).
  rewrite fold_left_app. simpl. now apply cleanStep_segment.
Qed.

Lemma joined_ok (out : list string) :
  Forall written_ok out -> out <> [] -> written_ok (strings.Join out "/").
Proof.
  intros Hok Hne. destruct out as [|e out]; [now elim Hne|].
  inversion Hok as [|? ? (He & Hd & Hs) Hrest]; subst.
  destruct out as [|e' out]; [now repeat split|].
  unfold strings.Join.
  change (String.concat "/" (e :: e' :: out))
    with (e ++ "/" ++ String.concat "/" (e' :: out)).
  destruct e as [|c e]; [now elim He|]. simpl.
  repeat split; [discriminate| |]; destruct e; simpl; discriminate.
Qed.

Lemma rooted_snoc (p tl : string) :
  p <> "" -> strings.HasPrefix (p ++ tl) "/" = strings.HasPrefix p "/".
Proof.
  destruct p as [|c p]; [now intros H; elim H | intros _].
  reflexivity.
Qed.

(** Cleaning [p/seg] for a plain element [seg] extends the cleaned [p]. *)
Lemma Clean_snoc (p seg : string) :
  p <> "" -> isSegment seg = true ->
  filepath.Clean (p ++ "/" ++ seg) = extend (filepath.Clean p) seg.
Proof.
  intros Hp Hseg. unfold filepath.Clean.
  destruct (String.eqb_spec (p ++ "/" ++ seg) "") as [E|_];
    [apply append_eq_nil in E as [E _]; now elim Hp|].
  destruct (String.eqb_spec p "") as [E|_]; [now elim Hp|].
  rewrite (rooted_snoc p ("/" ++ seg) Hp), elements_snoc by exact Hseg.
  set (rooted := strings.HasPrefix p "/").
  pose proof (Forall_rev (elements_ok rooted p)) as Hok.
  set (out := filepath.elements rooted p) in *.
  simpl rev.
  destruct (rev out) as [|e0 l0] eqn:Erev.
  - (* nothing written for [p] *)
    simpl. destruct rooted; [reflexivity|].
    apply isSegment_inv in Hseg as (H0 & _).
    apply String.eqb_neq in H0. now rewrite H0.
  - assert (Hrev : rev out <> []) by (rewrite Erev; discriminate).
    rewrite <- Erev in *. clear Erev e0 l0.
    destruct (joined_ok (rev out) Hok Hrev) as (Hne & Hnd & Hns).
    unfold strings.Join in *. rewrite concat_snoc by exact Hrev.
    destruct (String.concat "/" (rev out)) as [|c body]; [now elim Hne|].
    unfold extend. destruct rooted.
    + reflexivity.
    + change (String c body ++ "/" ++ seg =? "") with false. cbv iota.
      change (String c body =? "") with false. cbv iota.
      apply String.eqb_neq in Hnd, Hns. now rewrite Hnd, Hns.
Qed.

Lemma Clean_segment (seg : string) :
  isSegment seg = true -> filepath.Clean seg = seg.
Proof.
  intros Hseg. pose proof (isSegment_inv _ Hseg) as (H0 & Hs & _).
  unfold filepath.Clean, filepath.elements, filepath.Separator.
  rewrite (Split_no_sep _ _ Hs). simpl fold_left.
  rewrite (cleanStep_segment _ _ _ Hseg).
  destruct seg as [|c seg]; [now elim H0|].
  simpl in Hs. apply orb_false_iff in Hs as [Hc _].
  change (strings.HasPrefix (String c seg) "/") with (Ascii.eqb "/" c && true).
  rewrite Ascii.eqb_sym, Hc. reflexivity.
Qed.

Lemma extend_plain (cleaned seg : string) :
  cleaned <> "." -> cleaned <> "/" -> extend cleaned seg = cleaned ++ "/" ++ seg.
Proof.
  intros Hd Hs. unfold extend. apply String.eqb_neq in Hd, Hs.
  now rewrite Hd, Hs.
Qed.

Lemma extended_plain (a seg : string) :
  seg <> "" -> a ++ "/" ++ seg <> "." /\ a ++ "/" ++ seg <> "/".
Proof.
  intros Hseg. destruct seg as [|c seg]; [now elim Hseg|].
  split; intros E; apply (f_equal String.length) in E;
    rewrite length_append in E; simpl in E; lia.
Qed.

(** A cleaned path followed by plain elements is clean as it stands. *)
Lemma Clean_snoc_plain (p seg : string) :
  filepath.Clean p = p -> p <> "." -> p <> "/" -> isSegment seg = true ->
  filepath.Clean (p ++ "/" ++ seg) = p ++ "/" ++ seg.
Proof.
  intros Hc Hd Hs Hseg.
  assert (Hp : p <> "") by (intros ->; discriminate Hc).
  now rewrite Clean_snoc, Hc, extend_plain.
Qed.

Lemma segment_not_root (seg : string) :
  isSegment seg = true -> seg <> "" /\ seg <> "." /\ seg <> "/".
Proof.
  intros H. apply isSegment_inv in H as (H0 & Hs & Hd & _).
  repeat split; try assumption. intros ->. discriminate Hs.
Qed.

End PathFacts.

(** ** The path resolver *)

Section Resolver.

Lemma modPath_cleans (pre : string) (m : TFModule) :
  pre <> "" ->
  modPath pre m
  = filepath.Clean (pre ++ "/" ++ Namespace m ++ "/" ++ Name m ++ "/" ++ Provider m).
Proof.
  intros Hpre. unfold modPath. simpl.
  apply String.eqb_neq in Hpre. now rewrite Hpre.
Qed.

Lemma tfGetHeader_cleans (m : TFModule) :
  tfGetHeader m
  = filepath.Clean ("/download/" ++ Namespace m ++ "/" ++ Name m ++ "/"
                    ++ Provider m ++ "/" ++ Version m ++ "/" ++ Name m ++ ".tgz").
Proof. reflexivity. Qed.

Lemma Clean_three (a b c : string) :
  isSegment a = true -> isSegment b = true -> isSegment c = true ->
  filepath.Clean (a ++ "/" ++ b ++ "/" ++ c) = a ++ "/" ++ b ++ "/" ++ c.
Proof.
  intros Ha Hb Hc.
  pose proof (segment_not_root _ Ha) as (_ & Had & Has).
  pose proof (segment_not_root _ Hb) as (Hb0 & _).
  destruct (extended_plain a b Hb0) as [Hd Hs].
  replace (a ++ "/" ++ b ++ "/" ++ c) with ((a ++ "/" ++ b) ++ "/" ++ c)
    by (now rewrite !append_assoc).
  rewrite Clean_snoc_plain; try assumption; [reflexivity|].
  rewrite Clean_snoc_plain; try assumption; [reflexivity|].
  now apply Clean_segment.
Qed.

Lemma modPath_unprefixed (m : TFModule) :
  validModule m = true ->
  modPath "" m = Namespace m ++ "/" ++ Name m ++ "/" ++ Provider m.
Proof.
  unfold validModule. rewrite !andb_true_iff. intros [[Hns Hn] Hp].
  pose proof (segment_not_root _ Hns) as (Hns0 & _).
  unfold modPath. simpl filepath.Join.
  apply String.eqb_neq in Hns0. rewrite Hns0.
  now apply Clean_three.
Qed.

Lemma modPath_prefixed (pre : string) (m : TFModule) :
  validModule m = true ->
  filepath.Clean pre = pre -> pre <> "." -> pre <> "/" ->
  modPath pre m = pre ++ "/" ++ Namespace m ++ "/" ++ Name m ++ "/" ++ Provider m.
Proof.
  unfold validModule. rewrite !andb_true_iff. intros [[Hns Hn] Hp] Hc Hd Hs.
  assert (Hpre : pre <> "") by (intros ->; discriminate Hc).
  rewrite (modPath_cleans _ _ Hpre).
  pose proof (segment_not_root _ Hns) as (Hns0 & _).
  pose proof (segment_not_root _ Hn) as (Hn0 & _).
  destruct (extended_plain pre (Namespace m) Hns0) as [Hd1 Hs1].
  destruct (extended_plain (pre ++ "/" ++ Namespace m) (Name m) Hn0) as [Hd2 Hs2].
  replace (pre ++ "/" ++ Namespace m ++ "/" ++ Name m ++ "/" ++ Provider m)
    with (((pre ++ "/" ++ Namespace m) ++ "/" ++ Name m) ++ "/" ++ Provider m)
    by (now rewrite !append_assoc).
  rewrite Clean_snoc_plain; try assumption; [reflexivity|].
  rewrite Clean_snoc_plain; try assumption; [reflexivity|].
  now rewrite Clean_snoc_plain.
Qed.

End Resolver.

(** C5 (as amended).  The path of a module depends on the prefix and on
    the namespace, name and provider only, and for valid fields it is
    exactly [prefix/namespace/name/provider], without the prefix element
    when the prefix is empty, provided the prefix is empty or a path that
    [Clean] leaves as it is, other than [.] and [/].  Under any other
    prefix the path is that string cleaned. *)
Theorem C5_modPath_exact (pre : string) (m : TFModule) :
  validModule m = true ->
  pre = "" \/ (filepath.Clean pre = pre /\ pre <> "." /\ pre <> "/") ->
  (forall m' : TFModule,
      Namespace m' = Namespace m -> Name m' = Name m -> Provider m' = Provider m ->
      modPath pre m' = modPath pre m)
  /\ modPath pre m
     = (if pre =? "" then "" else pre ++ "/")
       ++ Namespace m ++ "/" ++ Name m ++ "/" ++ Provider m
  /\ (forall (c : ascii) (other : string),
         modPath (String c other) m
         = filepath.Clean
             (String c other ++ "/" ++ Namespace m ++ "/" ++ Name m ++ "/"
              ++ Provider m)).
Proof.
  intros Hm Hpre. split; [|split].
  - intros m' E1 E2 E3. unfold modPath. now rewrite E1, E2, E3.
  - destruct Hpre as [->|(Hc & Hd & Hs)].
    + now apply modPath_unprefixed.
    + rewrite (modPath_prefixed pre m Hm Hc Hd Hs).
      destruct (String.eqb_spec pre "") as [->|_]; [discriminate Hc|].
      now rewrite !append_assoc.
  - intros c other. now apply modPath_cleans.
Qed.

Lemma C5_modPath_exact_witness :
  modPath "modules" acmeVpc = "modules/acme/vpc/aws"
  /\ modPath "" acmeVpc = "acme/vpc/aws".
Proof.
  split.
  - apply (C5_modPath_exact "modules" acmeVpc); [reflexivity|].
    right. split; [reflexivity | split; discriminate].
  - apply (C5_modPath_exact "" acmeVpc); [reflexivity | now left].
Defined.

(** C5 as stated fails: a prefix with a trailing slash is not followed by
    a second slash in the path, and a prefix with [..] in it is not found
    in the path as it was given. *)
Lemma C5_unclean_prefix :
  validModule acmeVpc = true
  /\ modPath "modules/" acmeVpc = "modules/acme/vpc/aws"
  /\ modPath "modules/" acmeVpc
     <> (if "modules/" =? "" then "" else "modules/" ++ "/")
        ++ Namespace acmeVpc ++ "/" ++ Name acmeVpc ++ "/" ++ Provider acmeVpc
  /\ modPath "old/../modules" acmeVpc = "modules/acme/vpc/aws"
  /\ modPath "old/../modules" acmeVpc
     <> (if "old/../modules" =? "" then "" else "old/../modules" ++ "/")
        ++ Namespace acmeVpc ++ "/" ++ Name acmeVpc ++ "/" ++ Provider acmeVpc.
Proof.
  split; [reflexivity|]. split; [reflexivity|]. split; [discriminate|].
  split; [reflexivity | discriminate].
Qed.

(** C9.  An identity field with [../] in it takes the resolved path out of
    the subtree of the prefix, and the download location out of the
    download root; the resolver hands the fields to [Join] as they come.
    The router itself lets a namespace [..] through. *)
Theorem C9_path_escapes_prefix :
  (exists (pre : string) (m : TFModule),
      strings.Contains (Namespace m) "../" = true
      /\ underPrefix pre (modPath pre m) = false
      /\ underPrefix "/download" (tfGetHeader m) = false)
  /\ (forall (c : ascii) (pre : string) (m : TFModule),
         modPath (String c pre) m
         = filepath.Clean
             (String c pre ++ "/" ++ Namespace m ++ "/" ++ Name m ++ "/"
              ++ Provider m))
  /\ (forall m : TFModule,
         tfGetHeader m
         = filepath.Clean
             ("/download/" ++ Namespace m ++ "/" ++ Name m ++ "/" ++ Provider m
              ++ "/" ++ Version m ++ "/" ++ Name m ++ ".tgz"))
  /\ snd (serve sampleLib prefixedGlobals
            (request "GET" "/terraform/modules/v1/../vpc/aws/versions"))
     = [fs.CallReadDir "vpc/aws"]
  /\ underPrefix "modules" "vpc/aws" = false.
Proof.
  split; [|split; [|split; [|split]]]; [| | | |reflexivity].
  - exists "modules",
      {| Namespace := "../secret"; Name := "vpc"; Provider := "aws";
         Version := "1.0.0" |}.
    repeat split; reflexivity.
  - intros c pre m. now apply modPath_cleans.
  - exact tfGetHeader_cleans.
  - reflexivity.
Qed.

(** ** The handlers *)

Section HandlerFacts.

Variable lib : http.Delegated.
Variable g : Globals.

(** Once a status that allows a body is out, a write adds its bytes. *)
Lemma write_appends (data : string) (rw : http.ResponseWriter) :
  http.wroteHeader rw = true ->
  http.bodyAllowedForStatus (http.status rw) = true ->
  (http.reqMethod rw =? "HEAD") = false ->
  http.write data rw
  = {| http.reqMethod := http.reqMethod rw; http.header := http.header rw;
       http.wroteHeader := true; http.status := http.status rw;
       http.sentHeader := http.sentHeader rw;
       http.body := http.body rw ++ data |}.
Proof.
  intros Hw Hb Hm. unfold http.write, http.writeHeader.
  rewrite Hw, Hb, Hm. simpl.
  destruct (String.eqb_spec data "") as [->|_]; [|now rewrite Hw].
  rewrite append_nil_r. destruct rw; simpl in *. now subst.
Qed.

(** The loop of [getModuleVersions] appends one map per entry. *)
Lemma versions_loop (dirs : list fs.DirEntry) (acc : list (list (string * string))) :
  fold_left
    (fun m v => {| Versions := Versions m ++ [[("version", fs.Name v)]] |})
    dirs {| Versions := acc |}
  = {| Versions := acc ++ map (fun v => [("version", fs.Name v)]) dirs |}.
Proof.
  revert acc. induction dirs as [|v dirs IH]; intros acc; simpl.
  - now rewrite app_nil_r.
  - rewrite IH. now rewrite <- app_assoc.
Qed.

Lemma getModuleVersions_ok (modPath : string) (dirs : list fs.DirEntry)
  (x : http.Exchange) :
  fs.ReadDir (s3fsys g) modPath = fs.Ok dirs ->
  getModuleVersions g modPath x
  = (({| Modules := [ {| Versions := map (fun v => [("version", fs.Name v)]) dirs |} ] |},
      None),
     {| http.w := http.w x;
        http.calls := http.calls x ++ [fs.CallReadDir modPath] |}).
Proof.
  intros H. unfold getModuleVersions, http.bind, http.ReadDir.
  rewrite H. now rewrite versions_loop.
Qed.

Lemma getModuleVersions_err (modPath : string) (e : fs.Error)
  (x : http.Exchange) :
  fs.ReadDir (s3fsys g) modPath = fs.Err e ->
  getModuleVersions g modPath x
  = (({| Modules := [] |}, Some e),
     {| http.w := http.w x;
        http.calls := http.calls x ++ [fs.CallReadDir modPath] |}).
Proof.
  intros H. unfold getModuleVersions, http.bind, http.ReadDir. now rewrite H.
Qed.

(** A successful listing is answered with the document alone. *)
Lemma httpGetVersions_ok (r : http.Request) (dirs : list fs.DirEntry) :
  fs.ReadDir (s3fsys g) (modPath (prefix g) (listedModule r)) = fs.Ok dirs ->
  http.respond "GET" (httpGetVersions g r)
  = ({| http.Status := 200;
        http.Headers := [("Content-Type", "application/json")];
        http.Body :=
          json.encode
            (jsonModuleVersionsResp
               {| Modules :=
                    [ {| Versions := map (fun v => [("version", fs.Name v)]) dirs |} ] |}) |},
     [fs.CallReadDir (modPath (prefix g) (listedModule r))]).
Proof.
  intros H. unfold http.respond, httpGetVersions.
  unfold http.bind at 1. fold (listedModule r).
  rewrite (getModuleVersions_ok _ _ _ H). reflexivity.
Qed.

(** A failed listing is answered with status 500, and with the error
    text followed by the document of the empty response. *)
Lemma httpGetVersions_err (r : http.Request) (e : fs.Error) :
  fs.ReadDir (s3fsys g) (modPath (prefix g) (listedModule r)) = fs.Err e ->
  http.respond "GET" (httpGetVersions g r)
  = ({| http.Status := 500;
        http.Headers := [("Content-Type", "text/plain; charset=utf-8");
                         ("X-Content-Type-Options", "nosniff")];
        http.Body := fs.message e ++ http.newline
                     ++ noModules ++ http.newline |},
     [fs.CallReadDir (modPath (prefix g) (listedModule r))]).
Proof.
  intros H. unfold http.respond, httpGetVersions.
  unfold http.bind at 1. fold (listedModule r).
  rewrite (getModuleVersions_err _ _ _ H).
  unfold http.Error, http.bind, http.SetHeader, http.WriteHeader, http.Write,
    http.onWriter.
  cbn [http.w http.calls].
  rewrite (write_appends (fs.message e ++ http.newline)) by reflexivity.
  rewrite write_appends by reflexivity.
  cbn. now rewrite append_assoc.
Qed.

End HandlerFacts.

(** C2.  When the listing of a module path returns the entries [1.0.0],
    [1.1.0] and [2.0.0], in whatever order, [getModuleVersions] returns one
    module whose versions are those of the listing, in its order, each
    once, each as the map [{"version": id}]; the response is the JSON
    document of that list, one object [{"version":"<id>"}] per entry. *)
Theorem C2_listVersions (g : Globals) (r : http.Request) (dirs : list fs.DirEntry) :
  fs.ReadDir (s3fsys g) (modPath (prefix g) (listedModule r)) = fs.Ok dirs ->
  Permutation (map fs.Name dirs) ["1.0.0"; "1.1.0"; "2.0.0"] ->
  let ids := map fs.Name dirs in
  (forall x : http.Exchange,
      fst (getModuleVersions g (modPath (prefix g) (listedModule r)) x)
      = ({| Modules := [ {| Versions := map (fun id => [("version", id)]) ids |} ] |},
         None))
  /\ NoDup ids
  /\ (forall id, In id ids <-> In id ["1.0.0"; "1.1.0"; "2.0.0"])
  /\ http.respond "GET" (httpGetVersions g r)
     = ({| http.Status := 200;
           http.Headers := [("Content-Type", "application/json")];
           http.Body :=
             "{" ++ inQuotes "modules" ++ ":[{" ++ inQuotes "versions" ++ ":["
             ++ String.concat "," (map versionObject ids)
             ++ "]}]}" ++ http.newline |},
        [fs.CallReadDir (modPath (prefix g) (listedModule r))]).
Proof.
  intros Hdir Hperm ids. repeat split.
  - intros x. rewrite (getModuleVersions_ok g _ _ x Hdir). simpl.
    unfold ids. now rewrite map_map.
  - apply (Permutation_NoDup (Permutation_sym Hperm)).
    repeat constructor; simpl; intuition discriminate.
  - apply Permutation_in, Hperm.
  - apply Permutation_in, Permutation_sym, Hperm.
  - rewrite (httpGetVersions_ok g r dirs Hdir). do 2 f_equal.
    assert (Hin : forall id, In id ids -> In id ["1.0.0"; "1.1.0"; "2.0.0"])
      by (intros id; apply Permutation_in, Hperm).
    pose proof (Permutation_length Hperm) as Hlen.
    unfold ids in *. clear Hdir Hperm ids.
    destruct dirs as [|[n1 b1] [|[n2 b2] [|[n3 b3] [|? ?]]]]; try discriminate Hlen.
    simpl in Hin.
    pose proof (Hin n1 (or_introl eq_refl)) as H1.
    pose proof (Hin n2 (or_intror (or_introl eq_refl))) as H2.
    pose proof (Hin n3 (or_intror (or_intror (or_introl eq_refl)))) as H3.
    clear Hin Hlen. simpl in H1, H2, H3.
    destruct H1 as [<-|[<-|[<-|[]]]]; destruct H2 as [<-|[<-|[<-|[]]]];
      destruct H3 as [<-|[<-|[<-|[]]]]; reflexivity.
Qed.

Lemma C2_listVersions_witness :
  http.respond "GET"
    (httpGetVersions (globals "" plainStore)
       (withParams (request "GET" "/terraform/modules/v1/acme/vpc/aws/versions")
          [("namespace", "acme"); ("name", "vpc"); ("provider", "aws")]))
  = ({| http.Status := 200;
        http.Headers := [("Content-Type", "application/json")];
        http.Body :=
          "{" ++ inQuotes "modules" ++ ":[{" ++ inQuotes "versions" ++ ":["
          ++ versionObject "1.0.0" ++ "," ++ versionObject "1.1.0" ++ ","
          ++ versionObject "2.0.0" ++ "]}]}" ++ http.newline |},
     [fs.CallReadDir "acme/vpc/aws"]).
Proof.
  apply (C2_listVersions (globals "" plainStore)
           (withParams (request "GET" "/terraform/modules/v1/acme/vpc/aws/versions")
              [("namespace", "acme"); ("name", "vpc"); ("provider", "aws")])
           [versionDir "1.0.0"; versionDir "1.1.0"; versionDir "2.0.0"]).
  - reflexivity.
  - apply Permutation_refl.
Defined.

(** C3, at a module path the store does not hold.  The listing fails and
    the status is 500, but the body is not the error text alone: the
    handler goes on after [http.Error] and writes the JSON document of the
    empty response after it. *)
Theorem C3_listing_failure_body :
  fs.ReadDir (s3fsys plainGlobals) "acme/vpc/gcp"
  = fs.Err {| fs.kind := fs.ErrNotExist;
              fs.message := "open acme/vpc/gcp: file does not exist" |}
  /\ serve sampleLib plainGlobals
       (request "GET" "/terraform/modules/v1/acme/vpc/gcp/versions")
     = ({| http.Status := 500;
           http.Headers := [("Content-Type", "text/plain; charset=utf-8");
                            ("X-Content-Type-Options", "nosniff")];
           http.Body := "open acme/vpc/gcp: file does not exist" ++ http.newline
                        ++ noModules ++ http.newline |},
        [fs.CallReadDir "acme/vpc/gcp"])
  /\ http.Body
       (fst (serve sampleLib plainGlobals
               (request "GET" "/terraform/modules/v1/acme/vpc/gcp/versions")))
     <> "open acme/vpc/gcp: file does not exist" ++ http.newline.
Proof. split; [reflexivity | split; [reflexivity | discriminate]]. Qed.

(** C8.  [GET /] and [GET /.well-known/terraform.json] are answered alike,
    with the document [{"modules.v1": "/terraform/modules/v1"}], under
    any two configurations: the answer depends on no global. *)
Theorem C8_discovery_static (lib1 lib2 : http.Delegated) (g1 g2 : Globals) :
  let root := request "GET" "/" in
  let wellKnown := request "GET" "/.well-known/terraform.json" in
  let document := json.Object [("modules.v1", json.Str "/terraform/modules/v1")] in
  let answer :=
    ({| http.Status := 200;
        http.Headers := [("Content-Type", "application/json")];
        http.Body := json.encode document |}, @nil fs.Call) in
  serve lib1 g1 root = answer
  /\ serve lib2 g2 wellKnown = answer
  /\ serve lib1 g1 root = serve lib2 g2 root
  /\ serve lib1 g1 wellKnown = serve lib2 g2 wellKnown
  /\ json.encode document
     = discoveryText ++ http.newline.
Proof. repeat split; reflexivity. Qed.

(** C10.  A module path that lists no entry is no failure: the result is
    one module with an empty list of versions, which the response gives
    with status 200. *)
Theorem C10_empty_listing (g : Globals) (r : http.Request) :
  fs.ReadDir (s3fsys g) (modPath (prefix g) (listedModule r)) = fs.Ok [] ->
  (forall x : http.Exchange,
      fst (getModuleVersions g (modPath (prefix g) (listedModule r)) x)
      = ({| Modules := [ {| Versions := [] |} ] |}, None))
  /\ http.respond "GET" (httpGetVersions g r)
     = ({| http.Status := 200;
           http.Headers := [("Content-Type", "application/json")];
           http.Body := noVersions ++ http.newline |},
        [fs.CallReadDir (modPath (prefix g) (listedModule r))]).
Proof.
  intros Hdir. split.
  - intros x. now rewrite (getModuleVersions_ok g _ _ x Hdir).
  - now rewrite (httpGetVersions_ok g r [] Hdir).
Qed.

Lemma C10_empty_listing_witness :
  http.respond "GET"
    (httpGetVersions (globals "" plainStore)
       (withParams (request "GET" "/terraform/modules/v1/acme/empty/aws/versions")
          [("namespace", "acme"); ("name", "empty"); ("provider", "aws")]))
  = ({| http.Status := 200;
        http.Headers := [("Content-Type", "application/json")];
        http.Body := noVersions ++ http.newline |},
     [fs.CallReadDir "acme/empty/aws"]).
Proof.
  apply (C10_empty_listing (globals "" plainStore)
           (withParams (request "GET" "/terraform/modules/v1/acme/empty/aws/versions")
              [("namespace", "acme"); ("name", "empty"); ("provider", "aws")])).
  reflexivity.
Defined.

(** ** The router *)

Section RouterFacts.

Variable lib : http.Delegated.
Variable g : Globals.

Lemma matches_exact (t path : string) (ps : list (string * string)) :
  chi.matches [chi.Static t] path = Some ps -> path = t.
Proof.
  cbn [chi.matches]. destruct (strings.HasPrefix path t) eqn:Hp; [|discriminate].
  destruct (String.eqb_spec (strings.drop (String.length t) path) "") as [E|];
    [|discriminate].
  intros _. now apply HasPrefix_exact.
Qed.

Lemma matches_static_inv (t : string) (rest : list chi.Token) (path : string)
  (ps : list (string * string)) :
  chi.matches (chi.Static t :: rest) path = Some ps ->
  strings.HasPrefix path t = true
  /\ chi.matches rest (strings.drop (String.length t) path) = Some ps.
Proof.
  cbn [chi.matches]. destruct (strings.HasPrefix path t); [now split | discriminate].
Qed.

Lemma matches_param_inv (key : string) (rest : list chi.Token) (path : string)
  (ps : list (string * string)) :
  chi.matches (chi.Param key :: rest) path = Some ps ->
  exists ps',
    chi.matches rest
      (strings.drop (String.length (strings.before path (chi.tail rest))) path)
    = Some ps'.
Proof.
  cbn [chi.matches]. destruct (path =? ""); [discriminate|].
  destruct (negb (strings.ContainsByte path (chi.tail rest))
            && negb (Ascii.eqb (chi.tail rest) "/")); [discriminate|].
  destruct (strings.ContainsByte (strings.before path (chi.tail rest)) "/");
    [discriminate|].
  destruct (chi.matches rest _) as [ps'|]; [|discriminate].
  intros _. now exists ps'.
Qed.

(** The two patterns under the base path differ after the provider. *)
Lemma versions_or_download (path : string) (ps qs : list (string * string)) :
  chi.matches
    (chi.tokens (ModuleBasePath ++ "/{namespace}/{name}/{provider}/versions"))
    path = Some ps ->
  chi.matches
    (chi.tokens (ModuleBasePath ++ "/{namespace}/{name}/{provider}/{version}/download"))
    path = Some qs ->
  False.
Proof.
  change (chi.tokens (ModuleBasePath ++ "/{namespace}/{name}/{provider}/versions"))
    with [chi.Static "/terraform/modules/v1/"; chi.Param "namespace";
          chi.Static "/"; chi.Param "name"; chi.Static "/";
          chi.Param "provider"; chi.Static "/versions"].
  change (chi.tokens
            (ModuleBasePath ++ "/{namespace}/{name}/{provider}/{version}/download"))
    with [chi.Static "/terraform/modules/v1/"; chi.Param "namespace";
          chi.Static "/"; chi.Param "name"; chi.Static "/";
          chi.Param "provider"; chi.Static "/"; chi.Param "version";
          chi.Static "/download"].
  intros H3 H4.
  apply matches_static_inv in H3 as [_ H3], H4 as [_ H4].
  apply matches_param_inv in H3 as [? H3], H4 as [? H4]. cbn [chi.tail] in H3, H4.
  apply matches_static_inv in H3 as [_ H3], H4 as [_ H4].
  apply matches_param_inv in H3 as [? H3], H4 as [? H4]. cbn [chi.tail] in H3, H4.
  apply matches_static_inv in H3 as [_ H3], H4 as [_ H4].
  apply matches_param_inv in H3 as [? H3], H4 as [? H4]. cbn [chi.tail] in H3, H4.
  apply matches_exact in H3. rewrite H3 in H4. discriminate H4.
Qed.

Ltac tokenize H :=
  match type of H with
  | chi.matches ?t _ = _ =>
      let t' := eval vm_compute in t in change t with t' in H
  end.

Ltac exact_pattern H H' :=
  apply matches_exact in H; subst; discriminate H'.

Ltac clashing_prefixes H H' :=
  apply matches_static_inv in H as [H _], H' as [H' _];
  destruct (HasPrefix_clash _ _ _ H H'); discriminate.

(** No path is matched by two of the routes, so that the order in which
    the routing tree tries them does not show. *)
Lemma route_patterns_disjoint (path : string) (i j : nat)
  (rt1 rt2 : chi.Route HandlerFunc) (ps qs : list (string * string)) :
  nth_error (routes lib g) i = Some rt1 ->
  nth_error (routes lib g) j = Some rt2 ->
  i <> j ->
  chi.matches (chi.tokens (chi.pattern rt1)) path = Some ps ->
  chi.matches (chi.tokens (chi.pattern rt2)) path = Some qs ->
  False.
Proof.
  intros Hi Hj Hne H1 H2.
  destruct i as [|[|[|[|[|i]]]]]; [| | | | |destruct i; discriminate Hi];
    (destruct j as [|[|[|[|[|j]]]]]; [| | | | |destruct j; discriminate Hj]);
    try (elim Hne; reflexivity);
    injection Hi as <-; injection Hj as <-;
    cbv [chi.pattern chi.Get] in H1, H2;
    tokenize H1; tokenize H2;
    lazymatch type of H1 with
    | chi.matches [_] _ = _ => exact_pattern H1 H2
    | _ =>
        lazymatch type of H2 with
        | chi.matches [_] _ = _ => exact_pattern H2 H1
        | chi.matches [_; chi.CatchAll] _ = _ => clashing_prefixes H1 H2
        | chi.matches [_; _; _; _; _; _; _] _ = _ =>
            first [ clashing_prefixes H1 H2
                  | exact (versions_or_download path qs ps H2 H1) ]
        | _ =>
            first [ clashing_prefixes H1 H2
                  | exact (versions_or_download path ps qs H1 H2) ]
        end
    end.
Qed.

Lemma routes_are_get :
  Forall (fun rt => chi.method rt = "GET") (routes lib g).
Proof. repeat constructor. Qed.

(** A method without a route of its own finds no handler. *)
Lemma FindRoute_other_method (H : Type) (rs : list (chi.Route H))
  (meth path : string) :
  Forall (fun rt => chi.method rt = "GET") rs -> meth <> "GET" ->
  chi.FindRoute rs meth path = chi.MethodNotAllowed
  \/ chi.FindRoute rs meth path = chi.NotFound.
Proof.
  intros Hget Hm. induction Hget as [|rt rs Hrt _ IH]; simpl; [now right|].
  destruct (chi.matches (chi.tokens (chi.pattern rt)) path); [|exact IH].
  rewrite Hrt. destruct (String.eqb_spec "GET" meth) as [E|_];
    [now elim Hm|].
  left. now destruct IH as [-> | ->].
Qed.

(** A path no pattern matches finds nothing, whatever the method. *)
Lemma FindRoute_unmatched (H : Type) (rs : list (chi.Route H))
  (meth path : string) :
  Forall (fun rt => chi.matches (chi.tokens (chi.pattern rt)) path = None) rs ->
  chi.FindRoute rs meth path = chi.NotFound.
Proof.
  intros Hno. induction Hno as [|rt rs Hrt _ IH]; simpl; [reflexivity|].
  now rewrite Hrt.
Qed.

Lemma no_head_route (path : string) :
  chi.Match (routes lib g) "HEAD" path = false.
Proof.
  unfold chi.Match.
  destruct (FindRoute_other_method _ (routes lib g) "HEAD" path routes_are_get)
    as [-> | ->]; [discriminate | reflexivity | reflexivity].
Qed.

Lemma dispatch_other_method (r : http.Request) :
  http.Method r <> "GET" -> http.Method r <> "HEAD" ->
  dispatch lib g r = Routed chi.MethodNotAllowed
  \/ dispatch lib g r = Routed chi.NotFound.
Proof.
  intros Hget Hhead. unfold dispatch, chi.GetHead, chi.isHeartbeat.
  apply String.eqb_neq in Hget as Eg, Hhead as Eh. rewrite Eg, Eh.
  pose proof routes_are_get as Hrs. set (rs := routes lib g) in *. clearbody rs.
  cbn [orb andb]. unfold chi.routeHTTP.
  cbn [chi.RouteMethod chi.RoutePath String.eqb].
  destruct (chi.methodMap (http.Method r)); cbn [negb]; [|now left].
  destruct (FindRoute_other_method _ rs (http.Method r)
              (if chi.urlPath r =? "" then "/" else chi.urlPath r) Hrs Hget)
    as [-> | ->]; [now left | now right].
Qed.

Lemma dispatch_head (r : http.Request) :
  http.Method r = "HEAD" -> dispatch lib g r = dispatch lib g (asGet r).
Proof.
  intros Hm. unfold dispatch, chi.GetHead, chi.isHeartbeat.
  rewrite Hm, no_head_route.
  set (rs := routes lib g). clearbody rs.
  cbn [http.Method http.Path asGet String.eqb Ascii.eqb Bool.eqb orb andb negb
       chi.RoutePath].
  destruct (strings.EqualFold (http.Path r) "/is_alive"); [reflexivity|].
  unfold chi.routeHTTP.
  change (chi.urlPath (asGet r)) with (chi.urlPath r).
  cbn [chi.RouteMethod chi.RoutePath http.Method asGet String.eqb Ascii.eqb
       Bool.eqb].
  destruct (chi.urlPath r) as [|c p]; reflexivity.
Qed.

Lemma dispatch_unmatched (r : http.Request) :
  chi.methodMap (http.Method r) = true ->
  chi.isHeartbeat "/is_alive" r = false ->
  Forall (fun rt => chi.matches (chi.tokens (chi.pattern rt)) (routePath r) = None)
    (routes lib g) ->
  dispatch lib g r = Routed chi.NotFound.
Proof.
  intros Hknown Hbeat Hno. unfold dispatch. rewrite Hbeat.
  unfold chi.GetHead. rewrite no_head_route.
  set (rs := routes lib g) in *. clearbody rs.
  unfold routePath in Hno. unfold chi.routeHTTP.
  destruct (String.eqb_spec (http.Method r) "HEAD") as [Hm|Hm];
    cbn [chi.RouteMethod chi.RoutePath String.eqb Ascii.eqb Bool.eqb negb].
  - change (chi.methodMap "GET") with true. cbn [negb]. f_equal.
    destruct (chi.urlPath r) as [|c p]; now apply FindRoute_unmatched.
  - rewrite Hknown. cbn [negb]. f_equal. now apply FindRoute_unmatched.
Qed.

End RouterFacts.

Lemma NotFound_status (method : string) :
  http.Status (fst (http.respond method http.NotFound)) = 404.
Proof.
  unfold http.respond, http.NotFound, http.Error, http.bind, http.SetHeader,
    http.WriteHeader, http.Write, http.onWriter, http.write.
  cbn. now destruct (method =? "HEAD").
Qed.

Lemma methodNotAllowed_status (method : string) :
  http.Status (fst (http.respond method chi.methodNotAllowedHandler)) = 405.
Proof. reflexivity. Qed.

(** C7 as stated fails: a HEAD request for [/] reaches the discovery
    handler, because the router is used with [middleware.GetHead]. *)
Lemma C7_head_reaches_handler :
  http.Method (request "HEAD" "/") <> "GET"
  /\ dispatch sampleLib plainGlobals (request "HEAD" "/")
     = Routed (chi.Found httpGetServiceDiscovery [])
  /\ http.Status (fst (serve sampleLib plainGlobals (request "HEAD" "/"))) = 200.
Proof. split; [discriminate | split; reflexivity]. Qed.

(** C7 (as amended).  A request whose method is neither GET nor HEAD
    reaches none of the five routes: the router answers 405 or 404
    itself.  A HEAD request goes where the same request sent as a GET
    goes.  A request with a method the router knows, which the heartbeat
    does not take and whose path no pattern matches, is answered with the
    plain 404. *)
Theorem C7_get_and_head_only (lib : http.Delegated) (g : Globals) (r : http.Request) :
  (http.Method r <> "GET" -> http.Method r <> "HEAD" ->
   (dispatch lib g r = Routed chi.MethodNotAllowed
    /\ http.Status (fst (serve lib g r)) = 405)
   \/ (dispatch lib g r = Routed chi.NotFound
       /\ http.Status (fst (serve lib g r)) = 404))
  /\ (http.Method r = "HEAD" -> dispatch lib g r = dispatch lib g (asGet r))
  /\ (chi.methodMap (http.Method r) = true ->
      chi.isHeartbeat "/is_alive" r = false ->
      Forall (fun rt => chi.matches (chi.tokens (chi.pattern rt)) (routePath r) = None)
        (routes lib g) ->
      dispatch lib g r = Routed chi.NotFound
      /\ http.Status (fst (serve lib g r)) = 404).
Proof.
  split; [|split].
  - intros Hget Hhead.
    destruct (dispatch_other_method lib g r Hget Hhead) as [E|E]; [left|right];
      (split; [exact E|]); unfold serve, ServeHTTP; rewrite E.
    + apply methodNotAllowed_status.
    + apply NotFound_status.
  - apply dispatch_head.
  - intros Hknown Hbeat Hno.
    pose proof (dispatch_unmatched lib g r Hknown Hbeat Hno) as E.
    split; [exact E|]. unfold serve, ServeHTTP. rewrite E.
    apply NotFound_status.
Qed.

Lemma C7_get_and_head_only_witness :
  ((dispatch sampleLib plainGlobals (request "POST" "/") = Routed chi.MethodNotAllowed
    /\ http.Status (fst (serve sampleLib plainGlobals (request "POST" "/"))) = 405)
   \/ (dispatch sampleLib plainGlobals (request "POST" "/") = Routed chi.NotFound
       /\ http.Status (fst (serve sampleLib plainGlobals (request "POST" "/"))) = 404))
  /\ dispatch sampleLib plainGlobals
       (request "HEAD" "/download/acme/vpc/aws/1.0.0/vpc.tgz")
     = dispatch sampleLib plainGlobals
         (asGet (request "HEAD" "/download/acme/vpc/aws/1.0.0/vpc.tgz"))
  /\ (dispatch sampleLib plainGlobals (request "GET" "/terraform/modules/v2")
      = Routed chi.NotFound
      /\ http.Status
           (fst (serve sampleLib plainGlobals (request "GET" "/terraform/modules/v2")))
         = 404).
Proof.
  split; [|split].
  - apply (C7_get_and_head_only sampleLib plainGlobals (request "POST" "/"));
      discriminate.
  - apply (C7_get_and_head_only sampleLib plainGlobals
             (request "HEAD" "/download/acme/vpc/aws/1.0.0/vpc.tgz")).
    reflexivity.
  - apply (C7_get_and_head_only sampleLib plainGlobals
             (request "GET" "/terraform/modules/v2"));
      [reflexivity | reflexivity | repeat constructor].
Defined.

(** ** The module content server *)

Section ContentFacts.

Variable lib : http.Delegated.
Variable g : Globals.

Lemma Clean_rooted_segment (seg : string) :
  isSegment seg = true -> filepath.Clean ("/" ++ seg) = "/" ++ seg.
Proof.
  intros Hseg. pose proof (isSegment_inv _ Hseg) as (_ & Hs & _).
  unfold filepath.Clean, filepath.elements, filepath.Separator.
  change (strings.Split ("/" ++ seg) "/") with ("" :: strings.Split seg "/").
  rewrite (Split_no_sep _ _ Hs). simpl fold_left.
  change (filepath.cleanStep true [] "") with (@nil string).
  now rewrite (cleanStep_segment _ _ _ Hseg).
Qed.

Lemma segments_app (l : list string) (x : string) :
  forallb isSegment (l ++ [x]) = true ->
  forallb isSegment l = true /\ isSegment x = true.
Proof.
  rewrite forallb_app. simpl. rewrite andb_true_r. apply andb_true_iff.
Qed.

Lemma key_not_empty (segs : list string) :
  segs <> [] -> forallb isSegment segs = true -> strings.Join segs "/" <> "".
Proof.
  destruct segs as [|a l]; [now intros H; elim H | intros _ Hall].
  simpl in Hall. apply andb_true_iff in Hall as [Ha _].
  apply isSegment_inv in Ha as (Ha & _).
  destruct a as [|c a]; [now elim Ha|].
  unfold strings.Join. destruct l; simpl; discriminate.
Qed.

Lemma key_unrooted (segs : list string) :
  segs <> [] -> forallb isSegment segs = true ->
  strings.HasPrefix (strings.Join segs "/") "/" = false.
Proof.
  destruct segs as [|a l]; [now intros H; elim H | intros _ Hall].
  simpl in Hall. apply andb_true_iff in Hall as [Ha _].
  apply isSegment_inv in Ha as (Ha & Hs & _).
  destruct a as [|c a]; [now elim Ha|].
  simpl in Hs. apply orb_false_iff in Hs as [Hc _].
  assert (Hany : forall t, strings.HasPrefix (String c t) "/" = false).
  { intros t. change (strings.HasPrefix (String c t) "/")
      with (Ascii.eqb "/" c && true).
    now rewrite Ascii.eqb_sym, Hc. }
  unfold strings.Join. destruct l; apply Hany.
Qed.

Lemma key_clean (segs : list string) :
  segs <> [] -> forallb isSegment segs = true ->
  filepath.Clean ("/" ++ strings.Join segs "/") = "/" ++ strings.Join segs "/".
Proof.
  induction segs as [|x l IH] using rev_ind; [now intros H; elim H|].
  intros _ Hall. apply segments_app in Hall as [Hl Hx].
  destruct l as [|a l]; [now apply Clean_rooted_segment|].
  assert (Hne : a :: l <> []) by discriminate.
  unfold strings.Join in *. rewrite concat_snoc by exact Hne.
  rewrite <- append_assoc.
  pose proof (key_not_empty _ Hne Hl) as Hk. unfold strings.Join in Hk.
  apply Clean_snoc_plain; [now apply IH | | | exact Hx].
  - destruct (String.concat "/" (a :: l)); discriminate.
  - destruct (String.concat "/" (a :: l)); [now elim Hk | discriminate].
Qed.

Lemma key_no_trailing_slash (segs : list string) :
  segs <> [] -> forallb isSegment segs = true ->
  http.endsWithSlash ("/" ++ strings.Join segs "/") = false.
Proof.
  intros Hne Hall. unfold http.endsWithSlash.
  rewrite last_append by (now apply key_not_empty).
  destruct (strings.last (strings.Join segs "/")) as [c|] eqn:E; [|reflexivity].
  destruct (Ascii.eqb_spec c "/") as [->|_]; [exfalso|reflexivity].
  revert Hne Hall E. induction segs as [|x l _] using rev_ind;
    [now intros H; elim H|].
  intros _ Hall E. apply segments_app in Hall as [_ Hx].
  apply isSegment_inv in Hx as (Hx & Hs & _).
  assert (El : strings.last x = Some "/"%char).
  { destruct l as [|a l]; [exact E|].
    unfold strings.Join in E. rewrite concat_snoc in E by discriminate.
    rewrite <- append_assoc in E. now rewrite last_append in E. }
  apply last_contains in El. congruence.
Qed.

Lemma StripPrefix_download (h : http.Request -> http.Handler unit)
  (method key : string) (params : list (string * string)) (cond : bool) :
  http.StripPrefix "/download/" h
    {| http.Method := method; http.Path := "/download/" ++ key;
       http.RawPath := ""; http.URLParams := params; http.Conditional := cond |}
  = h {| http.Method := method; http.Path := key; http.RawPath := "";
         http.URLParams := params; http.Conditional := cond |}.
Proof.
  unfold http.StripPrefix.
  cbn [http.Path http.RawPath http.Method http.URLParams http.Conditional].
  rewrite (TrimPrefix_append "/download/" key), length_append.
  change ("/download/" =? "") with false.
  change (strings.TrimPrefix "" "/download/") with "".
  change ("" =? "") with true. cbn [orb andb].
  replace (Nat.ltb (String.length key) (String.length "/download/" + String.length key))
    with true; [reflexivity|].
  symmetry. apply Nat.ltb_lt. simpl. lia.
Qed.

Lemma dispatch_download (rest : string) :
  dispatch lib g (request "GET" ("/download/" ++ rest))
  = Routed (chi.Found (httpGetModule lib g) [("*", rest)]).
Proof. reflexivity. Qed.

(** The content handler hands the request to [serveFile] with the two
    headers set, the path rooted and the name cleaned. *)
Lemma httpGetModule_serveFile (rest : string) (x : http.Exchange) :
  httpGetModule lib g (withParams (request "GET" ("/download/" ++ rest)) [("*", rest)]) x
  = http.serveFile lib (s3fsys g)
      (withParams (request "GET" (servedPath rest)) [("*", rest)])
      (filepath.Clean (servedPath rest))
      {| http.w :=
           http.editHeader
             (fun h => http.HeaderSet h "Content-Type" "application/x-gzip")
             (http.editHeader
                (fun h => http.HeaderSet h "Content-Encoding" "application/octet-stream")
                (http.w x));
         http.calls := http.calls x |}.
Proof.
  unfold httpGetModule, withParams, request.
  cbn [http.Method http.Path http.RawPath http.URLParams http.Conditional].
  rewrite StripPrefix_download. reflexivity.
Qed.

(** A file found: the bytes with status 200 and the headers of the
    handler, to which the file server adds its own. *)
Lemma module_content_found (rest B : string) (modTime : option string) :
  strings.HasSuffix (servedPath rest) "/index.html" = false ->
  http.endsWithSlash (servedPath rest) = false ->
  fs.Open (s3fsys g) (servedKey rest) = fs.Ok (fs.Regular B modTime) ->
  serve lib g (request "GET" ("/download/" ++ rest))
  = ({| http.Status := 200;
        http.Headers :=
          ([("Content-Encoding", "application/octet-stream");
            ("Content-Type", "application/x-gzip")]
           ++ match modTime with
              | Some t => [("Last-Modified", t)]
              | None => []
              end
           ++ [("Accept-Ranges", "bytes")])%list;
        http.Body := B |},
     [fs.CallOpen (servedKey rest)]).
Proof.
  intros Hidx Hslash Hopen.
  change (serve lib g (request "GET" ("/download/" ++ rest)))
    with (http.respond "GET"
            (httpGetModule lib g
               (withParams (request "GET" ("/download/" ++ rest)) [("*", rest)]))).
  unfold http.respond. rewrite httpGetModule_serveFile.
  unfold http.serveFile, withParams, request.
  cbn [http.Method http.Path http.RawPath http.URLParams http.Conditional].
  rewrite Hidx. unfold http.bind, http.Open. fold (servedKey rest).
  rewrite Hopen, Hslash.
  unfold http.serveContent.
  cbn [http.Method http.Conditional].
  unfold http.bind, http.setLastModified, http.SetHeader, http.WriteHeader,
    http.Write, http.getHeader, http.onWriter, http.ret.
  destruct modTime as [t|]; cbn -[servedKey]; rewrite write_appends by reflexivity;
    reflexivity.
Qed.

(** No such file: the plain 404 of the file server. *)
Lemma module_content_absent (rest : string) (e : fs.Error) :
  strings.HasSuffix (servedPath rest) "/index.html" = false ->
  fs.Open (s3fsys g) (servedKey rest) = fs.Err e ->
  fs.kind e = fs.ErrNotExist ->
  serve lib g (request "GET" ("/download/" ++ rest))
  = ({| http.Status := 404;
        http.Headers :=
          [("Content-Encoding", "application/octet-stream");
           ("Content-Type", "text/plain; charset=utf-8");
           ("X-Content-Type-Options", "nosniff")];
        http.Body := "404 page not found" ++ http.newline |},
     [fs.CallOpen (servedKey rest)]).
Proof.
  intros Hidx Hopen Hkind.
  change (serve lib g (request "GET" ("/download/" ++ rest)))
    with (http.respond "GET"
            (httpGetModule lib g
               (withParams (request "GET" ("/download/" ++ rest)) [("*", rest)]))).
  unfold http.respond. rewrite httpGetModule_serveFile.
  unfold http.serveFile, withParams, request.
  cbn [http.Method http.Path http.RawPath http.URLParams http.Conditional].
  rewrite Hidx. unfold http.bind, http.Open. fold (servedKey rest).
  rewrite Hopen. unfold http.toHTTPError. rewrite Hkind. reflexivity.
Qed.

(** For a key of plain path elements the path served is the key behind
    a slash, and the key asked of the store is the key itself. *)
Lemma served_plain_key (segs : list string) :
  segs <> [] -> forallb isSegment segs = true ->
  servedPath (strings.Join segs "/") = "/" ++ strings.Join segs "/"
  /\ servedKey (strings.Join segs "/") = strings.Join segs "/"
  /\ http.endsWithSlash (servedPath (strings.Join segs "/")) = false.
Proof.
  intros Hne Hall. unfold servedKey, servedPath.
  rewrite (key_unrooted segs Hne Hall), (key_clean segs Hne Hall).
  pose proof (key_not_empty segs Hne Hall) as Hk.
  repeat split.
  - destruct (strings.Join segs "/"); [now elim Hk | reflexivity].
  - now apply key_no_trailing_slash.
Qed.

End ContentFacts.

(** C6 as stated fails: a key that ends in [/index.html] and holds bytes
    is answered with a redirect, which is how the file server treats every
    path with that ending; and a HEAD request, which the router sends to
    the same handler, gets no body. *)
Lemma C6_index_page_redirects :
  fs.Open (s3fsys plainGlobals) "acme/index.html" = fs.Ok (fs.Regular "page" None)
  /\ fst (serve sampleLib plainGlobals (request "GET" "/download/acme/index.html"))
     = {| http.Status := 301;
          http.Headers := [("Content-Encoding", "application/octet-stream");
                           ("Content-Type", "application/x-gzip");
                           ("Location", "./")];
          http.Body := "" |}
  /\ fs.Open (s3fsys plainGlobals) "acme/vpc/aws/1.0.0/vpc.tgz"
     = fs.Ok (fs.Regular "archive" None)
  /\ http.Body
       (fst (serve sampleLib plainGlobals
               (request "HEAD" "/download/acme/vpc/aws/1.0.0/vpc.tgz")))
     = "".
Proof. repeat split; reflexivity. Qed.

(** C6 (as amended).  A GET request without range or precondition headers
    for a path under [/download/] that does not end in [/index.html]:
    when the store holds the bytes [B] under the key the file server
    derives from the path (the rest of the path, cleaned) and the path
    does not end in a slash, the status is 200, the body is [B],
    [Content-Type] is [application/x-gzip] and [Content-Encoding] is
    [application/octet-stream], whatever the bytes; when the store has no
    such key, the status is 404.  The store is asked once, for that
    key. *)
Theorem C6_module_content (lib : http.Delegated) (g : Globals) (rest : string) :
  let response := serve lib g (request "GET" ("/download/" ++ rest)) in
  strings.HasSuffix (servedPath rest) "/index.html" = false ->
  (forall (B : string) (modTime : option string),
      fs.Open (s3fsys g) (servedKey rest) = fs.Ok (fs.Regular B modTime) ->
      http.endsWithSlash (servedPath rest) = false ->
      http.Status (fst response) = 200
      /\ http.Body (fst response) = B
      /\ http.HeaderLookup (http.Headers (fst response)) "Content-Type"
         = Some "application/x-gzip"
      /\ http.HeaderLookup (http.Headers (fst response)) "Content-Encoding"
         = Some "application/octet-stream"
      /\ snd response = [fs.CallOpen (servedKey rest)])
  /\ (forall e : fs.Error,
         fs.Open (s3fsys g) (servedKey rest) = fs.Err e ->
         fs.kind e = fs.ErrNotExist ->
         http.Status (fst response) = 404
         /\ snd response = [fs.CallOpen (servedKey rest)]).
Proof.
  intros response Hidx. split.
  - intros B modTime Hopen Hslash. unfold response.
    rewrite (module_content_found lib g rest B modTime Hidx Hslash Hopen).
    repeat split; reflexivity.
  - intros e Hopen Hkind. unfold response.
    rewrite (module_content_absent lib g rest e Hidx Hopen Hkind).
    split; reflexivity.
Qed.

Lemma C6_module_content_witness :
  (http.Status
     (fst (serve sampleLib plainGlobals
             (request "GET" ("/download/" ++ "acme/vpc/aws/1.0.0/vpc.tgz"))))
   = 200
   /\ http.Body
        (fst (serve sampleLib plainGlobals
                (request "GET" ("/download/" ++ "acme/vpc/aws/1.0.0/vpc.tgz"))))
      = "archive"
   /\ http.HeaderLookup
        (http.Headers
           (fst (serve sampleLib plainGlobals
                   (request "GET" ("/download/" ++ "acme/vpc/aws/1.0.0/vpc.tgz")))))
        "Content-Type"
      = Some "application/x-gzip"
   /\ http.HeaderLookup
        (http.Headers
           (fst (serve sampleLib plainGlobals
                   (request "GET" ("/download/" ++ "acme/vpc/aws/1.0.0/vpc.tgz")))))
        "Content-Encoding"
      = Some "application/octet-stream"
   /\ snd (serve sampleLib plainGlobals
             (request "GET" ("/download/" ++ "acme/vpc/aws/1.0.0/vpc.tgz")))
      = [fs.CallOpen "acme/vpc/aws/1.0.0/vpc.tgz"])
  /\ (http.Status
        (fst (serve sampleLib plainGlobals
                (request "GET" ("/download/" ++ "acme/vpc/aws/9.9.9/vpc.tgz"))))
      = 404
      /\ snd (serve sampleLib plainGlobals
                (request "GET" ("/download/" ++ "acme/vpc/aws/9.9.9/vpc.tgz")))
         = [fs.CallOpen "acme/vpc/aws/9.9.9/vpc.tgz"]).
Proof.
  split.
  - exact (proj1 (C6_module_content sampleLib plainGlobals
                    "acme/vpc/aws/1.0.0/vpc.tgz" eq_refl)
             "archive" None eq_refl eq_refl).
  - exact (proj2 (C6_module_content sampleLib plainGlobals
                    "acme/vpc/aws/9.9.9/vpc.tgz" eq_refl)
             _ eq_refl eq_refl).
Defined.

(** The same for a key of plain path elements, where the key asked of the
    store is the rest of the path as it stands. *)
Lemma module_content_plain_key (lib : http.Delegated) (g : Globals)
  (segs : list string) (B : string) (modTime : option string) :
  let key := strings.Join segs "/" in
  let response := serve lib g (request "GET" ("/download/" ++ key)) in
  segs <> [] -> forallb isSegment segs = true ->
  strings.HasSuffix ("/" ++ key) "/index.html" = false ->
  fs.Open (s3fsys g) key = fs.Ok (fs.Regular B modTime) ->
  http.Status (fst response) = 200 /\ http.Body (fst response) = B.
Proof.
  intros key response Hne Hall Hidx Hopen.
  destruct (served_plain_key segs Hne Hall) as (Hp & Hk & Hs). fold key in Hp, Hk, Hs.
  rewrite <- Hp in Hidx. rewrite <- Hk in Hopen. unfold response.
  rewrite (module_content_found lib g key B modTime Hidx Hs Hopen).
  now split.
Qed.

(** ** Download location against storage path *)

Section LocationFacts.

Lemma ContainsByte_append (a b : string) (c : ascii) :
  strings.ContainsByte (a ++ b) c
  = strings.ContainsByte a c || strings.ContainsByte b c.
Proof.
  induction a as [|x a IH]; simpl; [reflexivity|].
  now rewrite IH, orb_assoc.
Qed.

(** The archive of a module is named by one path element. *)
Lemma archive_segment (name : string) :
  isSegment name = true -> isSegment (name ++ ".tgz") = true.
Proof.
  intros H. apply isSegment_inv in H as (H0 & Hs & _).
  assert (Hlen : 5 <= String.length (name ++ ".tgz")).
  { rewrite length_append. destruct name; [now elim H0 | simpl; lia]. }
  assert (Hshort : forall t, String.length t < 5 -> negb (name ++ ".tgz" =? t) = true).
  { intros t Ht. apply negb_true_iff, String.eqb_neq. intros E.
    rewrite E in Hlen. lia. }
  unfold isSegment. rewrite ContainsByte_append, Hs.
  now rewrite !Hshort by (simpl; lia).
Qed.

Lemma segments_written (segs : list string) :
  forallb isSegment segs = true -> Forall written_ok segs.
Proof.
  induction segs as [|a l IH]; simpl; [constructor|].
  intros H. apply andb_true_iff in H as [Ha Hl].
  constructor; [now apply segment_not_root | now apply IH].
Qed.

Lemma segments_clean (segs : list string) :
  segs <> [] -> forallb isSegment segs = true ->
  filepath.Clean (strings.Join segs "/") = strings.Join segs "/".
Proof.
  induction segs as [|x l IH] using rev_ind; [now intros H; elim H|].
  intros _ Hall. apply segments_app in Hall as [Hl Hx].
  destruct l as [|a l]; [now apply Clean_segment|].
  assert (Hne : a :: l <> []) by discriminate.
  destruct (joined_ok _ (segments_written _ Hl) Hne) as (_ & Hd & Hs).
  unfold strings.Join in *. rewrite concat_snoc by exact Hne.
  now apply Clean_snoc_plain; [apply IH| | |].
Qed.

Lemma artifactKey_segments (m : TFModule) :
  validVersion m = true -> forallb isSegment (artifactKey m) = true.
Proof.
  unfold validVersion, validModule. rewrite !andb_true_iff.
  intros [[[Hns Hn] Hp] Hv]. simpl.
  now rewrite Hns, Hn, Hp, Hv, (archive_segment _ Hn).
Qed.

(** For valid fields the location is the download root followed by the
    elements of the identity and the archive name. *)
Lemma tfGetHeader_valid (m : TFModule) :
  validVersion m = true ->
  tfGetHeader m = "/download/" ++ strings.Join (artifactKey m) "/".
Proof.
  intros Hm. rewrite tfGetHeader_cleans.
  apply (key_clean ("download" :: artifactKey m)); [discriminate|].
  change (forallb isSegment ("download" :: artifactKey m))
    with (isSegment "download" && forallb isSegment (artifactKey m)).
  now rewrite (artifactKey_segments m Hm).
Qed.

(** Without a prefix the location, less the download root, is the path
    of the artifact in the store. *)
Lemma location_is_path_without_prefix (m : TFModule) :
  validVersion m = true ->
  strings.TrimPrefix (tfGetHeader m) "/download/" = spec_artifactPath "" m.
Proof.
  intros Hm. rewrite (tfGetHeader_valid m Hm), TrimPrefix_append.
  pose proof (artifactKey_segments m Hm) as Hall.
  unfold spec_artifactPath. simpl filepath.Join.
  assert (Hns : Namespace m <> "").
  { simpl in Hall. apply andb_true_iff in Hall as [Hns _].
    now apply isSegment_inv in Hns. }
  apply String.eqb_neq in Hns. rewrite Hns. symmetry.
  apply (segments_clean (artifactKey m)); [discriminate | exact Hall].
Qed.

(** Under a prefix it is not: the path of the artifact starts with the
    prefix, the location does not have it. *)
Lemma location_misses_prefix (pre : string) (m : TFModule) :
  validVersion m = true -> isSegment pre = true ->
  spec_artifactPath pre m
  = pre ++ "/" ++ strings.TrimPrefix (tfGetHeader m) "/download/"
  /\ strings.TrimPrefix (tfGetHeader m) "/download/" <> spec_artifactPath pre m.
Proof.
  intros Hm Hpre. rewrite (tfGetHeader_valid m Hm), TrimPrefix_append.
  pose proof (artifactKey_segments m Hm) as Hall.
  assert (E : spec_artifactPath pre m
              = pre ++ "/" ++ strings.Join (artifactKey m) "/").
  { unfold spec_artifactPath. simpl filepath.Join.
    pose proof (isSegment_inv _ Hpre) as (H0 & _).
    apply String.eqb_neq in H0. rewrite H0.
    apply (segments_clean (pre :: artifactKey m)); [discriminate|].
    change (forallb isSegment (pre :: artifactKey m))
      with (isSegment pre && forallb isSegment (artifactKey m)).
    now rewrite Hpre, Hall. }
  split; [exact E|]. rewrite E. intros Heq.
  apply (f_equal String.length) in Heq.
  rewrite !length_append in Heq. simpl in Heq. lia.
Qed.

End LocationFacts.

(** C4.  The download of [acme/vpc/aws] at [1.0.0] is located at
    [/download/acme/vpc/aws/1.0.0/vpc.tgz] in the header [X-Terraform-Get],
    with status 204 and no body, whatever the store holds; for every
    identity the handler answers 204 with the location in that header and
    no body, and does not call the store; for valid fields the location is
    [/download/namespace/name/provider/version/name.tgz]. *)
Theorem C4_locateDownload (lib : http.Delegated) (g : Globals) (r : http.Request) :
  serve lib g (request "GET" "/terraform/modules/v1/acme/vpc/aws/1.0.0/download")
  = ({| http.Status := 204;
        http.Headers :=
          [("X-Terraform-Get", "/download/acme/vpc/aws/1.0.0/vpc.tgz")];
        http.Body := "" |},
     [])
  /\ http.respond (http.Method r) (httpGetDownloadURL r)
     = ({| http.Status := 204;
           http.Headers := [("X-Terraform-Get", tfGetHeader (locatedModule r))];
           http.Body := "" |},
        [])
  /\ (validVersion (locatedModule r) = true ->
      tfGetHeader (locatedModule r)
      = "/download/" ++ Namespace (locatedModule r) ++ "/" ++ Name (locatedModule r)
        ++ "/" ++ Provider (locatedModule r) ++ "/" ++ Version (locatedModule r)
        ++ "/" ++ Name (locatedModule r) ++ ".tgz").
Proof.
  split; [reflexivity|]. split; [reflexivity|].
  intros Hm. exact (tfGetHeader_valid (locatedModule r) Hm).
Qed.

Lemma C4_locateDownload_witness :
  tfGetHeader
    (locatedModule
       (withParams (request "GET" "/terraform/modules/v1/acme/vpc/aws/1.0.0/download")
          [("namespace", "acme"); ("name", "vpc"); ("provider", "aws");
           ("version", "1.0.0")]))
  = "/download/acme/vpc/aws/1.0.0/vpc.tgz".
Proof.
  exact (proj2 (proj2 (C4_locateDownload sampleLib plainGlobals
                         (withParams
                            (request "GET" "/terraform/modules/v1/acme/vpc/aws/1.0.0/download")
                            [("namespace", "acme"); ("name", "vpc"); ("provider", "aws");
                             ("version", "1.0.0")])))
           eq_refl).
Defined.

(** C1, at the prefix [modules] with the bucket laid out as the README
    asks.  The location sent for [acme/vpc/aws] at [1.0.0], less the
    download root, is the key the content server opens; but the artifact
    is stored under the prefix, where the version listing finds it and the
    content server does not look: the download is answered with 404. *)
Theorem C1_download_ignores_prefix :
  fst (serve sampleLib prefixedGlobals
         (request "GET" "/terraform/modules/v1/acme/vpc/aws/1.0.0/download"))
  = {| http.Status := 204;
       http.Headers := [("X-Terraform-Get", "/download/acme/vpc/aws/1.0.0/vpc.tgz")];
       http.Body := "" |}
  /\ strings.TrimPrefix "/download/acme/vpc/aws/1.0.0/vpc.tgz" "/download/"
     = "acme/vpc/aws/1.0.0/vpc.tgz"
  /\ snd (serve sampleLib prefixedGlobals
            (request "GET" "/download/acme/vpc/aws/1.0.0/vpc.tgz"))
     = [fs.CallOpen "acme/vpc/aws/1.0.0/vpc.tgz"]
  /\ spec_artifactPath (prefix prefixedGlobals) acmeVpc
     = "modules/acme/vpc/aws/1.0.0/vpc.tgz"
  /\ fs.Open (s3fsys prefixedGlobals) (spec_artifactPath (prefix prefixedGlobals) acmeVpc)
     = fs.Ok (fs.Regular "archive" None)
  /\ snd (serve sampleLib prefixedGlobals
            (request "GET" "/terraform/modules/v1/acme/vpc/aws/versions"))
     = [fs.CallReadDir "modules/acme/vpc/aws"]
  /\ http.Status
       (fst (serve sampleLib prefixedGlobals
               (request "GET" "/download/acme/vpc/aws/1.0.0/vpc.tgz")))
     = 404.
Proof. repeat split; reflexivity. Qed.

(* ================================================================== *)
(** * Further properties *)

(** ** Joining and cleaning in general *)

Section CleanFacts.

Lemma Split_app (a b : string) (sep : ascii) :
  strings.Split (a ++ String sep b) sep
  = (strings.Split a sep ++ strings.Split b sep)%list.
Proof.
  induction a as [|c a IH]; simpl.
  - now rewrite Ascii.eqb_refl.
  - destruct (Ascii.eqb c sep); rewrite IH; [reflexivity|].
    pose proof (Split_not_nil a sep) as Hne.
    destruct (strings.Split a sep); [now elim Hne | reflexivity].
Qed.

Lemma Split_concat (l : list string) (sep : ascii) :
  l <> [] ->
  strings.Split (String.concat (String sep "") l) sep
  = flat_map (fun e => strings.Split e sep) l.
Proof.
  induction l as [|e l IH]; [now intros H; elim H | intros _].
  destruct l as [|e' l]; [simpl; now rewrite app_nil_r|].
  change (String.concat (String sep "") (e :: e' :: l))
    with (e ++ String sep (String.concat (String sep "") (e' :: l))).
  rewrite Split_app, IH by discriminate. reflexivity.
Qed.

(** The loop of [Clean] passes over the empty elements of a list. *)
Lemma fold_cleanStep_nonEmpty (rooted : bool) (l : list string) (out : list string) :
  fold_left (filepath.cleanStep rooted)
    (flat_map (fun e => strings.Split e "/") (nonEmpty l)) out
  = fold_left (filepath.cleanStep rooted)
      (flat_map (fun e => strings.Split e "/") l) out.
Proof.
  revert out. induction l as [|e l IH]; intros out; [reflexivity|].
  unfold nonEmpty in *. simpl filter. simpl flat_map.
  destruct (String.eqb_spec e "") as [->|He]; simpl negb; cbv iota.
  - simpl. apply IH.
  - simpl flat_map. rewrite !fold_left_app. apply IH.
Qed.

Lemma concat_head (sep e : string) (l : list string) :
  exists t, String.concat sep (e :: l) = e ++ t.
Proof.
  destruct l as [|e' l]; [exists ""; now rewrite append_nil_r|].
  now exists (sep ++ String.concat sep (e' :: l)).
Qed.

Lemma Clean_concat_nonEmpty (e : string) (l : list string) :
  e <> "" ->
  filepath.Clean (strings.Join (e :: nonEmpty l) "/")
  = filepath.Clean (strings.Join (e :: l) "/").
Proof.
  intros He. unfold strings.Join.
  destruct (concat_head "/" e (nonEmpty l)) as [t1 E1].
  destruct (concat_head "/" e l) as [t2 E2].
  unfold filepath.Clean, filepath.elements, filepath.Separator.
  rewrite !Split_concat by discriminate.
  rewrite E1, E2.
  rewrite !(rooted_snoc e _ He).
  replace (e ++ t1 =? "") with false
    by (destruct e; [now elim He | reflexivity]).
  replace (e ++ t2 =? "") with false
    by (destruct e; [now elim He | reflexivity]).
  simpl flat_map. rewrite !fold_left_app.
  now rewrite (fold_cleanStep_nonEmpty _ l).
Qed.

(** [Join] ignores the empty elements, wherever they stand. *)
Lemma Join_nonEmpty (l : list string) :
  filepath.Join (nonEmpty l) = filepath.Join l.
Proof.
  induction l as [|e l IH]; [reflexivity|].
  unfold nonEmpty in *. simpl filter.
  destruct (String.eqb_spec e "") as [->|He]; simpl negb; cbv iota.
  - simpl. exact IH.
  - simpl. apply String.eqb_neq in He as Hb. rewrite Hb.
    apply (Clean_concat_nonEmpty e l He).
Qed.

End CleanFacts.
(** ** The shape of a cleaned path *)

Section ShapeFacts.

Lemma not_segment_parent : isSegment ".." = false.
Proof. reflexivity. Qed.

Lemma cleanStep_shaped (rooted : bool) (out : list string) (e : string) :
  strings.ContainsByte e "/" = false ->
  shaped rooted out -> shaped rooted (filepath.cleanStep rooted out e).
Proof.
  intros Hs (k & segs & -> & Hsegs & Hk). unfold filepath.cleanStep.
  destruct (String.eqb_spec e "") as [->|He]; [now exists k, segs|].
  destruct (String.eqb_spec e ".") as [->|Hd]; [now exists k, segs|].
  cbn [orb].
  destruct (String.eqb_spec e "..") as [->|Hdd].
  - destruct segs as [|top below].
    + (* only [..] written so far *)
      cbn [app]. destruct k as [|k].
      * cbn. destruct rooted; [now exists 0, [] | now exists 1, []].
      * cbn. destruct rooted; [now specialize (Hk eq_refl)|].
        exists (S (S k)), []. repeat split. intros [=].
    + cbn [app]. cbn in Hsegs. apply andb_true_iff in Hsegs as [Htop Hbelow].
      destruct (String.eqb_spec top "..") as [->|_]; [discriminate Htop|].
      now exists k, below.
  - exists k, (e :: segs). repeat split; [|exact Hk].
    cbn. rewrite Hsegs, andb_true_r. unfold isSegment.
    apply String.eqb_neq in He, Hd, Hdd. now rewrite He, Hd, Hdd, Hs.
Qed.

Lemma elements_shaped (rooted : bool) (path : string) :
  shaped rooted (filepath.elements rooted path).
Proof.
  unfold filepath.elements.
  pose proof (Split_fields path filepath.Separator) as Hf.
  assert (H0 : shaped rooted []) by (now exists 0, []).
  revert H0. generalize (@nil string).
  induction Hf as [|e es He _ IH]; intros out Hout; [exact Hout|].
  simpl. apply IH. now apply cleanStep_shaped.
Qed.

(** Over [..] elements and then plain ones the loop writes them all. *)
Lemma fold_cleanStep_parents (k : nat) (out : list string) :
  out = parents (List.length out) ->
  fold_left (filepath.cleanStep false) (parents k) out = (parents k ++ out)%list.
Proof.
  revert out. induction k as [|k IH]; intros out Hout; [reflexivity|].
  cbn [parents repeat fold_left].
  assert (E : filepath.cleanStep false out ".." = ".." :: out).
  { unfold filepath.cleanStep. cbn.
    destruct out as [|top below]; [reflexivity|].
    cbn in Hout. injection Hout as -> _. reflexivity. }
  rewrite E, IH.
  - change (parents (S k)) with (".." :: parents k).
    clear. induction k as [|k IHk]; [reflexivity|].
    cbn. f_equal. exact IHk.
  - cbn. f_equal. exact Hout.
Qed.

Lemma fold_cleanStep_segments (rooted : bool) (segs out : list string) :
  forallb isSegment segs = true ->
  fold_left (filepath.cleanStep rooted) segs out = (rev segs ++ out)%list.
Proof.
  revert out. induction segs as [|s segs IH]; intros out Hall; [reflexivity|].
  cbn in Hall. apply andb_true_iff in Hall as [Hs Hall].
  cbn [fold_left]. rewrite (cleanStep_segment _ _ _ Hs), (IH _ Hall).
  cbn [rev]. now rewrite <- app_assoc.
Qed.

Lemma parents_rev (k : nat) : rev (parents k) = parents k.
Proof.
  induction k as [|k IH]; [reflexivity|].
  cbn [parents repeat rev]. fold (parents k). rewrite IH.
  clear. induction k as [|k IHk]; [reflexivity|]. cbn. f_equal. exact IHk.
Qed.

Lemma parents_length (k : nat) : parents k = parents (List.length (parents k)).
Proof. unfold parents. now rewrite repeat_length. Qed.

Lemma Split_plain (l : list string) :
  Forall (fun e => strings.ContainsByte e "/" = false) l ->
  flat_map (fun e => strings.Split e "/") l = l.
Proof.
  induction 1 as [|e l He _ IH]; [reflexivity|].
  cbn. now rewrite (Split_no_sep _ _ He), IH.
Qed.

Lemma shaped_plain (k : nat) (segs : list string) :
  forallb isSegment segs = true ->
  Forall (fun e => strings.ContainsByte e "/" = false) (parents k ++ segs)
  /\ Forall written_ok (parents k ++ segs).
Proof.
  intros Hall. split; apply Forall_app; split.
  - apply Forall_forall. intros e He. apply repeat_spec in He. now subst.
  - apply Forall_forall. intros e He.
    apply (proj1 (forallb_forall _ _) Hall) in He.
    now apply isSegment_inv in He.
  - apply Forall_forall. intros e He. apply repeat_spec in He. subst.
    repeat split; discriminate.
  - now apply segments_written.
Qed.

(** A path of [..] elements and then plain ones is clean as it stands. *)
Lemma Clean_shaped (k : nat) (segs : list string) :
  (parents k ++ segs)%list <> [] ->
  forallb isSegment segs = true ->
  filepath.Clean (strings.Join (parents k ++ segs) "/")
  = strings.Join (parents k ++ segs) "/".
Proof.
  intros Hne Hall.
  destruct (shaped_plain k segs Hall) as [Hplain Hok].
  destruct (joined_ok _ Hok Hne) as (H0 & _).
  assert (Hun : strings.HasPrefix (strings.Join (parents k ++ segs) "/") "/" = false).
  { destruct (parents k ++ segs)%list as [|e l] eqn:E; [now elim Hne|].
    destruct (concat_head "/" e l) as [t Et]. unfold strings.Join. rewrite Et.
    inversion Hok as [|? ? (He & _ & _) _]; subst.
    inversion Hplain as [|? ? Hs _]; subst.
    destruct e as [|c e]; [now elim He|].
    cbn in Hs. apply orb_false_iff in Hs as [Hc _].
    change (strings.HasPrefix (String c e ++ t) "/") with (Ascii.eqb "/" c && true).
    now rewrite Ascii.eqb_sym, Hc. }
  unfold filepath.Clean, filepath.elements, filepath.Separator.
  apply String.eqb_neq in H0 as Hb. rewrite Hb, Hun.
  unfold strings.Join in *. rewrite Split_concat by exact Hne.
  rewrite (Split_plain _ Hplain), fold_left_app.
  rewrite fold_cleanStep_parents by reflexivity.
  rewrite fold_cleanStep_segments by exact Hall.
  rewrite app_nil_r, rev_app_distr, rev_involutive, parents_rev.
  now rewrite Hb.
Qed.

(** [Clean] gives a path it leaves as it is. *)
Lemma Clean_idempotent (path : string) :
  filepath.Clean (filepath.Clean path) = filepath.Clean path.
Proof.
  unfold filepath.Clean at 2 3.
  destruct (String.eqb_spec path "") as [->|Hp]; [reflexivity|].
  set (rooted := strings.HasPrefix path "/").
  destruct (elements_shaped rooted path) as (k & segs & E & Hall & Hk).
  rewrite E, rev_app_distr, parents_rev.
  assert (Hrev : forallb isSegment (rev segs) = true).
  { apply forallb_forall. intros e He. apply in_rev in He.
    now apply (proj1 (forallb_forall _ _) Hall). }
  destruct rooted.
  - rewrite (Hk eq_refl). cbn [parents repeat app].
    destruct (rev segs) as [|s l] eqn:Es; [reflexivity|].
    apply key_clean; [discriminate | exact Hrev].
  - destruct (parents k ++ rev segs)%list as [|e l] eqn:El; [reflexivity|].
    assert (Hne : (parents k ++ rev segs)%list <> []) by (rewrite El; discriminate).
    destruct (shaped_plain k (rev segs) Hrev) as [_ Hok].
    destruct (joined_ok _ Hok Hne) as (H0 & _).
    rewrite <- El. apply String.eqb_neq in H0 as Hb. rewrite Hb.
    now apply Clean_shaped.
Qed.

(** A rooted path cleans to a slash and plain elements: nothing of it is
    empty, [.] or [..]. *)
Lemma Clean_rooted (path : string) :
  strings.HasPrefix path "/" = true ->
  exists segs : list string,
    forallb isSegment segs = true
    /\ filepath.Clean path = "/" ++ strings.Join segs "/".
Proof.
  intros Hr. unfold filepath.Clean.
  destruct (String.eqb_spec path "") as [->|_]; [discriminate Hr|].
  rewrite Hr.
  destruct (elements_shaped true path) as (k & segs & E & Hall & Hk).
  rewrite E, (Hk eq_refl). cbn [parents repeat]. rewrite app_nil_r.
  exists (rev segs). split; [|reflexivity].
  apply forallb_forall. intros e He. apply in_rev in He.
  now apply (proj1 (forallb_forall _ _) Hall).
Qed.

End ShapeFacts.
(** ** Routing an identity *)

Section IdentityRouting.

Variable lib : http.Delegated.
Variable g : Globals.

Lemma before_append (v s : string) (c : ascii) :
  strings.ContainsByte v c = false -> strings.before (v ++ String c s) c = v.
Proof.
  induction v as [|a v IH]; simpl.
  - intros _. now rewrite Ascii.eqb_refl.
  - intros H. apply orb_false_iff in H as [Ha Hv]. now rewrite Ha, (IH Hv).
Qed.

Lemma matches_static (t s : string) (rest : list chi.Token) :
  chi.matches (chi.Static t :: rest) (t ++ s) = chi.matches rest s.
Proof. cbn [chi.matches]. now rewrite HasPrefix_append, drop_append. Qed.

(** A parameter before a slash takes the bytes up to the next slash of
    the path, be they none. *)
Lemma matches_param (key v s : string) (rest : list chi.Token) :
  chi.tail rest = "/"%char ->
  strings.ContainsByte v "/" = false ->
  chi.matches (chi.Param key :: rest) (v ++ "/" ++ s)
  = match chi.matches rest ("/" ++ s) with
    | Some params => Some ((key, v) :: params)
    | None => None
    end.
Proof.
  intros Ht Hv. cbn [chi.matches]. rewrite Ht.
  replace (v ++ "/" ++ s =? "") with false by (now destruct v).
  change (v ++ "/" ++ s) with (v ++ String "/" s).
  rewrite (before_append v s "/" Hv), Hv, drop_append.
  rewrite ContainsByte_append. cbn [strings.ContainsByte].
  rewrite Ascii.eqb_refl, orb_true_r. reflexivity.
Qed.

Lemma matches_versions (ns n p : string) :
  strings.ContainsByte ns "/" = false ->
  strings.ContainsByte n "/" = false ->
  strings.ContainsByte p "/" = false ->
  chi.matches
    (chi.tokens (ModuleBasePath ++ "/{namespace}/{name}/{provider}/versions"))
    (versionsPath ns n p)
  = Some [("namespace", ns); ("name", n); ("provider", p)].
Proof.
  intros Hns Hn Hp.
  change (chi.tokens (ModuleBasePath ++ "/{namespace}/{name}/{provider}/versions"))
    with [chi.Static "/terraform/modules/v1/"; chi.Param "namespace";
          chi.Static "/"; chi.Param "name"; chi.Static "/";
          chi.Param "provider"; chi.Static "/versions"].
  change (versionsPath ns n p)
    with ("/terraform/modules/v1/" ++ ns ++ "/" ++ n ++ "/" ++ p ++ "/versions").
  rewrite matches_static.
  rewrite matches_param by (reflexivity || assumption).
  rewrite (matches_static "/" (n ++ "/" ++ p ++ "/versions")).
  rewrite matches_param by (reflexivity || assumption).
  rewrite (matches_static "/" (p ++ "/versions")).
  change (p ++ "/versions") with (p ++ "/" ++ "versions").
  rewrite matches_param by (reflexivity || assumption).
  reflexivity.
Qed.

Lemma matches_download (ns n p v : string) :
  strings.ContainsByte ns "/" = false ->
  strings.ContainsByte n "/" = false ->
  strings.ContainsByte p "/" = false ->
  strings.ContainsByte v "/" = false ->
  chi.matches
    (chi.tokens (ModuleBasePath ++ "/{namespace}/{name}/{provider}/{version}/download"))
    (downloadPath ns n p v)
  = Some [("namespace", ns); ("name", n); ("provider", p); ("version", v)].
Proof.
  intros Hns Hn Hp Hv.
  change (chi.tokens
            (ModuleBasePath ++ "/{namespace}/{name}/{provider}/{version}/download"))
    with [chi.Static "/terraform/modules/v1/"; chi.Param "namespace";
          chi.Static "/"; chi.Param "name"; chi.Static "/";
          chi.Param "provider"; chi.Static "/"; chi.Param "version";
          chi.Static "/download"].
  change (downloadPath ns n p v)
    with ("/terraform/modules/v1/" ++ ns ++ "/" ++ n ++ "/" ++ p ++ "/" ++ v
          ++ "/download").
  rewrite matches_static.
  rewrite matches_param by (reflexivity || assumption).
  rewrite (matches_static "/" (n ++ "/" ++ p ++ "/" ++ v ++ "/download")).
  rewrite matches_param by (reflexivity || assumption).
  rewrite (matches_static "/" (p ++ "/" ++ v ++ "/download")).
  rewrite matches_param by (reflexivity || assumption).
  rewrite (matches_static "/" (v ++ "/download")).
  change (v ++ "/download") with (v ++ "/" ++ "download").
  rewrite matches_param by (reflexivity || assumption).
  reflexivity.
Qed.

Lemma dispatch_versions (method ns n p : string) :
  method = "GET" \/ method = "HEAD" ->
  strings.ContainsByte ns "/" = false ->
  strings.ContainsByte n "/" = false ->
  strings.ContainsByte p "/" = false ->
  dispatch lib g (request method (versionsPath ns n p))
  = Routed (chi.Found (httpGetVersions g)
              [("namespace", ns); ("name", n); ("provider", p)]).
Proof.
  intros Hm Hns Hn Hp.
  assert (E : dispatch lib g (request "GET" (versionsPath ns n p))
              = Routed (chi.Found (httpGetVersions g)
                          [("namespace", ns); ("name", n); ("provider", p)])).
  { unfold dispatch.
    change (chi.isHeartbeat "/is_alive" (request "GET" (versionsPath ns n p)))
      with false.
    cbv iota.
    change (chi.routeHTTP (routes lib g)
              (chi.GetHead (routes lib g)
                 {| chi.RouteMethod := ""; chi.RoutePath := "" |}
                 (request "GET" (versionsPath ns n p)))
              (request "GET" (versionsPath ns n p)))
      with (chi.FindRoute (routes lib g) "GET" (versionsPath ns n p)).
    unfold routes. cbn [chi.FindRoute chi.pattern chi.Get chi.method chi.handler].
    change (chi.matches (chi.tokens "/") (versionsPath ns n p)) with (@None (list (string * string))).
    change (chi.matches (chi.tokens "/.well-known/terraform.json") (versionsPath ns n p))
      with (@None (list (string * string))).
    cbv iota. now rewrite matches_versions. }
  destruct Hm as [-> | ->]; [exact E|].
  rewrite (dispatch_head lib g (request "HEAD" (versionsPath ns n p)) eq_refl).
  exact E.
Qed.

Lemma dispatch_download_location (method ns n p v : string) :
  method = "GET" \/ method = "HEAD" ->
  strings.ContainsByte ns "/" = false ->
  strings.ContainsByte n "/" = false ->
  strings.ContainsByte p "/" = false ->
  strings.ContainsByte v "/" = false ->
  dispatch lib g (request method (downloadPath ns n p v))
  = Routed (chi.Found httpGetDownloadURL
              [("namespace", ns); ("name", n); ("provider", p); ("version", v)]).
Proof.
  intros Hm Hns Hn Hp Hv.
  assert (E : dispatch lib g (request "GET" (downloadPath ns n p v))
              = Routed (chi.Found httpGetDownloadURL
                          [("namespace", ns); ("name", n); ("provider", p);
                           ("version", v)])).
  { unfold dispatch.
    change (chi.isHeartbeat "/is_alive" (request "GET" (downloadPath ns n p v)))
      with false.
    cbv iota.
    change (chi.routeHTTP (routes lib g)
              (chi.GetHead (routes lib g)
                 {| chi.RouteMethod := ""; chi.RoutePath := "" |}
                 (request "GET" (downloadPath ns n p v)))
              (request "GET" (downloadPath ns n p v)))
      with (chi.FindRoute (routes lib g) "GET" (downloadPath ns n p v)).
    unfold routes. cbn [chi.FindRoute chi.pattern chi.Get chi.method chi.handler].
    change (chi.matches (chi.tokens "/") (downloadPath ns n p v))
      with (@None (list (string * string))).
    change (chi.matches (chi.tokens "/.well-known/terraform.json") (downloadPath ns n p v))
      with (@None (list (string * string))).
    cbv iota.
    destruct (chi.matches
                (chi.tokens (ModuleBasePath ++ "/{namespace}/{name}/{provider}/versions"))
                (downloadPath ns n p v)) as [ps|] eqn:E3.
    - exfalso. exact (versions_or_download _ _ _ E3 (matches_download ns n p v Hns Hn Hp Hv)).
    - now rewrite matches_download. }
  destruct Hm as [-> | ->]; [exact E|].
  rewrite (dispatch_head lib g (request "HEAD" (downloadPath ns n p v)) eq_refl).
  exact E.
Qed.

End IdentityRouting.
(** ** Requests for an identity, end to end *)

Section IdentityRequests.

Variable lib : http.Delegated.
Variable g : Globals.

(** A HEAD request gets no byte of a body. *)
Lemma write_head (data : string) (rw : http.ResponseWriter) :
  http.reqMethod rw = "HEAD" ->
  http.write data rw = http.writeHeader http.StatusOK rw.
Proof.
  intros Hm. unfold http.write.
  assert (E : http.reqMethod (http.writeHeader http.StatusOK rw) = "HEAD").
  { unfold http.writeHeader. now destruct (http.wroteHeader rw). }
  rewrite E.
  destruct (data =? ""); [reflexivity|].
  now destruct (negb (http.bodyAllowedForStatus
                        (http.status (http.writeHeader http.StatusOK rw)))).
Qed.

Lemma httpGetVersions_head_ok (r : http.Request) (dirs : list fs.DirEntry) :
  fs.ReadDir (s3fsys g) (modPath (prefix g) (listedModule r)) = fs.Ok dirs ->
  http.respond "HEAD" (httpGetVersions g r)
  = ({| http.Status := 200;
        http.Headers := [("Content-Type", "application/json")];
        http.Body := "" |},
     [fs.CallReadDir (modPath (prefix g) (listedModule r))]).
Proof.
  intros H. unfold http.respond, httpGetVersions.
  unfold http.bind at 1. fold (listedModule r).
  rewrite (getModuleVersions_ok g _ _ _ H).
  unfold http.bind, http.SetHeader, http.Write, http.onWriter, http.ret.
  cbn [http.w http.calls].
  rewrite write_head by reflexivity. reflexivity.
Qed.

Lemma httpGetVersions_head_err (r : http.Request) (e : fs.Error) :
  fs.ReadDir (s3fsys g) (modPath (prefix g) (listedModule r)) = fs.Err e ->
  http.respond "HEAD" (httpGetVersions g r)
  = ({| http.Status := 500;
        http.Headers := [("Content-Type", "text/plain; charset=utf-8");
                         ("X-Content-Type-Options", "nosniff")];
        http.Body := "" |},
     [fs.CallReadDir (modPath (prefix g) (listedModule r))]).
Proof.
  intros H. unfold http.respond, httpGetVersions.
  unfold http.bind at 1. fold (listedModule r).
  rewrite (getModuleVersions_err g _ _ _ H).
  unfold http.Error, http.bind, http.SetHeader, http.WriteHeader, http.Write,
    http.onWriter.
  cbn [http.w http.calls].
  rewrite (write_head (fs.message e ++ http.newline)) by reflexivity.
  rewrite write_head by reflexivity. reflexivity.
Qed.

(** The versions handler calls the store once, to list the module path. *)
Lemma httpGetVersions_calls (method : string) (r : http.Request) :
  snd (http.respond method (httpGetVersions g r))
  = [fs.CallReadDir (modPath (prefix g) (listedModule r))].
Proof.
  unfold http.respond, httpGetVersions, getModuleVersions, http.bind, http.ReadDir.
  fold (listedModule r). cbn [http.w http.calls app].
  now destruct (fs.ReadDir (s3fsys g) (modPath (prefix g) (listedModule r)))
    as [dirs|[kind message]].
Qed.

Lemma serve_versions (method ns n p : string) :
  method = "GET" \/ method = "HEAD" ->
  strings.ContainsByte ns "/" = false ->
  strings.ContainsByte n "/" = false ->
  strings.ContainsByte p "/" = false ->
  serve lib g (request method (versionsPath ns n p))
  = http.respond method
      (httpGetVersions g
         (withParams (request method (versionsPath ns n p))
            [("namespace", ns); ("name", n); ("provider", p)])).
Proof.
  intros Hm Hns Hn Hp. unfold serve, ServeHTTP.
  now rewrite (dispatch_versions lib g method ns n p Hm Hns Hn Hp).
Qed.

Lemma serve_download_location (method ns n p v : string) :
  method = "GET" \/ method = "HEAD" ->
  strings.ContainsByte ns "/" = false ->
  strings.ContainsByte n "/" = false ->
  strings.ContainsByte p "/" = false ->
  strings.ContainsByte v "/" = false ->
  serve lib g (request method (downloadPath ns n p v))
  = http.respond method
      (httpGetDownloadURL
         (withParams (request method (downloadPath ns n p v))
            [("namespace", ns); ("name", n); ("provider", p); ("version", v)])).
Proof.
  intros Hm Hns Hn Hp Hv. unfold serve, ServeHTTP.
  now rewrite (dispatch_download_location lib g method ns n p v Hm Hns Hn Hp Hv).
Qed.

End IdentityRequests.

(** X1.  A versions request whose three fields hold no slash, empty
    fields included, reaches the versions handler with the fields as its
    URL parameters; the handler calls the store once, to list the join of
    the prefix and the fields, in which an empty prefix or field leaves no
    trace. *)
Theorem X1_versions_request (lib : http.Delegated) (g : Globals) (ns n p : string) :
  strings.ContainsByte ns "/" = false ->
  strings.ContainsByte n "/" = false ->
  strings.ContainsByte p "/" = false ->
  dispatch lib g (request "GET" (versionsPath ns n p))
  = Routed (chi.Found (httpGetVersions g)
              [("namespace", ns); ("name", n); ("provider", p)])
  /\ snd (serve lib g (request "GET" (versionsPath ns n p)))
     = [fs.CallReadDir (filepath.Join [prefix g; ns; n; p])]
  /\ filepath.Join [prefix g; ns; n; p]
     = filepath.Join (nonEmpty [prefix g; ns; n; p]).
Proof.
  intros Hns Hn Hp. split; [|split].
  - apply dispatch_versions; auto.
  - rewrite (serve_versions lib g "GET" ns n p (or_introl eq_refl) Hns Hn Hp).
    apply httpGetVersions_calls.
  - symmetry. apply Join_nonEmpty.
Qed.

Lemma X1_versions_request_witness :
  snd (serve sampleLib prefixedGlobals (request "GET" (versionsPath "" "vpc" "aws")))
  = [fs.CallReadDir "modules/vpc/aws"].
Proof.
  exact (proj1 (proj2 (X1_versions_request sampleLib prefixedGlobals "" "vpc" "aws"
                         eq_refl eq_refl eq_refl))).
Defined.

(** X2.  A download request whose four fields hold no slash is answered
    by the location handler alone: status 204, the joined location in
    [X-Terraform-Get], no body, no call on the store; for valid fields
    the location is [/download/namespace/name/provider/version/name.tgz]. *)
Theorem X2_download_request (lib : http.Delegated) (g : Globals) (ns n p v : string) :
  strings.ContainsByte ns "/" = false ->
  strings.ContainsByte n "/" = false ->
  strings.ContainsByte p "/" = false ->
  strings.ContainsByte v "/" = false ->
  let m := {| Namespace := ns; Name := n; Provider := p; Version := v |} in
  serve lib g (request "GET" (downloadPath ns n p v))
  = ({| http.Status := 204;
        http.Headers := [("X-Terraform-Get", tfGetHeader m)];
        http.Body := "" |},
     [])
  /\ (validVersion m = true ->
      tfGetHeader m
      = "/download/" ++ ns ++ "/" ++ n ++ "/" ++ p ++ "/" ++ v ++ "/" ++ n ++ ".tgz").
Proof.
  intros Hns Hn Hp Hv m. split.
  - now rewrite (serve_download_location lib g "GET" ns n p v (or_introl eq_refl)
                   Hns Hn Hp Hv).
  - intros Hm. exact (tfGetHeader_valid m Hm).
Qed.

Lemma X2_download_request_witness :
  serve sampleLib plainGlobals (request "GET" (downloadPath "acme" "vpc" "aws" "2.0.0"))
  = ({| http.Status := 204;
        http.Headers := [("X-Terraform-Get", "/download/acme/vpc/aws/2.0.0/vpc.tgz")];
        http.Body := "" |},
     []).
Proof.
  exact (proj1 (X2_download_request sampleLib plainGlobals "acme" "vpc" "aws" "2.0.0"
                  eq_refl eq_refl eq_refl eq_refl)).
Defined.

(** X3.  A HEAD request for the versions of an identity is answered like
    the GET request, with the same status, headers and call on the store,
    and without a body. *)
Theorem X3_versions_head (lib : http.Delegated) (g : Globals) (ns n p : string) :
  strings.ContainsByte ns "/" = false ->
  strings.ContainsByte n "/" = false ->
  strings.ContainsByte p "/" = false ->
  let get := serve lib g (request "GET" (versionsPath ns n p)) in
  let head := serve lib g (request "HEAD" (versionsPath ns n p)) in
  http.Status (fst head) = http.Status (fst get)
  /\ http.Headers (fst head) = http.Headers (fst get)
  /\ http.Body (fst head) = ""
  /\ snd head = snd get.
Proof.
  intros Hns Hn Hp get head. unfold get, head.
  rewrite (serve_versions lib g "GET" ns n p (or_introl eq_refl) Hns Hn Hp).
  rewrite (serve_versions lib g "HEAD" ns n p (or_intror eq_refl) Hns Hn Hp).
  set (rg := withParams (request "GET" (versionsPath ns n p)) _).
  set (rh := withParams (request "HEAD" (versionsPath ns n p)) _).
  assert (E : listedModule rh = listedModule rg) by reflexivity.
  destruct (fs.ReadDir (s3fsys g) (modPath (prefix g) (listedModule rg)))
    as [dirs|e] eqn:Hdir.
  - rewrite (httpGetVersions_ok g rg dirs Hdir).
    rewrite <- E in Hdir. rewrite (httpGetVersions_head_ok g rh dirs Hdir).
    now rewrite E.
  - rewrite (httpGetVersions_err g rg e Hdir).
    rewrite <- E in Hdir. rewrite (httpGetVersions_head_err g rh e Hdir).
    now rewrite E.
Qed.

Lemma X3_versions_head_witness :
  http.Status
    (fst (serve sampleLib plainGlobals (request "HEAD" (versionsPath "acme" "vpc" "aws"))))
  = http.Status
      (fst (serve sampleLib plainGlobals (request "GET" (versionsPath "acme" "vpc" "aws"))))
  /\ http.Headers
       (fst (serve sampleLib plainGlobals (request "HEAD" (versionsPath "acme" "vpc" "aws"))))
     = http.Headers
         (fst (serve sampleLib plainGlobals (request "GET" (versionsPath "acme" "vpc" "aws"))))
  /\ http.Body
       (fst (serve sampleLib plainGlobals (request "HEAD" (versionsPath "acme" "vpc" "aws"))))
     = ""
  /\ snd (serve sampleLib plainGlobals (request "HEAD" (versionsPath "acme" "vpc" "aws")))
     = snd (serve sampleLib plainGlobals (request "GET" (versionsPath "acme" "vpc" "aws"))).
Proof.
  exact (X3_versions_head sampleLib plainGlobals "acme" "vpc" "aws"
           eq_refl eq_refl eq_refl).
Defined.

(** ** The router beside the routes *)

Section RouterEdges.

Variable lib : http.Delegated.
Variable g : Globals.

(** For a method without routes the search tells only whether the path
    is one of a route. *)
Lemma FindRoute_method_without_routes (meth path : string) :
  meth <> "GET" ->
  chi.FindRoute (routes lib g) meth path
  = if anyRouteMatches lib g path then chi.MethodNotAllowed else chi.NotFound.
Proof.
  intros Hm. unfold anyRouteMatches.
  pose proof (routes_are_get lib g) as Hget.
  induction Hget as [|rt rs Hrt _ IH]; [reflexivity|].
  cbn [chi.FindRoute existsb].
  destruct (chi.matches (chi.tokens (chi.pattern rt)) path) as [ps|]; [|exact IH].
  rewrite Hrt. destruct (String.eqb_spec "GET" meth) as [E|_]; [now elim Hm|].
  cbn [orb]. rewrite IH. now destruct (existsb _ rs).
Qed.

End RouterEdges.

(** X4.  A request whose method is neither GET nor HEAD gets 405 when the
    router does not know the method or when its path is one of a route,
    and 404 otherwise; in either case no handler runs and the store is
    not called. *)
Theorem X4_other_methods (lib : http.Delegated) (g : Globals) (r : http.Request) :
  http.Method r <> "GET" -> http.Method r <> "HEAD" ->
  let refused :=
    negb (chi.methodMap (http.Method r)) || anyRouteMatches lib g (routePath r) in
  dispatch lib g r
  = Routed (if refused then chi.MethodNotAllowed else chi.NotFound)
  /\ http.Status (fst (serve lib g r)) = (if refused then 405 else 404)
  /\ snd (serve lib g r) = [].
Proof.
  intros Hget Hhead refused.
  assert (E : dispatch lib g r
              = Routed (if refused then chi.MethodNotAllowed else chi.NotFound)).
  { unfold dispatch, chi.GetHead, chi.isHeartbeat.
    apply String.eqb_neq in Hget as Eg, Hhead as Eh. rewrite Eg, Eh.
    cbn [orb andb]. unfold chi.routeHTTP.
    cbn [chi.RouteMethod chi.RoutePath String.eqb].
    fold (routePath r). unfold refused.
    destruct (chi.methodMap (http.Method r)); cbn [negb orb]; [|reflexivity].
    now rewrite FindRoute_method_without_routes. }
  split; [exact E|]. unfold serve, ServeHTTP. rewrite E.
  destruct refused; split;
    solve [ reflexivity | apply methodNotAllowed_status | apply NotFound_status ].
Qed.

Lemma X4_other_methods_witness :
  (dispatch sampleLib plainGlobals (request "POST" (versionsPath "acme" "vpc" "aws"))
   = Routed chi.MethodNotAllowed
   /\ http.Status
        (fst (serve sampleLib plainGlobals
                (request "POST" (versionsPath "acme" "vpc" "aws"))))
      = 405
   /\ snd (serve sampleLib plainGlobals (request "POST" (versionsPath "acme" "vpc" "aws")))
      = [])
  /\ (dispatch sampleLib plainGlobals (request "DELETE" "/modules") = Routed chi.NotFound
      /\ http.Status (fst (serve sampleLib plainGlobals (request "DELETE" "/modules")))
         = 404
      /\ snd (serve sampleLib plainGlobals (request "DELETE" "/modules")) = [])
  /\ (dispatch sampleLib plainGlobals (request "PURGE" "/modules")
      = Routed chi.MethodNotAllowed
      /\ http.Status (fst (serve sampleLib plainGlobals (request "PURGE" "/modules")))
         = 405
      /\ snd (serve sampleLib plainGlobals (request "PURGE" "/modules")) = []).
Proof.
  split; [|split].
  - apply (X4_other_methods sampleLib plainGlobals
             (request "POST" (versionsPath "acme" "vpc" "aws"))); discriminate.
  - apply (X4_other_methods sampleLib plainGlobals (request "DELETE" "/modules"));
      discriminate.
  - apply (X4_other_methods sampleLib plainGlobals (request "PURGE" "/modules"));
      discriminate.
Defined.

(** X5.  A GET or HEAD request for the heartbeat path, in any mix of
    upper and lower case, is answered before the routes are searched:
    status 200, [Content-Type: text/plain], the body [.] (none for a
    HEAD), whatever the store, which is not called. *)
Theorem X5_heartbeat (lib : http.Delegated) (g : Globals) (r : http.Request) :
  http.Method r = "GET" \/ http.Method r = "HEAD" ->
  strings.EqualFold (http.Path r) "/is_alive" = true ->
  dispatch lib g r = Heartbeat
  /\ serve lib g r
     = ({| http.Status := 200;
           http.Headers := [("Content-Type", "text/plain")];
           http.Body := if http.Method r =? "HEAD" then "" else "." |},
        []).
Proof.
  intros Hm Hpath.
  assert (E : dispatch lib g r = Heartbeat).
  { unfold dispatch, chi.isHeartbeat. rewrite Hpath.
    now destruct Hm as [-> | ->]. }
  split; [exact E|]. unfold serve, ServeHTTP. rewrite E.
  now destruct Hm as [-> | ->].
Qed.

Lemma X5_heartbeat_witness :
  serve sampleLib prefixedGlobals (request "GET" "/Is_Alive")
  = ({| http.Status := 200;
        http.Headers := [("Content-Type", "text/plain")];
        http.Body := "." |},
     []).
Proof.
  exact (proj2 (X5_heartbeat sampleLib prefixedGlobals (request "GET" "/Is_Alive")
                  (or_introl eq_refl) eq_refl)).
Defined.

(** ** The keys the content server opens *)

Section ContentKeys.

Variable lib : http.Delegated.
Variable g : Globals.

Lemma drop_split (n : nat) (s : string) : exists a, s = a ++ strings.drop n s.
Proof.
  revert s. induction n as [|n IH]; intros s; [now exists ""; destruct s|].
  destruct s as [|c s]; [now exists ""|].
  destruct (IH s) as [a Ha]. exists (String c a). cbn. now rewrite <- Ha.
Qed.

Lemma HasSuffix_last (s suf : string) :
  suf <> "" -> strings.HasSuffix s suf = true -> strings.last s = strings.last suf.
Proof.
  intros Hsuf H. unfold strings.HasSuffix in H.
  apply andb_true_iff in H as [_ H]. apply String.eqb_eq in H.
  destruct (drop_split (String.length s - String.length suf) s) as [a Ha].
  rewrite H in Ha. rewrite Ha. now apply last_append.
Qed.
















End ContentKeys.

Section ContentRequests.

Variable lib : http.Delegated.
Variable g : Globals.






End ContentRequests.



Section FollowLocation.

Variable lib : http.Delegated.
Variable g : Globals.

Lemma artifact_last (m : TFModule) :
  strings.last ("/" ++ strings.Join (artifactKey m) "/") = Some "z"%char.
Proof.
  unfold artifactKey, strings.Join. cbn [String.concat].
  rewrite !last_append; try reflexivity; try discriminate;
    try (intros E; apply append_eq_nil in E; destruct E; discriminate).
Qed.

Lemma artifact_not_index (m : TFModule) :
  strings.HasSuffix ("/" ++ strings.Join (artifactKey m) "/") "/index.html" = false.
Proof.
  destruct (strings.HasSuffix _ "/index.html") eqn:E; [|reflexivity].
  apply HasSuffix_last in E; [|discriminate].
  rewrite artifact_last in E. discriminate E.
Qed.

(** The content server's answer to a key the store fails to open. *)
Lemma module_content_error (rest : string) (e : fs.Error) :
  strings.HasSuffix (servedPath rest) "/index.html" = false ->
  fs.Open (s3fsys g) (servedKey rest) = fs.Err e ->
  serve lib g (request "GET" ("/download/" ++ rest))
  = ({| http.Status := snd (http.toHTTPError e);
        http.Headers :=
          [("Content-Encoding", "application/octet-stream");
           ("Content-Type", "text/plain; charset=utf-8");
           ("X-Content-Type-Options", "nosniff")];
        http.Body := fst (http.toHTTPError e) ++ http.newline |},
     [fs.CallOpen (servedKey rest)]).
Proof.
  intros Hidx Hopen.
  change (serve lib g (request "GET" ("/download/" ++ rest)))
    with (http.respond "GET"
            (httpGetModule lib g
               (withParams (request "GET" ("/download/" ++ rest)) [("*", rest)]))).
  unfold http.respond. rewrite httpGetModule_serveFile.
  unfold http.serveFile, withParams, request.
  cbn [http.Method http.Path http.RawPath http.URLParams http.Conditional].
  rewrite Hidx. unfold http.bind, http.Open. fold (servedKey rest).
  rewrite Hopen. unfold http.toHTTPError. destruct (fs.kind e); reflexivity.
Qed.

End FollowLocation.

(** X7.  The location sent for an identity of valid fields can be
    followed: a GET request for it makes the content server open the key
    [namespace/name/provider/version/name.tgz], without the prefix, and
    nothing else.  When the store holds bytes under that key they are the
    body, with status 200 and the two headers of the handler; when the
    store fails, the answer is the plain error of the file server: 404
    for a missing key, 403 for a forbidden one, 500 otherwise. *)
Theorem X7_follow_location (lib : http.Delegated) (g : Globals) (m : TFModule) :
  validVersion m = true ->
  let key := strings.Join (artifactKey m) "/" in
  let answer := serve lib g (request "GET" (tfGetHeader m)) in
  (forall (B : string) (modTime : option string),
      fs.Open (s3fsys g) key = fs.Ok (fs.Regular B modTime) ->
      answer
      = ({| http.Status := 200;
            http.Headers :=
              ([("Content-Encoding", "application/octet-stream");
                ("Content-Type", "application/x-gzip")]
               ++ match modTime with
                  | Some t => [("Last-Modified", t)]
                  | None => []
                  end
               ++ [("Accept-Ranges", "bytes")])%list;
            http.Body := B |},
         [fs.CallOpen key]))
  /\ (forall e : fs.Error,
         fs.Open (s3fsys g) key = fs.Err e ->
         answer
         = ({| http.Status :=
                 match fs.kind e with
                 | fs.ErrNotExist => 404
                 | fs.ErrPermission => 403
                 | fs.ErrOther => 500
                 end;
               http.Headers :=
                 [("Content-Encoding", "application/octet-stream");
                  ("Content-Type", "text/plain; charset=utf-8");
                  ("X-Content-Type-Options", "nosniff")];
               http.Body :=
                 match fs.kind e with
                 | fs.ErrNotExist => "404 page not found"
                 | fs.ErrPermission => "403 Forbidden"
                 | fs.ErrOther => "500 Internal Server Error"
                 end ++ http.newline |},
            [fs.CallOpen key])).
Proof.
  intros Hm key answer. unfold answer. rewrite (tfGetHeader_valid m Hm). fold key.
  pose proof (artifactKey_segments m Hm) as Hall.
  assert (Hne : artifactKey m <> []) by discriminate.
  destruct (served_plain_key (artifactKey m) Hne Hall) as (Hpath & Hkey & Hslash).
  fold key in Hpath, Hkey, Hslash.
  assert (Hidx : strings.HasSuffix (servedPath key) "/index.html" = false)
    by (rewrite Hpath; apply artifact_not_index).
  split.
  - intros B modTime Hopen. rewrite <- Hkey in Hopen.
    rewrite (module_content_found lib g key B modTime Hidx Hslash Hopen).
    now rewrite Hkey.
  - intros e Hopen. rewrite <- Hkey in Hopen.
    rewrite (module_content_error lib g key e Hidx Hopen), Hkey.
    unfold http.toHTTPError. destruct (fs.kind e); reflexivity.
Qed.

Lemma X7_follow_location_witness :
  serve sampleLib plainGlobals (request "GET" (tfGetHeader acmeVpc))
  = ({| http.Status := 200;
        http.Headers :=
          [("Content-Encoding", "application/octet-stream");
           ("Content-Type", "application/x-gzip");
           ("Accept-Ranges", "bytes")];
        http.Body := "archive" |},
     [fs.CallOpen "acme/vpc/aws/1.0.0/vpc.tgz"]).
Proof.
  exact (proj1 (X7_follow_location sampleLib plainGlobals acmeVpc eq_refl)
           "archive" None eq_refl).
Defined.

(** ** The normal form of the joined paths *)

Section NormalForms.

Lemma Clean_not_empty (path : string) : filepath.Clean path <> "".
Proof.
  unfold filepath.Clean.
  destruct (path =? ""); [discriminate|].
  destruct (strings.HasPrefix path "/"); [discriminate|].
  destruct (String.eqb_spec (strings.Join (rev (filepath.elements false path)) "/") "");
    [discriminate | assumption].
Qed.

(** [filepath.Join] gives the empty string when every element is empty,
    and otherwise the cleaned join of the elements that are not. *)
Lemma Join_cases (l : list string) :
  (nonEmpty l = [] /\ filepath.Join l = "")
  \/ (nonEmpty l <> []
      /\ filepath.Join l = filepath.Clean (strings.Join (nonEmpty l) "/")).
Proof.
  induction l as [|e l IH]; [now left|].
  destruct (String.eqb_spec e "") as [->|He].
  - exact IH.
  - right. unfold nonEmpty. cbn [filter filepath.Join].
    apply String.eqb_neq in He as Hb. rewrite Hb. cbn [negb].
    split; [discriminate|]. fold (nonEmpty l).
    symmetry. now apply Clean_concat_nonEmpty.
Qed.

End NormalForms.

(** X8.  Whatever the four fields of a download request are, the location
    sent is a rooted path in normal form: a slash followed by plain
    elements between slashes, none of them empty, [.] or [..], which
    cleaning leaves as it is. *)
Theorem X8_location_normal_form (m : TFModule) :
  exists segs : list string,
    forallb isSegment segs = true
    /\ tfGetHeader m = "/" ++ strings.Join segs "/"
    /\ filepath.Clean (tfGetHeader m) = tfGetHeader m.
Proof.
  rewrite tfGetHeader_cleans.
  destruct (Clean_rooted
              ("/download/" ++ Namespace m ++ "/" ++ Name m ++ "/"
               ++ Provider m ++ "/" ++ Version m ++ "/" ++ Name m ++ ".tgz")
              eq_refl) as (segs & Hall & E).
  exists segs. split; [exact Hall|]. split; [exact E|].
  apply Clean_idempotent.
Qed.

(** X9.  The path listed for a module is the empty string when the
    prefix and the three fields are all empty; otherwise it is the
    cleaned join of those of them that are not empty, and it is in
    normal form: cleaning it again changes nothing. *)
Theorem X9_modPath_normal_form (pre : string) (m : TFModule) :
  let fields := [pre; Namespace m; Name m; Provider m] in
  (nonEmpty fields = [] /\ modPath pre m = "")
  \/ (nonEmpty fields <> []
      /\ modPath pre m = filepath.Clean (strings.Join (nonEmpty fields) "/")
      /\ filepath.Clean (modPath pre m) = modPath pre m).
Proof.
  intros fields. unfold modPath. fold fields.
  destruct (Join_cases fields) as [[H0 E] | [Hne E]]; [now left|].
  right. split; [exact Hne|]. split; [exact E|].
  rewrite E. apply Clean_idempotent.
Qed.

(** ** The document of a listing *)

Section ListingFacts.

Variable lib : http.Delegated.
Variable g : Globals.

(** Bytes the encoder copies are written as they are. *)
Lemma escape_safe (s : string) :
  allBytes json.htmlSafe s = true -> json.escape true 0 s = s.
Proof.
  induction s as [|b s IH]; [reflexivity|].
  cbn [allBytes]. intros H. apply andb_true_iff in H as [Hb Hs].
  cbn [json.escape]. rewrite Hb.
  assert (Hlt : Nat.ltb (nat_of_ascii b) 128 = true).
  { unfold json.htmlSafe in Hb. rewrite !andb_true_iff in Hb. tauto. }
  rewrite Hlt, (IH Hs). reflexivity.
Qed.

Lemma marshal_entry (name : string) :
  json.marshal (json.ofStringMap [("version", name)]) = versionEntry name.
Proof. reflexivity. Qed.

Lemma marshal_entries (names : list string) :
  map json.marshal (map json.ofStringMap (map (fun id => [("version", id)]) names))
  = map versionEntry names.
Proof.
  rewrite !map_map. apply map_ext. intros name. apply marshal_entry.
Qed.

Lemma encode_listing (dirs : list fs.DirEntry) :
  dirs <> [] ->
  json.encode
    (jsonModuleVersionsResp
       {| Modules :=
            [ {| Versions := map (fun v => [("version", fs.Name v)]) dirs |} ] |})
  = listingText (map fs.Name dirs) ++ http.newline.
Proof.
  intros Hne. destruct dirs as [|d dirs]; [now elim Hne|].
  unfold json.encode, jsonModuleVersionsResp, jsonModuleVersions, listingText.
  cbn [Modules Versions json.ofSlice map].
  set (entries := map (fun v => [("version", fs.Name v)]) dirs).
  cbn [json.marshal map fst snd String.concat].
  change (json.quote "modules") with (inQuotes "modules").
  change (json.quote "versions") with (inQuotes "versions").
  rewrite marshal_entry.
  assert (E : map json.marshal (map json.ofStringMap entries)
              = map versionEntry (map fs.Name dirs)).
  { unfold entries. rewrite <- marshal_entries. now rewrite !map_map. }
  rewrite E. now rewrite !append_assoc.
Qed.

End ListingFacts.

(** X10.  When the store lists entries for the module path of a versions
    request, the answer has status 200, the content type
    [application/json] and, as its body, one line: the document with one
    object per entry, in the order of the listing, files and directories
    alike, each name escaped by the encoder; a name of bytes the encoder
    copies stands in it as it is. *)
Theorem X10_listing_answer (lib : http.Delegated) (g : Globals)
  (ns n p : string) (dirs : list fs.DirEntry) :
  strings.ContainsByte ns "/" = false ->
  strings.ContainsByte n "/" = false ->
  strings.ContainsByte p "/" = false ->
  fs.ReadDir (s3fsys g) (filepath.Join [prefix g; ns; n; p]) = fs.Ok dirs ->
  dirs <> [] ->
  serve lib g (request "GET" (versionsPath ns n p))
  = ({| http.Status := 200;
        http.Headers := [("Content-Type", "application/json")];
        http.Body := listingText (map fs.Name dirs) ++ http.newline |},
     [fs.CallReadDir (filepath.Join [prefix g; ns; n; p])])
  /\ (forall name : string,
         allBytes json.htmlSafe name = true ->
         versionEntry name = versionObject name).
Proof.
  intros Hns Hn Hp Hdir Hne. split.
  - rewrite (serve_versions lib g "GET" ns n p (or_introl eq_refl) Hns Hn Hp).
    set (r := withParams (request "GET" (versionsPath ns n p)) _).
    change (filepath.Join [prefix g; ns; n; p])
      with (modPath (prefix g) (listedModule r)) in Hdir |- *.
    rewrite (httpGetVersions_ok g r dirs Hdir).
    now rewrite (encode_listing dirs Hne).
  - intros name Hsafe. unfold versionEntry, versionObject, json.quote, inQuotes.
    now rewrite (escape_safe name Hsafe).
Qed.

Lemma X10_listing_answer_witness :
  serve sampleLib prefixedGlobals (request "GET" (versionsPath "acme" "vpc" "aws"))
  = ({| http.Status := 200;
        http.Headers := [("Content-Type", "application/json")];
        http.Body := listingText ["1.0.0"; "1.1.0"; "2.0.0"] ++ http.newline |},
     [fs.CallReadDir "modules/acme/vpc/aws"]).
Proof.
  exact (proj1 (X10_listing_answer sampleLib prefixedGlobals "acme" "vpc" "aws"
                  [versionDir "1.0.0"; versionDir "1.1.0"; versionDir "2.0.0"]
                  eq_refl eq_refl eq_refl eq_refl
                  ltac:(discriminate))).
Defined.

(** X11.  When the store fails to list the module path of a versions
    request, whatever the failure (a module that does not exist
    included), the answer has status 500 and the content type of
    [http.Error]; its body is the text of the error on one line and then
    the document of the empty response, which the handler goes on to
    write. *)
Theorem X11_listing_failure (lib : http.Delegated) (g : Globals)
  (ns n p : string) (e : fs.Error) :
  strings.ContainsByte ns "/" = false ->
  strings.ContainsByte n "/" = false ->
  strings.ContainsByte p "/" = false ->
  fs.ReadDir (s3fsys g) (filepath.Join [prefix g; ns; n; p]) = fs.Err e ->
  serve lib g (request "GET" (versionsPath ns n p))
  = ({| http.Status := 500;
        http.Headers := [("Content-Type", "text/plain; charset=utf-8");
                         ("X-Content-Type-Options", "nosniff")];
        http.Body := fs.message e ++ http.newline ++ noModules ++ http.newline |},
     [fs.CallReadDir (filepath.Join [prefix g; ns; n; p])]).
Proof.
  intros Hns Hn Hp Hdir.
  rewrite (serve_versions lib g "GET" ns n p (or_introl eq_refl) Hns Hn Hp).
  set (r := withParams (request "GET" (versionsPath ns n p)) _).
  change (filepath.Join [prefix g; ns; n; p])
    with (modPath (prefix g) (listedModule r)) in Hdir |- *.
  exact (httpGetVersions_err g r e Hdir).
Qed.

Lemma X11_listing_failure_witness :
  serve sampleLib prefixedGlobals (request "GET" (versionsPath "acme" "vpc" "gcp"))
  = ({| http.Status := 500;
        http.Headers := [("Content-Type", "text/plain; charset=utf-8");
                         ("X-Content-Type-Options", "nosniff")];
        http.Body := "open modules/acme/vpc/gcp: file does not exist" ++ http.newline
                     ++ noModules ++ http.newline |},
     [fs.CallReadDir "modules/acme/vpc/gcp"]).
Proof.
  exact (X11_listing_failure sampleLib prefixedGlobals "acme" "vpc" "gcp"
           {| fs.kind := fs.ErrNotExist;
              fs.message := "open modules/acme/vpc/gcp: file does not exist" |}
           eq_refl eq_refl eq_refl eq_refl).
Defined.

(** ** Start-up *)

Section Bootstrap.

Variable env : Environment.

Lemma erase_Set_ (f : flag.FlagSet) (name value : string) :
  map erase (flag.Set_ f name value) = map erase f.
Proof.
  induction f as [|fl f IH]; [reflexivity|]. cbn [flag.Set_].
  destruct (flag.Name fl =? name); cbn [map]; [reflexivity | now rewrite IH].
Qed.

Lemma declared_apply (settings : list (string * string)) (f : flag.FlagSet) :
  declared f -> declared (applySettings settings f).
Proof.
  revert f. induction settings as [|kv settings IH]; intros f Hf; [exact Hf|].
  apply IH. unfold declared. now rewrite erase_Set_.
Qed.

Lemma Lookup_erase (f : flag.FlagSet) (name : string) :
  flag.Lookup (map erase f) name = option_map erase (flag.Lookup f name).
Proof.
  induction f as [|fl f IH]; [reflexivity|]. cbn [map flag.Lookup erase flag.Name].
  destruct (flag.Name fl =? name); [reflexivity | exact IH].
Qed.

Lemma Lookup_declared (f : flag.FlagSet) (name : string) :
  declared f ->
  flag.Lookup f name = None <-> flag.Lookup init name = None.
Proof.
  intros Hf.
  assert (E : option_map erase (flag.Lookup f name)
              = option_map erase (flag.Lookup init name))
    by (rewrite <- !Lookup_erase; now rewrite Hf).
  destruct (flag.Lookup f name), (flag.Lookup init name);
    try discriminate E; split; intros; congruence.
Qed.

Lemma known_cases (name : string) :
  knownFlag name = true ->
  name = "bucket" \/ name = "profile" \/ name = "prefix" \/ name = "port".
Proof.
  unfold knownFlag. cbn [existsb]. rewrite !orb_true_iff, !String.eqb_eq.
  intros [H | [H | [H | [H | H]]]]; [tauto | tauto | tauto | tauto | discriminate H].
Qed.

Lemma Lookup_known (f : flag.FlagSet) (name : string) :
  declared f -> knownFlag name = true -> flag.Lookup f name <> None.
Proof.
  intros Hf Hk E. apply (Lookup_declared f name Hf) in E.
  destruct (known_cases name Hk) as [-> | [-> | [-> | ->]]]; discriminate E.
Qed.

Lemma Get_Set_ (f : flag.FlagSet) (name value n : string) :
  flag.Lookup f name <> None ->
  flag.Get (flag.Set_ f name value) n
  = if name =? n then value else flag.Get f n.
Proof.
  unfold flag.Get. induction f as [|fl f IH]; [now intros H; elim H|].
  cbn [flag.Lookup flag.Set_]. intros Hin.
  destruct (String.eqb_spec (flag.Name fl) name) as [Ek|Ek].
  - cbn [flag.Lookup flag.Name]. rewrite Ek.
    destruct (name =? n); reflexivity.
  - cbn [flag.Lookup]. destruct (String.eqb_spec (flag.Name fl) n) as [En|En].
    + destruct (String.eqb_spec name n) as [E|_]; [congruence | reflexivity].
    + now apply IH.
Qed.

Lemma Get_apply (settings : list (string * string)) (f : flag.FlagSet) (n : string) :
  declared f ->
  forallb (fun kv => knownFlag (fst kv)) settings = true ->
  flag.Get (applySettings settings f) n = setting settings n (flag.Get f n).
Proof.
  revert f. induction settings as [|[k v] settings IH]; intros f Hf Hall;
    [reflexivity|].
  cbn [forallb fst] in Hall. apply andb_true_iff in Hall as [Hk Hall].
  unfold applySettings, setting. cbn [fold_left fst snd].
  fold (applySettings settings (flag.Set_ f k v)).
  rewrite IH; [|unfold declared; now rewrite erase_Set_ | exact Hall].
  rewrite (Get_Set_ f k v n (Lookup_known f k Hf Hk)). reflexivity.
Qed.

(** One flag and its value are consumed together. *)
Lemma Parse_flag (f : flag.FlagSet) (name value : string) (rest : list string) :
  declared f -> knownFlag name = true ->
  flag.Parse f (("-" ++ name) :: value :: rest)
  = flag.Parse (flag.Set_ f name value) rest.
Proof.
  intros Hf Hk. pose proof (Lookup_known f name Hf Hk) as Hin.
  destruct (known_cases name Hk) as [-> | [-> | [-> | ->]]];
    cbn -[flag.Set_ flag.Lookup];
    match goal with
    | |- context [flag.Lookup f ?k] =>
        destruct (flag.Lookup f k) eqn:E; [reflexivity | now elim Hin]
    end.
Qed.

Lemma Parse_noFlags (f : flag.FlagSet) (rest : list string) :
  noFlags rest = true -> exists rest', flag.Parse f rest = flag.Done f rest'.
Proof.
  destruct rest as [|a rest]; [now exists []|].
  cbn [noFlags flag.Parse]. rewrite !orb_true_iff, !String.eqb_eq.
  intros [[H | ->] | ->].
  - rewrite H, orb_true_r. now exists (a :: rest).
  - now exists ("-" :: rest).
  - now exists rest.
Qed.

Lemma Parse_settings (settings : list (string * string)) (f : flag.FlagSet)
  (rest : list string) :
  declared f ->
  forallb (fun kv => knownFlag (fst kv)) settings = true ->
  noFlags rest = true ->
  exists rest',
    flag.Parse f (commandLine settings ++ rest)%list
    = flag.Done (applySettings settings f) rest'.
Proof.
  revert f. induction settings as [|[k v] settings IH]; intros f Hf Hall Hrest.
  - now apply Parse_noFlags.
  - cbn [forallb fst] in Hall. apply andb_true_iff in Hall as [Hk Hall].
    change (commandLine ((k, v) :: settings) ++ rest)%list
      with (("-" ++ k) :: v :: (commandLine settings ++ rest)%list).
    rewrite (Parse_flag f k v _ Hf Hk).
    apply IH; [unfold declared; now rewrite erase_Set_ | exact Hall | exact Hrest].
Qed.

Lemma insertByName_erase (fl : flag.Flag) (l : list flag.Flag) :
  map erase (flag.insertByName fl l) = flag.insertByName (erase fl) (map erase l).
Proof.
  induction l as [|fl' l IH]; [reflexivity|].
  cbn [flag.insertByName map erase flag.Name].
  destruct (String.leb (flag.Name fl) (flag.Name fl')); cbn [map];
    [reflexivity | now rewrite IH].
Qed.

Lemma sortFlags_erase (f : flag.FlagSet) :
  map erase (flag.sortFlags f) = flag.sortFlags (map erase f).
Proof.
  induction f as [|fl f IH]; [reflexivity|].
  cbn [flag.sortFlags fold_right map]. fold (flag.sortFlags f).
  fold (flag.sortFlags (map erase f)).
  now rewrite insertByName_erase, IH.
Qed.

(** The defaults printed do not depend on what the flags are set to. *)
Lemma PrintDefaults_erase (f : flag.FlagSet) :
  flag.PrintDefaults (map erase f) = flag.PrintDefaults f.
Proof.
  unfold flag.PrintDefaults. rewrite <- sortFlags_erase, map_map.
  apply map_ext. intros fl. reflexivity.
Qed.

Lemma usage_declared (f : flag.FlagSet) :
  declared f -> usage env f = usageEvents env.
Proof.
  intros Hf. unfold usage.
  rewrite <- (PrintDefaults_erase f), Hf, (PrintDefaults_erase init).
  reflexivity.
Qed.

Lemma usage_text : texts Stderr (usageEvents env) = usageText (Args0 env).
Proof.
  unfold texts, usageEvents, usageText. cbn [flat_map app String.concat].
  rewrite !append_assoc. reflexivity.
Qed.

(** What [main] does once the flags are parsed. *)
Lemma main_settings (settings : list (string * string)) (rest : list string) :
  forallb (fun kv => knownFlag (fst kv)) settings = true ->
  noFlags rest = true ->
  let g := startGlobals env settings in
  main env (commandLine settings ++ rest)%list
  = if bucket g =? "" then
      (Emit Stdout ("bucket name not set!!!" ++ flag.newline ++ flag.newline)
       :: usageEvents env,
       Exit 1)
    else
      match sessionError env (profile g) with
      | Some err =>
          ((startEvents g ++ [Emit Stdout (err ++ flag.newline)])%list, Exit 1)
      | None =>
          match statError env (bucket g) "." with
          | Some err =>
              ((startEvents g
                ++ [StatBucket (bucket g) "."; Emit Stdout (err ++ flag.newline)])%list,
               Exit 1)
          | None =>
              ((startEvents g
                ++ [ StatBucket (bucket g) ".";
                     Emit Stdout
                       ("Connection successful, serving terraform registry from: s3://"
                        ++ bucket g ++ "/" ++ prefix g ++ flag.newline);
                     ListenAndServe (":" ++ port g) ])%list,
               Serving g)
          end
      end.
Proof.
  intros Hall Hrest g.
  assert (Hinit : declared init) by reflexivity.
  destruct (Parse_settings settings init rest Hinit Hall Hrest) as [rest' E].
  unfold main. rewrite E.
  rewrite !(Get_apply settings init _ Hinit Hall).
  rewrite (usage_declared _ (declared_apply settings init Hinit)).
  change (flag.Get init "bucket") with "".
  change (flag.Get init "profile") with "default".
  change (flag.Get init "prefix") with "".
  change (flag.Get init "port") with "3000".
  change (filepath.Join ["."]) with ".".
  fold (startGlobals env settings). fold g.
  reflexivity.
Qed.

Lemma Lookup_unknown (name : string) :
  knownFlag name = false -> flag.Lookup init name = None.
Proof.
  unfold knownFlag. cbn [existsb]. rewrite !orb_false_iff.
  intros (H1 & H2 & H3 & H4 & _).
  unfold init, flag.StringVar. cbn [flag.Lookup flag.Name].
  rewrite (String.eqb_sym "bucket"), H1, (String.eqb_sym "profile"), H2.
  now rewrite (String.eqb_sym "prefix"), H3, (String.eqb_sym "port"), H4.
Qed.

(** An argument that names no flag of the set ends the parsing. *)
Lemma Parse_undefined_step (f : flag.FlagSet) (dashes : string) (c : ascii)
  (tl : string) (rest : list string) :
  dashes = "-" \/ dashes = "--" ->
  Ascii.eqb "-" c = false -> Ascii.eqb "=" c = false ->
  strings.ContainsByte tl "=" = false ->
  flag.Lookup f (String c tl) = None ->
  flag.Parse f ((dashes ++ String c tl) :: rest)
  = flag.Failed (if (String c tl =? "help") || (String c tl =? "h") then flag.ErrHelp
                 else flag.NotDefined (String c tl)).
Proof.
  intros Hd Hm He Hc Hl.
  destruct Hd as [-> | ->];
    cbn -[flag.Lookup Ascii.eqb String.eqb strings.ContainsByte];
    rewrite ?Hm; change (Ascii.eqb "-" "-") with true;
    cbn -[flag.Lookup Ascii.eqb String.eqb strings.ContainsByte flag.nameValue];
    rewrite ?Hm, ?He; cbn [andb negb orb];
    change (String c tl =? "") with false; cbn [orb].
  - destruct (String.eqb_spec (String "-" (String c tl)) "--") as [E|_].
    { injection E as E _. subst c. discriminate Hm. }
    unfold flag.nameValue. rewrite Hc, Hl.
    now destruct ((String c tl =? "help") || (String c tl =? "h")).
  - destruct (String.eqb_spec (String "-" (String "-" (String c tl))) "--") as [E|_];
      [discriminate E|].
    unfold flag.nameValue. rewrite Hc, Hl.
    now destruct ((String c tl =? "help") || (String c tl =? "h")).
Qed.

Lemma Parse_undefined (settings : list (string * string)) (f : flag.FlagSet)
  (dashes name : string) (rest : list string) :
  declared f ->
  forallb (fun kv => knownFlag (fst kv)) settings = true ->
  dashes = "-" \/ dashes = "--" ->
  undefinedFlag name = true ->
  flag.Parse f (commandLine settings ++ (dashes ++ name)%string :: rest)%list
  = flag.Failed (if (name =? "help") || (name =? "h") then flag.ErrHelp
                 else flag.NotDefined name).
Proof.
  revert f. induction settings as [|[k v] settings IH]; intros f Hf Hall Hd Hu.
  - unfold undefinedFlag in Hu. rewrite !andb_true_iff, !negb_true_iff in Hu.
    destruct Hu as (((H0 & Hm) & He) & Hk).
    destruct name as [|c tl]; [discriminate H0|].
    change (strings.HasPrefix (String c tl) "-") with (Ascii.eqb "-" c && true) in Hm.
    rewrite andb_true_r in Hm.
    cbn [strings.ContainsByte] in He. apply orb_false_iff in He as [He Htl].
    rewrite Ascii.eqb_sym in He.
    apply Parse_undefined_step; try assumption.
    apply (Lookup_declared f _ Hf). now apply Lookup_unknown.
  - cbn [forallb fst] in Hall. apply andb_true_iff in Hall as [Hk Hall].
    change (commandLine ((k, v) :: settings) ++ (dashes ++ name)%string :: rest)%list
      with (("-" ++ k) :: v :: (commandLine settings ++ (dashes ++ name)%string :: rest)%list).
    rewrite (Parse_flag f k v _ Hf Hk).
    apply IH; [unfold declared; now rewrite erase_Set_ | exact Hall | exact Hd | exact Hu].
Qed.

(** A flag that ends the command line has no value to take. *)
Lemma Parse_needs_argument (settings : list (string * string)) (f : flag.FlagSet)
  (name : string) :
  declared f ->
  forallb (fun kv => knownFlag (fst kv)) settings = true ->
  knownFlag name = true ->
  flag.Parse f (commandLine settings ++ [("-" ++ name)%string])%list
  = flag.Failed (flag.NeedsArgument name).
Proof.
  revert f. induction settings as [|[k v] settings IH]; intros f Hf Hall Hn.
  - pose proof (Lookup_known f name Hf Hn) as Hin.
    destruct (known_cases name Hn) as [-> | [-> | [-> | ->]]];
      cbn -[flag.Set_ flag.Lookup];
      match goal with
      | |- context [flag.Lookup f ?k] =>
          destruct (flag.Lookup f k) eqn:E; [reflexivity | now elim Hin]
      end.
  - cbn [forallb fst] in Hall. apply andb_true_iff in Hall as [Hk Hall].
    change (commandLine ((k, v) :: settings) ++ [("-" ++ name)%string])%list
      with (("-" ++ k) :: v :: (commandLine settings ++ [("-" ++ name)%string])%list).
    rewrite (Parse_flag f k v _ Hf Hk).
    apply IH; [unfold declared; now rewrite erase_Set_ | exact Hall | exact Hn].
Qed.

End Bootstrap.

(** X12.  A command line that sets flags of the program and leaves the
    bucket empty, whatever follows the flags (a bucket named without its
    flag, say), ends the start with exit status 1: the standard output
    gets the complaint, the standard error the usage, which is the text
    the README shows, and no session is opened. *)
Theorem X12_start_without_bucket (env : Environment)
  (settings : list (string * string)) (rest : list string) :
  forallb (fun kv => knownFlag (fst kv)) settings = true ->
  noFlags rest = true ->
  setting settings "bucket" "" = "" ->
  main env (commandLine settings ++ rest)%list
  = (Emit Stdout ("bucket name not set!!!" ++ flag.newline ++ flag.newline)
     :: usageEvents env,
     Exit 1)
  /\ texts Stderr (fst (main env (commandLine settings ++ rest)%list))
     = usageText (Args0 env).
Proof.
  intros Hall Hrest Hb.
  rewrite (main_settings env settings rest Hall Hrest).
  cbn [startGlobals bucket]. rewrite Hb. split; [reflexivity|].
  apply (usage_text env).
Qed.

Lemma X12_start_without_bucket_witness :
  main sampleEnvironment (commandLine [("port", "8080")] ++ ["tf-registry-storage"])%list
  = (Emit Stdout ("bucket name not set!!!" ++ flag.newline ++ flag.newline)
     :: usageEvents sampleEnvironment,
     Exit 1)
  /\ texts Stderr
       (fst (main sampleEnvironment
               (commandLine [("port", "8080")] ++ ["tf-registry-storage"])%list))
     = usageText "tf-registry".
Proof.
  exact (X12_start_without_bucket sampleEnvironment [("port", "8080")]
           ["tf-registry-storage"] eq_refl eq_refl eq_refl).
Defined.

(** X13.  A command line that sets flags of the program, the bucket
    among them, starts the server when the session opens and the root of
    the bucket is found: each flag has the value of its last setting, or
    its default ([default] for the profile, [3000] for the port, nothing
    for the prefix); the session is opened for the profile, the root [.]
    of the bucket is looked up, and the router listens on the port at
    every address, over the store of the bucket. *)
Theorem X13_start_serving (env : Environment)
  (settings : list (string * string)) (rest : list string) :
  forallb (fun kv => knownFlag (fst kv)) settings = true ->
  noFlags rest = true ->
  let g := startGlobals env settings in
  bucket g <> "" ->
  sessionError env (profile g) = None ->
  statError env (bucket g) "." = None ->
  main env (commandLine settings ++ rest)%list
  = ([ Emit Stdout ("Starting tf-registry webserver on 0.0.0.0:" ++ port g
                     ++ "..." ++ flag.newline);
       Emit Stdout ("Connecting to storage backend..." ++ flag.newline);
       NewSession (profile g);
       StatBucket (bucket g) ".";
       Emit Stdout ("Connection successful, serving terraform registry from: s3://"
                     ++ bucket g ++ "/" ++ prefix g ++ flag.newline);
       ListenAndServe (":" ++ port g) ],
     Serving g).
Proof.
  intros Hall Hrest g Hb Hs Hstat.
  rewrite (main_settings env settings rest Hall Hrest). fold g.
  apply String.eqb_neq in Hb. rewrite Hb, Hs, Hstat. reflexivity.
Qed.

Lemma X13_start_serving_witness :
  main sampleEnvironment
    (commandLine [("bucket", "other"); ("prefix", "modules");
                  ("bucket", "tf-registry-storage")])
  = ([ Emit Stdout ("Starting tf-registry webserver on 0.0.0.0:3000..."
                     ++ flag.newline);
       Emit Stdout ("Connecting to storage backend..." ++ flag.newline);
       NewSession "default";
       StatBucket "tf-registry-storage" ".";
       Emit Stdout ("Connection successful, serving terraform registry from: "
                     ++ "s3://tf-registry-storage/modules" ++ flag.newline);
       ListenAndServe ":3000" ],
     Serving {| bucket := "tf-registry-storage"; profile := "default";
                prefix := "modules"; port := "3000"; s3fsys := plainStore |}).
Proof.
  exact (X13_start_serving sampleEnvironment
           [("bucket", "other"); ("prefix", "modules");
            ("bucket", "tf-registry-storage")] []
           eq_refl eq_refl ltac:(discriminate) eq_refl eq_refl).
Defined.

(** X14.  When the session cannot be opened, or the root of the bucket
    is not found, the start ends with exit status 1 after printing the
    error on the standard output; the router never listens, and without a
    session the bucket is not looked up. *)
Theorem X14_start_failure (env : Environment)
  (settings : list (string * string)) (rest : list string) (err : string) :
  forallb (fun kv => knownFlag (fst kv)) settings = true ->
  noFlags rest = true ->
  let g := startGlobals env settings in
  bucket g <> "" ->
  (sessionError env (profile g) = Some err ->
   main env (commandLine settings ++ rest)%list
   = ((startEvents g ++ [Emit Stdout (err ++ flag.newline)])%list, Exit 1))
  /\ (sessionError env (profile g) = None ->
      statError env (bucket g) "." = Some err ->
      main env (commandLine settings ++ rest)%list
      = ((startEvents g
          ++ [StatBucket (bucket g) "."; Emit Stdout (err ++ flag.newline)])%list,
         Exit 1)).
Proof.
  intros Hall Hrest g Hb. apply String.eqb_neq in Hb.
  rewrite (main_settings env settings rest Hall Hrest). fold g. rewrite Hb.
  split.
  - intros Hs. now rewrite Hs.
  - intros Hs Hstat. now rewrite Hs, Hstat.
Qed.

Lemma X14_start_failure_witness :
  main noSessionEnvironment
    (commandLine [("bucket", "tf-registry-storage"); ("profile", "ops")] ++ [])%list
  = ([ Emit Stdout ("Starting tf-registry webserver on 0.0.0.0:3000..."
                     ++ flag.newline);
       Emit Stdout ("Connecting to storage backend..." ++ flag.newline);
       NewSession "ops";
       Emit Stdout ("SharedConfigProfileNotExist: failed to get profile, ops"
                     ++ flag.newline) ],
     Exit 1).
Proof.
  exact (proj1 (X14_start_failure noSessionEnvironment
                  [("bucket", "tf-registry-storage"); ("profile", "ops")] []
                  "SharedConfigProfileNotExist: failed to get profile, ops"
                  eq_refl eq_refl ltac:(discriminate))
           eq_refl).
Defined.

(** X15.  A flag that the program does not define stops the start
    wherever it stands among the flags, whatever was set before it and
    whatever follows: [-h] and [-help], with one dash or two, print the
    usage on the standard error and end with exit status 0; any other
    name prints the complaint and the usage there and ends with exit
    status 2.  So does a flag of the program that ends the command line
    without a value.  Nothing goes to the standard output and no session
    is opened. *)
Theorem X15_bad_command_line (env : Environment)
  (settings : list (string * string)) (dashes name : string) (rest : list string) :
  forallb (fun kv => knownFlag (fst kv)) settings = true ->
  dashes = "-" \/ dashes = "--" ->
  (undefinedFlag name = true ->
   main env (commandLine settings ++ (dashes ++ name)%string :: rest)%list
   = if (name =? "help") || (name =? "h")
     then (usageEvents env, Exit 0)
     else (Emit Stderr ("flag provided but not defined: -" ++ name ++ flag.newline)
           :: usageEvents env,
           Exit 2))
  /\ (knownFlag name = true ->
      main env (commandLine settings ++ [("-" ++ name)%string])%list
      = (Emit Stderr ("flag needs an argument: -" ++ name ++ flag.newline)
         :: usageEvents env,
         Exit 2)).
Proof.
  intros Hall Hd. assert (Hinit : declared init) by reflexivity.
  pose proof (usage_declared env init Hinit) as Hus.
  split.
  - intros Hu. unfold main.
    rewrite (Parse_undefined settings init dashes name rest Hinit Hall Hd Hu).
    destruct ((name =? "help") || (name =? "h")); cbn [flag.failureText];
      rewrite Hus; [reflexivity|].
    cbn [app]. now rewrite append_assoc.
  - intros Hn. unfold main.
    rewrite (Parse_needs_argument settings init name Hinit Hall Hn).
    cbn [flag.failureText]. rewrite Hus. cbn [app]. now rewrite append_assoc.
Qed.

Lemma X15_bad_command_line_witness :
  main sampleEnvironment
    (commandLine [("bucket", "tf-registry-storage")]
     ++ ("--" ++ "help")%string :: ["-port"; "80"])%list
  = (usageEvents sampleEnvironment, Exit 0).
Proof.
  exact (proj1 (X15_bad_command_line sampleEnvironment
                  [("bucket", "tf-registry-storage")] "--" "help" ["-port"; "80"]
                  eq_refl (or_intror eq_refl))
           eq_refl).
Defined.

(** ** The order of the routes *)

Section RouteOrder.

Variable lib : http.Delegated.
Variable g : Globals.

Lemma FindRoute_single (H : Type) (rs : list (chi.Route H)) (path : string)
  (rt : chi.Route H) (ps : list (string * string)) :
  Forall (fun rt => chi.method rt = "GET") rs ->
  (forall a b, In a rs -> In b rs ->
               chi.matches (chi.tokens (chi.pattern a)) path <> None ->
               chi.matches (chi.tokens (chi.pattern b)) path <> None -> a = b) ->
  In rt rs ->
  chi.matches (chi.tokens (chi.pattern rt)) path = Some ps ->
  chi.FindRoute rs "GET" path = chi.Found (chi.handler rt) ps.
Proof.
  intros Hget. induction Hget as [|a rs Ha _ IH]; intros Huniq Hin Hm;
    [now elim Hin|].
  cbn [chi.FindRoute].
  destruct (chi.matches (chi.tokens (chi.pattern a)) path) as [qs|] eqn:Ea.
  - assert (E : a = rt).
    { apply Huniq; [now left | exact Hin | congruence | congruence]. }
    subst a. rewrite Ha. change ("GET" =? "GET") with true. cbv iota.
    congruence.
  - destruct Hin as [-> | Hin]; [congruence|].
    apply IH; [|exact Hin | exact Hm].
    intros x y Hx Hy. apply Huniq; now right.
Qed.

Lemma FindRoute_without_routes (H : Type) (rs : list (chi.Route H))
  (meth path : string) :
  Forall (fun rt => chi.method rt = "GET") rs -> meth <> "GET" ->
  chi.FindRoute rs meth path
  = if existsb (fun rt => match chi.matches (chi.tokens (chi.pattern rt)) path with
                          | Some _ => true | None => false end) rs
    then chi.MethodNotAllowed else chi.NotFound.
Proof.
  intros Hget Hm. induction Hget as [|rt rs Hrt _ IH]; [reflexivity|].
  cbn [chi.FindRoute existsb].
  destruct (chi.matches (chi.tokens (chi.pattern rt)) path) as [ps|]; [|exact IH].
  rewrite Hrt. destruct (String.eqb_spec "GET" meth) as [E|_]; [now elim Hm|].
  cbn [orb]. rewrite IH. now destruct (existsb _ rs).
Qed.

(** No path is one of two routes of the program. *)
Lemma routes_single (path : string) (a b : chi.Route HandlerFunc) :
  In a (routes lib g) -> In b (routes lib g) ->
  chi.matches (chi.tokens (chi.pattern a)) path <> None ->
  chi.matches (chi.tokens (chi.pattern b)) path <> None -> a = b.
Proof.
  intros Ha Hb Hma Hmb.
  apply In_nth_error in Ha as [i Hi]. apply In_nth_error in Hb as [j Hj].
  destruct (Nat.eq_dec i j) as [->|Hij]; [congruence|].
  destruct (chi.matches (chi.tokens (chi.pattern a)) path) as [ps|] eqn:Ea;
    [|now elim Hma].
  destruct (chi.matches (chi.tokens (chi.pattern b)) path) as [qs|] eqn:Eb;
    [|now elim Hmb].
  exfalso. exact (route_patterns_disjoint lib g path i j a b ps qs Hi Hj Hij Ea Eb).
Qed.

End RouteOrder.

(** X16.  The order in which [main] registers its five routes plays no
    part: no path is one of two of them, and the search finds the same
    handler with the same URL parameters, or fails in the same way, in
    whatever order the routes stand. *)
Theorem X16_route_order_immaterial (lib : http.Delegated) (g : Globals)
  (rs : list (chi.Route HandlerFunc)) (meth path : string) :
  Permutation rs (routes lib g) ->
  chi.FindRoute rs meth path = chi.FindRoute (routes lib g) meth path.
Proof.
  intros Hperm.
  assert (Hget : Forall (fun rt => chi.method rt = "GET") rs).
  { apply Forall_forall. intros rt Hin.
    apply (proj1 (Forall_forall _ _) (routes_are_get lib g)).
    now apply (Permutation_in _ Hperm). }
  set (hit := fun rt : chi.Route HandlerFunc =>
                match chi.matches (chi.tokens (chi.pattern rt)) path with
                | Some _ => true | None => false end).
  assert (Hex : existsb hit rs = existsb hit (routes lib g)).
  { apply eq_true_iff_eq. rewrite !existsb_exists.
    split; intros (rt & Hin & Hrt); exists rt; (split; [|exact Hrt]).
    - now apply (Permutation_in _ Hperm).
    - now apply (Permutation_in _ (Permutation_sym Hperm)). }
  destruct (String.eqb_spec meth "GET") as [->|Hm].
  - destruct (existsb hit (routes lib g)) eqn:E.
    + apply existsb_exists in E as (rt & Hin & Hrt). unfold hit in Hrt.
      destruct (chi.matches (chi.tokens (chi.pattern rt)) path) as [ps|] eqn:Ert;
        [|discriminate Hrt].
      rewrite (FindRoute_single _ (routes lib g) path rt ps (routes_are_get lib g)
                 (routes_single lib g path) Hin Ert).
      apply (FindRoute_single _ rs path rt ps Hget);
        [|now apply (Permutation_in _ (Permutation_sym Hperm)) | exact Ert].
      intros a b Ha Hb. apply (routes_single lib g path);
        now apply (Permutation_in _ Hperm).
    + assert (Hnone : forall l, existsb hit l = false ->
                 Forall (fun rt => chi.matches (chi.tokens (chi.pattern rt)) path = None) l).
      { intros l Hl. apply Forall_forall. intros rt Hin.
        destruct (chi.matches (chi.tokens (chi.pattern rt)) path) eqn:Ert;
          [|reflexivity].
        assert (Ht : existsb hit l = true).
        { apply existsb_exists. exists rt. split; [exact Hin|].
          unfold hit. now rewrite Ert. }
        congruence. }
      rewrite (FindRoute_unmatched _ _ _ _ (Hnone _ E)).
      now rewrite (FindRoute_unmatched _ _ _ _ (Hnone _ Hex)).
  - rewrite (FindRoute_without_routes _ rs meth path Hget Hm).
    rewrite (FindRoute_without_routes _ _ meth path (routes_are_get lib g) Hm).
    fold hit. now rewrite Hex.
Qed.

Lemma X16_route_order_immaterial_witness :
  chi.FindRoute (rev (routes sampleLib plainGlobals)) "GET"
    "/terraform/modules/v1/acme/vpc/aws/versions"
  = chi.FindRoute (routes sampleLib plainGlobals) "GET"
      "/terraform/modules/v1/acme/vpc/aws/versions".
Proof.
  exact (X16_route_order_immaterial sampleLib plainGlobals
           (rev (routes sampleLib plainGlobals)) "GET"
           "/terraform/modules/v1/acme/vpc/aws/versions"
           (Permutation_sym (Permutation_rev _))).
Defined.

(** ** The bytes of a listing's document *)

Section DocumentBytes.

Lemma allBytes_append (f : ascii -> bool) (a b : string) :
  allBytes f (a ++ b) = allBytes f a && allBytes f b.
Proof.
  induction a as [|c a IH]; [reflexivity|]. cbn [append allBytes].
  now rewrite IH, andb_assoc.
Qed.

Lemma allBytes_concat (f : ascii -> bool) (sep : string) (l : list string) :
  allBytes f sep = true -> Forall (fun s => allBytes f s = true) l ->
  allBytes f (String.concat sep l) = true.
Proof.
  intros Hsep Hl. induction Hl as [|s l Hs Hl IH]; [reflexivity|].
  destruct l as [|s' l]; [exact Hs|].
  change (String.concat sep (s :: s' :: l))
    with (s ++ sep ++ String.concat sep (s' :: l)).
  now rewrite !allBytes_append, Hs, Hsep, IH.
Qed.

Lemma high_inert (b : ascii) :
  Nat.leb 128 (nat_of_ascii b) = true -> inert b = true.
Proof.
  intros H. unfold inert.
  assert (H32 : Nat.leb 32 (nat_of_ascii b) = true).
  { apply Nat.leb_le. apply Nat.leb_le in H. lia. }
  rewrite H32.
  destruct (Ascii.eqb_spec b "<") as [->|_]; [discriminate H|].
  destruct (Ascii.eqb_spec b ">") as [->|_]; [discriminate H|].
  destruct (Ascii.eqb_spec b "&") as [->|_]; [discriminate H|].
  reflexivity.
Qed.

Lemma htmlSafe_inert (b : ascii) : json.htmlSafe b = true -> inert b = true.
Proof.
  unfold json.htmlSafe, inert. rewrite !andb_true_iff.
  intros ((((((H32 & _) & _) & _) & Hlt) & Hgt) & Hamp). tauto.
Qed.

Lemma hexDigit_inert (n : nat) : inert (json.hexDigit n) = true.
Proof. do 16 (destruct n as [|n]; [reflexivity|]). reflexivity. Qed.

Lemma escapeByte_inert (b : ascii) : allBytes inert (json.escapeByte b) = true.
Proof.
  unfold json.escapeByte.
  destruct (Ascii.eqb_spec b "\") as [->|_]; [reflexivity|].
  destruct (Ascii.eqb_spec b "034") as [->|_]; [reflexivity|]. cbn [orb].
  destruct (Nat.eqb (nat_of_ascii b) 10); [reflexivity|].
  destruct (Nat.eqb (nat_of_ascii b) 13); [reflexivity|].
  destruct (Nat.eqb (nat_of_ascii b) 9); [reflexivity|].
  cbn [append allBytes]. now rewrite !hexDigit_inert.
Qed.

Lemma between_high (lo hi : nat) (b : ascii) :
  128 <= lo -> json.between lo hi b = true ->
  Nat.leb 128 (nat_of_ascii b) = true.
Proof.
  unfold json.between. intros Hlo H. apply andb_true_iff in H as [H _].
  apply Nat.leb_le. apply Nat.leb_le in H. lia.
Qed.

(** The bytes that follow the first byte of a well-formed rune are
    bytes of that rune. *)
Lemma runeWidth_high (b : ascii) (rest : string) (k : nat) :
  json.runeWidth (String b rest) = S k -> highPrefix k rest = true.
Proof.
  unfold json.runeWidth. destruct rest as [|b1 rest]; [discriminate|].
  destruct (json.between 194 223 b).
  { destruct (json.cont b1) eqn:E1; [|discriminate].
    intros [= <-]. cbn [highPrefix].
    now rewrite (between_high 128 191 b1 (le_n _) E1). }
  destruct (json.between 224 239 b).
  { destruct rest as [|b2 rest]; [discriminate|].
    set (lo := if Nat.eqb (nat_of_ascii b) 224 then 160 else 128).
    set (hi := if Nat.eqb (nat_of_ascii b) 237 then 159 else 191).
    assert (Hlo : 128 <= lo) by (unfold lo; destruct (Nat.eqb _ 224); lia).
    destruct (json.between lo hi b1) eqn:E1; [|discriminate].
    destruct (json.cont b2) eqn:E2; [|discriminate].
    intros [= <-]. cbn [highPrefix].
    rewrite (between_high lo hi b1 Hlo E1).
    now rewrite (between_high 128 191 b2 (le_n _) E2). }
  destruct (json.between 240 244 b); [|discriminate].
  destruct rest as [|b2 [|b3 rest]]; try discriminate.
  set (lo := if Nat.eqb (nat_of_ascii b) 240 then 144 else 128).
  set (hi := if Nat.eqb (nat_of_ascii b) 244 then 143 else 191).
  assert (Hlo : 128 <= lo) by (unfold lo; destruct (Nat.eqb _ 240); lia).
  destruct (json.between lo hi b1) eqn:E1; [|discriminate].
  destruct (json.cont b2) eqn:E2; [|discriminate].
  destruct (json.cont b3) eqn:E3; [|discriminate].
  intros [= <-]. cbn [highPrefix].
  rewrite (between_high lo hi b1 Hlo E1).
  rewrite (between_high 128 191 b2 (le_n _) E2).
  now rewrite (between_high 128 191 b3 (le_n _) E3).
Qed.

Lemma lineSeparator_inert (s esc : string) :
  json.lineSeparator s = Some esc -> allBytes inert esc = true.
Proof.
  unfold json.lineSeparator. intros H.
  repeat match type of H with
         | context [match ?x with _ => _ end] => destruct x; try discriminate H
         end;
    injection H as <-; reflexivity.
Qed.

(** What the encoder writes for a string holds no control byte and none
    of [<], [>] and [&], whatever the bytes of the string. *)
Lemma escape_inert (s : string) (copy : bool) (pending : nat) :
  (copy = true -> highPrefix pending s = true) ->
  allBytes inert (json.escape copy pending s) = true.
Proof.
  revert copy pending. induction s as [|b rest IH]; intros copy pending H;
    [reflexivity|].
  cbn [json.escape]. destruct pending as [|k].
  - destruct (Nat.ltb (nat_of_ascii b) 128) eqn:Hlt.
    + rewrite allBytes_append, (IH true 0) by reflexivity.
      destruct (json.htmlSafe b) eqn:Hs.
      * cbn [allBytes]. now rewrite (htmlSafe_inert b Hs).
      * now rewrite escapeByte_inert.
    + assert (Hb : inert b = true).
      { apply high_inert. apply Nat.leb_le. apply Nat.ltb_ge in Hlt. exact Hlt. }
      destruct (json.runeWidth (String b rest)) as [|k] eqn:Hw.
      * rewrite allBytes_append, (IH true 0) by reflexivity. reflexivity.
      * destruct (json.lineSeparator (String b rest)) as [esc|] eqn:Hl.
        -- rewrite allBytes_append, (lineSeparator_inert _ _ Hl).
           apply IH. discriminate.
        -- cbn [allBytes]. rewrite Hb. apply IH. intros _.
           exact (runeWidth_high b rest k Hw).
  - rewrite allBytes_append. destruct copy.
    + specialize (H eq_refl). cbn [highPrefix] in H.
      apply andb_true_iff in H as [Hb Hk].
      cbn [allBytes]. rewrite (high_inert b Hb). apply IH. intros _. exact Hk.
    + apply IH. discriminate.
Qed.

Lemma versionEntry_inert (name : string) :
  allBytes inert (versionEntry name) = true.
Proof.
  unfold versionEntry, json.quote, inQuotes.
  rewrite !allBytes_append, (escape_inert name true 0) by reflexivity.
  reflexivity.
Qed.

Lemma listingText_inert (names : list string) :
  allBytes inert (listingText names) = true.
Proof.
  unfold listingText, inQuotes. rewrite !allBytes_append.
  rewrite allBytes_concat; [reflexivity | reflexivity |].
  apply Forall_forall. intros s Hs. apply in_map_iff in Hs as (name & <- & _).
  apply versionEntry_inert.
Qed.

End DocumentBytes.

(** X17.  Whatever the names of the entries that the store lists for the
    module path of a versions request, the body of the answer is one line
    of text ended by a newline, with no control byte and none of [<],
    [>] and [&] before it: the names cannot break the document up or
    carry markup into it. *)
Theorem X17_listing_one_line (lib : http.Delegated) (g : Globals)
  (ns n p : string) (dirs : list fs.DirEntry) :
  strings.ContainsByte ns "/" = false ->
  strings.ContainsByte n "/" = false ->
  strings.ContainsByte p "/" = false ->
  fs.ReadDir (s3fsys g) (filepath.Join [prefix g; ns; n; p]) = fs.Ok dirs ->
  exists document : string,
    http.Body (fst (serve lib g (request "GET" (versionsPath ns n p))))
    = document ++ http.newline
    /\ allBytes inert document = true.
Proof.
  intros Hns Hn Hp Hdir.
  rewrite (serve_versions lib g "GET" ns n p (or_introl eq_refl) Hns Hn Hp).
  set (r := withParams (request "GET" (versionsPath ns n p)) _).
  change (filepath.Join [prefix g; ns; n; p])
    with (modPath (prefix g) (listedModule r)) in Hdir.
  rewrite (httpGetVersions_ok g r dirs Hdir). cbn [fst http.Body].
  destruct dirs as [|d dirs].
  - exists noVersions. split; reflexivity.
  - exists (listingText (map fs.Name (d :: dirs))). split.
    + apply encode_listing. discriminate.
    + apply listingText_inert.
Qed.

Lemma X17_listing_one_line_witness :
  exists document : string,
    http.Body
      (fst (serve sampleLib plainGlobals (request "GET" (versionsPath "acme" "vpc" "aws"))))
    = document ++ http.newline
    /\ allBytes inert document = true.
Proof.
  exact (X17_listing_one_line sampleLib plainGlobals "acme" "vpc" "aws"
           [versionDir "1.0.0"; versionDir "1.1.0"; versionDir "2.0.0"]
           eq_refl eq_refl eq_refl eq_refl).
Defined.

(** X18.  The content server does not only serve archives: a GET request
    for a path below [/download/] that ends in a slash and names a
    directory of the store without an index page is answered with status
    200 and the page that lists the entries of the directory, as
    [text/html] under the content encoding the handler has set.  The
    path [/download/] itself lists the root of the bucket. *)
Theorem X18_directory_listed (lib : http.Delegated) (g : Globals) (rest : string)
  (entries : list fs.DirEntry) (modTime : option string) (e : fs.Error) :
  let index := strings.TrimSuffix (filepath.Clean (servedPath rest)) "/" ++ "/index.html" in
  let indexKey := if index =? "/" then "." else strings.TrimPrefix index "/" in
  strings.HasSuffix (servedPath rest) "/index.html" = false ->
  http.endsWithSlash (servedPath rest) = true ->
  fs.Open (s3fsys g) (servedKey rest) = fs.Ok (fs.Directory (fs.Ok entries) modTime) ->
  fs.Open (s3fsys g) indexKey = fs.Err e ->
  serve lib g (request "GET" ("/download/" ++ rest))
  = ({| http.Status := 200;
        http.Headers :=
          ([("Content-Encoding", "application/octet-stream");
            ("Content-Type", "text/html; charset=utf-8")]
           ++ match modTime with
              | Some t => [("Last-Modified", t)]
              | None => []
              end)%list;
        http.Body := http.dirListing lib entries |},
     [fs.CallOpen (servedKey rest); fs.CallOpen indexKey]).
Proof.
  intros index indexKey Hidx Hslash Hopen Hindex.
  change (serve lib g (request "GET" ("/download/" ++ rest)))
    with (http.respond "GET"
            (httpGetModule lib g
               (withParams (request "GET" ("/download/" ++ rest)) [("*", rest)]))).
  unfold http.respond. rewrite httpGetModule_serveFile.
  unfold http.serveFile, withParams, request.
  cbn [http.Method http.Path http.RawPath http.URLParams http.Conditional].
  rewrite Hidx. unfold http.bind at 1. unfold http.Open at 1. cbv beta zeta iota.
  fold (servedKey rest). rewrite Hopen, Hslash. cbn [negb].
  unfold http.bind at 1. unfold http.Open at 1. cbv beta zeta iota.
  fold index. fold indexKey. rewrite Hindex.
  unfold http.serveDirectory.
  cbn [http.Conditional andb].
  unfold http.bind, http.setLastModified, http.SetHeader, http.Write,
    http.onWriter, http.ret.
  assert (Hw : forall rw, http.wroteHeader rw = false -> http.status rw = 0 ->
                 http.reqMethod rw = "GET" -> http.body rw = "" ->
                 http.write (http.dirListing lib entries) rw
                 = {| http.reqMethod := "GET"; http.header := http.header rw;
                      http.wroteHeader := true; http.status := 200;
                      http.sentHeader := http.header rw;
                      http.body := http.dirListing lib entries |}).
  { intros rw H1 H2 H3 H4. unfold http.write, http.writeHeader. rewrite H1.
    cbn [http.status http.reqMethod http.header http.wroteHeader http.sentHeader
         http.body http.StatusOK].
    rewrite H3, H4.
    destruct (http.dirListing lib entries =? "") eqn:E.
    - apply String.eqb_eq in E. now rewrite E.
    - reflexivity. }
  destruct modTime as [t|]; cbn -[servedKey http.write];
    rewrite Hw by reflexivity; reflexivity.
Qed.

Lemma X18_directory_listed_witness :
  serve sampleLib (globals "" rootedStore) (request "GET" ("/download/" ++ ""))
  = ({| http.Status := 200;
        http.Headers :=
          [("Content-Encoding", "application/octet-stream");
           ("Content-Type", "text/html; charset=utf-8")];
        http.Body := http.dirListing sampleLib [versionDir "acme"; versionDir "globex"] |},
     [fs.CallOpen "."; fs.CallOpen "index.html"]).
Proof.
  exact (X18_directory_listed sampleLib (globals "" rootedStore) ""
           [versionDir "acme"; versionDir "globex"] None
           {| fs.kind := fs.ErrNotExist;
              fs.message := "open index.html: file does not exist" |}
           eq_refl eq_refl eq_refl eq_refl).
Defined.
